(** * A file-backed chat: sender ([chat_send.py]) and receiver ([chat_receive.py])

    The two scripts share one text file.  [BasicChatSender.send_message]
    appends three lines per accepted message (a human readable line, a line
    ["JSON: " + json.dumps(message)] and a rule of fifty dashes);
    [BasicChatReceiver.read_new_messages] reads whatever was appended since its
    last read, keeps the lines that carry the ["JSON: "] prefix and returns the
    decoded messages whose [message_id] it has not displayed yet.

    Python values are embedded as follows.
    - [str] is a list of Unicode code points ([pystr]); [len] is [length].
    - A decoded JSON document is a [json] tree; integers are [Z], floats are
      IEEE binary64 values ([spec_float]), a [dict] is an association list in
      insertion order.
    - An exception is a value of [exn]; code that can raise returns a
      [result].  A [try ... except Exception] block turns every [Raise] into
      the handler's normal return.
    - The chat file is an [option pystr]: [None] while the file does not exist,
      otherwise its text.  Offsets ([seek]/[tell]) count code points of that
      text.
    - [json.loads] and [json.dumps] belong to Python's library, not to the
      repository: the receiver is written over an arbitrary decoder and the
      sender over an arbitrary encoder (section variables).  A decoder and an
      encoder for the records the sender writes are given in [Module PyJson] so
      that every definition can be evaluated on concrete files. *)

From Stdlib Require Import String Ascii ZArith NArith List Bool Lia Sorted.
From Stdlib Require Import Floats.SpecFloat DecimalString.
Import ListNotations.

Set Implicit Arguments.
Set Warnings "-register-all".
Local Open Scope bool_scope.

(* ================================================================== *)
(** * Python strings *)
(* ================================================================== *)

Module PyStr.

Definition codepoint := N.
Definition pystr := list codepoint.

(** An ASCII literal of the source as a [pystr]. *)
Definition lit (s : string) : pystr := map N_of_ascii (list_ascii_of_string s).

Definition eqb (a b : pystr) : bool :=
  if list_eq_dec N.eq_dec a b then true else false.

(** [str.isspace] for one code point: the 29 code points Python classifies
    as whitespace. *)
Definition whitespace : list codepoint :=
  [9; 10; 11; 12; 13; 28; 29; 30; 31; 32; 133; 160; 5760;
   8192; 8193; 8194; 8195; 8196; 8197; 8198; 8199; 8200; 8201; 8202;
   8232; 8233; 8239; 8287; 12288]%N.

Definition isspace (c : codepoint) : bool := existsb (N.eqb c) whitespace.

Fixpoint lstrip (s : pystr) : pystr :=
  match s with
  | [] => []
  | c :: t => if isspace c then lstrip t else s
  end.

Fixpoint rstrip (s : pystr) : pystr :=
  match s with
  | [] => []
  | c :: t =>
      match rstrip t with
      | [] => if isspace c then [] else [c]
      | t' => c :: t'
      end
  end.

(** [s.strip()] *)
Definition strip (s : pystr) : pystr := rstrip (lstrip s).

(** [s.startswith(p)] *)
Fixpoint startswith (p s : pystr) : bool :=
  match p, s with
  | [], _ => true
  | _ :: _, [] => false
  | a :: p', b :: s' => N.eqb a b && startswith p' s'
  end.

(** [w in s] for strings: [w] occurs as a contiguous substring of [s]. *)
Fixpoint contains (w s : pystr) : bool :=
  startswith w s ||
  match s with
  | [] => false
  | _ :: t => contains w t
  end.

(** [s.split(sep)] for a separator of one code point (the only use in the
    source: ['\n'] and [' ']).  The result is never empty. *)
Fixpoint split (sep : codepoint) (s : pystr) : list pystr :=
  match s with
  | [] => [[]]
  | c :: t =>
      if N.eqb c sep then [] :: split sep t
      else match split sep t with
           | [] => [[c]]
           | w :: ws => (c :: w) :: ws
           end
  end.

(** [s.lower()].  Python applies the full Unicode case mapping.  The source
    only searches the result for the ASCII words ["spam"] and ["test123"],
    so the mapping is written out where it produces ASCII: [A-Z], U+0130
    (to [i] followed by U+0307) and U+212A (KELVIN SIGN, to [k]).  Every
    other code point maps to code points outside ASCII and is kept as it
    is. *)
Definition lower_char (c : codepoint) : pystr :=
  if (65 <=? c)%N && (c <=? 90)%N then [(c + 32)%N]
  else if (c =? 304)%N then [105; 775]%N
  else if (c =? 8490)%N then [107]%N
  else [c].

Definition lower (s : pystr) : pystr := flat_map lower_char s.

(** [c * n] for a one-character string [c]. *)
Definition repeat_char (c : codepoint) (n : nat) : pystr := repeat c n.

(** Text-mode reading with the default [newline=None]: ["\r\n"] and a lone
    ["\r"] both arrive as ["\n"]. *)
Fixpoint universal_newlines (s : pystr) : pystr :=
  match s with
  | [] => []
  | c :: t =>
      if N.eqb c 13 then
        match t with
        | c' :: t' => if N.eqb c' 10 then 10%N :: universal_newlines t'
                      else 10%N :: universal_newlines t
        | [] => [10%N]
        end
      else c :: universal_newlines t
  end.

End PyStr.
Import PyStr.

Definition NL : codepoint := 10%N.
Definition CR : codepoint := 13%N.
Definition SP : codepoint := 32%N.

(* ================================================================== *)
(** * Python values, exceptions *)
(* ================================================================== *)

(** What [json.loads] can return.  A float is held in the canonical form of
    its binary64 value, so that two equal finite floats have the same
    mantissa and exponent. *)
Inductive json : Type :=
| JNull
| JBool (b : bool)
| JInt (z : Z)
| JFloat (f : spec_float)
| JStr (s : pystr)
| JArr (items : list json)
| JObj (members : list (pystr * json)).

Definition dict := list (pystr * json).

(** The exceptions the two scripts can meet. *)
Inductive exn : Type :=
| AttributeError
| TypeError
| IndexError
| ValueError
| OverflowError
| RecursionError
| KeyError
| OSError.

Inductive result (A : Type) : Type :=
| Ok (a : A)
| Raise (e : exn).
Arguments Ok {A} a.
Arguments Raise {A} e.

Definition bind {A B} (r : result A) (k : A -> result B) : result B :=
  match r with
  | Ok a => k a
  | Raise e => Raise e
  end.

Declare Scope py_scope.
Delimit Scope py_scope with py.
Notation "x <- c1 ;; c2" := (bind c1 (fun x => c2))
  (at level 61, c1 at next level, right associativity) : py_scope.
Open Scope py_scope.

(** Outcome of one [json.loads] call: the decoded value, the
    [json.JSONDecodeError] the scripts catch per line, or another exception
    (a [RecursionError] on deeply nested input, say). *)
Inductive loads_result : Type :=
| Loaded (v : json)
| JSONDecodeError
| LoadsRaised (e : exn).

Module Py.

(** [d[k]] lookup of a dict held in insertion order. *)
Fixpoint dict_get (k : pystr) (d : dict) : option json :=
  match d with
  | [] => None
  | (k', v) :: d' => if PyStr.eqb k k' then Some v else dict_get k d'
  end.

(** [v.get(k, dflt)]: only a dict has the method. *)
Definition get (v : json) (k : pystr) (dflt : json) : result json :=
  match v with
  | JObj d => Ok (match dict_get k d with Some x => x | None => dflt end)
  | _ => Raise AttributeError
  end.

Definition float_is_zero (f : spec_float) : bool :=
  match f with S754_zero _ => true | _ => false end.

(** [bool(v)] *)
Definition truthy (v : json) : bool :=
  match v with
  | JNull => false
  | JBool b => b
  | JInt z => negb (z =? 0)%Z
  | JFloat f => negb (float_is_zero f)
  | JStr s => match s with [] => false | _ => true end
  | JArr l => match l with [] => false | _ => true end
  | JObj d => match d with [] => false | _ => true end
  end.

(** Lists and dicts have no hash. *)
Definition hashable (v : json) : bool :=
  match v with
  | JArr _ | JObj _ => false
  | _ => true
  end.

(** Exact comparison of an int with a binary64 float, as [int.__eq__] and
    [float.__eq__] do it. *)
Definition int_float_eq (z : Z) (f : spec_float) : bool :=
  match f with
  | S754_zero _ => (z =? 0)%Z
  | S754_finite s m e =>
      if (0 <=? e)%Z then (z =? cond_Zopp s (Zpos m * 2 ^ e))%Z
      else (Zpos m mod 2 ^ (- e) =? 0)%Z && (z =? cond_Zopp s (Zpos m / 2 ^ (- e)))%Z
  | _ => false
  end.

(** [a == b] on decoded scalars.  [bool] is a subtype of [int]. *)
Definition py_eq (a b : json) : bool :=
  match a, b with
  | JNull, JNull => true
  | JStr s, JStr t => PyStr.eqb s t
  | JBool x, JBool y => Bool.eqb x y
  | JBool x, JInt z | JInt z, JBool x => (Z.b2z x =? z)%Z
  | JBool x, JFloat f | JFloat f, JBool x => int_float_eq (Z.b2z x) f
  | JInt x, JInt y => (x =? y)%Z
  | JInt z, JFloat f | JFloat f, JInt z => int_float_eq z f
  | JFloat f, JFloat g => SFeqb f g
  | _, _ => false
  end.

(** Set lookup compares by identity first, then by [==].  Among decoded
    values identity only adds the NaN case: the decoder returns its one NaN
    object for every [NaN] literal. *)
Definition key_eq (a b : json) : bool :=
  match a, b with
  | JFloat S754_nan, JFloat S754_nan => true
  | _, _ => py_eq a b
  end.

(** A [set] of decoded scalars, newest element last. *)
Definition pyset := list json.

(** [v in s]; hashing an unhashable [v] raises [TypeError]. *)
Definition set_contains (v : json) (s : pyset) : result bool :=
  if hashable v then Ok (existsb (key_eq v) s) else Raise TypeError.

(** [s.add(v)] *)
Definition set_add (v : json) (s : pyset) : result pyset :=
  if hashable v then Ok (if existsb (key_eq v) s then s else s ++ [v])
  else Raise TypeError.

(** [l[start:]] for a list and an arbitrary integer [start]. *)
Definition slice_from {A} (start : Z) (l : list A) : list A :=
  if (start <? 0)%Z then skipn (length l - Z.to_nat (- start)) l
  else skipn (Z.to_nat start) l.

(** [l[i]] for a non-negative literal index. *)
Definition index {A} (l : list A) (i : nat) : result A :=
  match nth_error l i with
  | Some x => Ok x
  | None => Raise IndexError
  end.

(** [int(f)] for a float: truncation toward zero. *)
Definition int_of_float (f : spec_float) : result Z :=
  match f with
  | S754_zero _ => Ok 0%Z
  | S754_finite s m e =>
      Ok (cond_Zopp s (if (0 <=? e)%Z then Zpos m * 2 ^ e
                       else Zpos m / 2 ^ (- e)))%Z
  | S754_infinity _ => Raise OverflowError
  | S754_nan => Raise ValueError
  end.

(** Binary64 arithmetic. *)
Definition prec : Z := 53.
Definition emax : Z := 1024.
Definition float_mul : spec_float -> spec_float -> spec_float := SFmul prec emax.
Definition float_of_Z (z : Z) : spec_float := binary_normalize prec emax z 0 false.

End Py.

(* ================================================================== *)
(** * A JSON codec to run the scripts on concrete files *)
(* ================================================================== *)

(** [loads] follows [json.loads] with its default settings (strict strings,
    [NaN]/[Infinity] accepted, duplicate keys resolved to the last value);
    [dumps] follows [json.dumps] with its defaults ([ensure_ascii], the
    separators [", "] and [": "]).  The shortest decimal form of a finite
    non-zero float is not reproduced: [dumps] has no result there. *)
Module PyJson.

Definition prec := Py.prec.
Definition emax := Py.emax.

Definition join (sep : pystr) (parts : list pystr) : pystr :=
  match parts with
  | [] => []
  | p :: ps => p ++ flat_map (fun q => sep ++ q) ps
  end.

(** ** Encoding *)

Definition hex_digit (d : N) : codepoint :=
  if (d <? 10)%N then (48 + d)%N else (87 + d)%N.

(** ['{:04x}'.format(n)] for [n < 65536]. *)
Definition hex4 (n : N) : pystr :=
  [hex_digit (n / 4096 mod 16); hex_digit (n / 256 mod 16);
   hex_digit (n / 16 mod 16); hex_digit (n mod 16)]%N.

Definition escape_char (c : codepoint) : pystr :=
  if (c =? 34)%N then [92; 34]%N
  else if (c =? 92)%N then lit "\\"
  else if (c =? 10)%N then lit "\n"
  else if (c =? 13)%N then lit "\r"
  else if (c =? 9)%N then lit "\t"
  else if (c =? 12)%N then lit "\f"
  else if (c =? 8)%N then lit "\b"
  else if (32 <=? c)%N && (c <=? 126)%N then [c]
  else if (c <? 65536)%N then lit "\u" ++ hex4 c
  else
    let n := (c - 65536)%N in
    lit "\u" ++ hex4 (55296 + (n / 1024) mod 1024)%N ++
    lit "\u" ++ hex4 (56320 + n mod 1024)%N.

Definition encode_string (s : pystr) : pystr :=
  [34%N] ++ flat_map escape_char s ++ [34%N].

Definition decimal (z : Z) : pystr :=
  lit (DecimalString.NilZero.string_of_int (Z.to_int z)).

Definition encode_float (f : spec_float) : option pystr :=
  match f with
  | S754_nan => Some (lit "NaN")
  | S754_infinity false => Some (lit "Infinity")
  | S754_infinity true => Some (lit "-Infinity")
  | S754_zero false => Some (lit "0.0")
  | S754_zero true => Some (lit "-0.0")
  | S754_finite _ _ _ => None
  end.

Fixpoint dumps (v : json) : option pystr :=
  match v with
  | JNull => Some (lit "null")
  | JBool true => Some (lit "true")
  | JBool false => Some (lit "false")
  | JInt z => Some (decimal z)
  | JFloat f => encode_float f
  | JStr s => Some (encode_string s)
  | JArr items =>
      let fix go (l : list json) : option (list pystr) :=
        match l with
        | [] => Some []
        | x :: r =>
            match dumps x, go r with
            | Some a, Some b => Some (a :: b)
            | _, _ => None
            end
        end in
      option_map (fun parts => lit "[" ++ join (lit ", ") parts ++ lit "]")
                 (go items)
  | JObj members =>
      let fix go (l : list (pystr * json)) : option (list pystr) :=
        match l with
        | [] => Some []
        | (k, x) :: r =>
            match dumps x, go r with
            | Some a, Some b => Some ((encode_string k ++ lit ": " ++ a) :: b)
            | _, _ => None
            end
        end in
      option_map (fun parts => lit "{" ++ join (lit ", ") parts ++ lit "}")
                 (go members)
  end.

(** The encoder as the sender uses it. *)
Definition json_dumps (v : json) : pystr :=
  match dumps v with
  | Some s => s
  | None => []
  end.

(** ** Decoding *)

Inductive parsed (A : Type) : Type :=
| POk (a : A) (rest : pystr)
| PFail
| PDeep.
Arguments POk {A} a rest.
Arguments PFail {A}.
Arguments PDeep {A}.

Definition is_ws (c : codepoint) : bool :=
  (c =? 32)%N || (c =? 9)%N || (c =? 10)%N || (c =? 13)%N.

Fixpoint skip_ws (s : pystr) : pystr :=
  match s with
  | c :: t => if is_ws c then skip_ws t else s
  | [] => []
  end.

Definition is_digit (c : codepoint) : bool := (48 <=? c)%N && (c <=? 57)%N.

Definition hex_value (c : codepoint) : option N :=
  if is_digit c then Some (c - 48)%N
  else if (97 <=? c)%N && (c <=? 102)%N then Some (c - 87)%N
  else if (65 <=? c)%N && (c <=? 70)%N then Some (c - 55)%N
  else None.

Definition hex4_value (a b c d : codepoint) : option N :=
  match hex_value a, hex_value b, hex_value c, hex_value d with
  | Some x, Some y, Some z, Some w => Some (x * 4096 + y * 256 + z * 16 + w)%N
  | _, _, _, _ => None
  end.

(** The body of a string literal, after its opening quote.  [hi] holds a
    high surrogate read from the escape just before, waiting for its low
    half. *)
Fixpoint scan_string (s : pystr) (hi : option N) (acc : pystr) : parsed pystr :=
  let flush := match hi with Some h => acc ++ [h] | None => acc end in
  match s with
  | [] => PFail
  | c :: t =>
      if (c =? 34)%N then POk flush t
      else if (c <? 32)%N then PFail
      else if (c =? 92)%N then
        match t with
        | [] => PFail
        | e :: t1 =>
            let simple (x : codepoint) := scan_string t1 None (flush ++ [x]) in
            if (e =? 34)%N then simple 34%N
            else if (e =? 92)%N then simple 92%N
            else if (e =? 47)%N then simple 47%N
            else if (e =? 98)%N then simple 8%N
            else if (e =? 102)%N then simple 12%N
            else if (e =? 110)%N then simple 10%N
            else if (e =? 114)%N then simple 13%N
            else if (e =? 116)%N then simple 9%N
            else if (e =? 117)%N then
              match t1 with
              | a :: b :: x :: d :: t2 =>
                  match hex4_value a b x d with
                  | None => PFail
                  | Some u =>
                      match hi with
                      | Some h =>
                          if (56320 <=? u)%N && (u <=? 57343)%N then
                            scan_string t2 None
                              (acc ++ [65536 + (h - 55296) * 1024 + (u - 56320)])%N
                          else if (55296 <=? u)%N && (u <=? 56319)%N then
                            scan_string t2 (Some u) (acc ++ [h])
                          else scan_string t2 None (acc ++ [h; u])
                      | None =>
                          if (55296 <=? u)%N && (u <=? 56319)%N then
                            scan_string t2 (Some u) acc
                          else scan_string t2 None (acc ++ [u])
                      end
                  end
              | _ => PFail
              end
            else PFail
        end
      else scan_string t None (flush ++ [c])
  end.

Fixpoint take_digits (s : pystr) : pystr * pystr :=
  match s with
  | c :: t =>
      if is_digit c then let '(ds, r) := take_digits t in (c :: ds, r)
      else ([], s)
  | [] => ([], [])
  end.

Definition digits_value (ds : pystr) : Z :=
  fold_left (fun acc c => acc * 10 + Z.of_N (c - 48))%Z ds 0%Z.

(** [float(text)] for the literal [-?ip.fp e ex]: the binary64 value nearest
    to [ip.fp * 10^ex]. *)
Definition decimal_to_float (neg : bool) (ip fp : pystr) (ex : Z) : spec_float :=
  let m := digits_value (ip ++ fp) in
  let e10 := (ex - Z.of_nat (length fp))%Z in
  match m with
  | Zpos p =>
      if (0 <=? e10)%Z then
        binary_normalize prec emax (cond_Zopp neg (m * 10 ^ e10)) 0 false
      else
        SFdiv prec emax (S754_finite neg p 0)
              (S754_finite false (Z.to_pos (10 ^ (- e10))) 0)
  | _ => S754_zero neg
  end.

(** A number literal: an optional minus sign, an integer part ([0] or a
    non-zero digit followed by digits), an optional fraction (a dot and one
    or more digits) and an optional exponent ([e] or [E], an optional sign,
    one or more digits).  With neither fraction nor exponent it is an
    [int], otherwise a [float]. *)
Definition scan_number (s : pystr) : parsed json :=
  let '(neg, s1) :=
    match s with
    | c :: t => if (c =? 45)%N then (true, t) else (false, s)
    | [] => (false, s)
    end in
  let '(ip, s2) :=
    match s1 with
    | c :: t =>
        if (c =? 48)%N then ([c], t)
        else if is_digit c then take_digits s1
        else ([], s1)
    | [] => ([], s1)
    end in
  match ip with
  | [] => PFail
  | _ =>
      let '(fp, s3) :=
        match s2 with
        | c :: t =>
            if (c =? 46)%N then
              match take_digits t with
              | ([], _) => ([], s2)
              | (ds, r) => (ds, r)
              end
            else ([], s2)
        | [] => ([], s2)
        end in
      let '(ex, s4) :=
        match s3 with
        | c :: t =>
            if (c =? 101)%N || (c =? 69)%N then
              let '(eneg, t1) :=
                match t with
                | g :: t' =>
                    if (g =? 45)%N then (true, t')
                    else if (g =? 43)%N then (false, t')
                    else (false, t)
                | [] => (false, t)
                end in
              match take_digits t1 with
              | ([], _) => (None, s3)
              | (ds, r) => (Some (cond_Zopp eneg (digits_value ds)), r)
              end
            else (None, s3)
        | [] => (None, s3)
        end in
      match fp, ex with
      | [], None => POk (JInt (cond_Zopp neg (digits_value ip))) s4
      | _, _ =>
          POk (JFloat (decimal_to_float neg ip fp
                         (match ex with Some e => e | None => 0%Z end))) s4
      end
  end.

Definition strip_prefix (p s : pystr) : option pystr :=
  if startswith p s then Some (skipn (length p) s) else None.

(** [dict(pairs)]: a repeated key keeps its first place and takes the last
    value. *)
Fixpoint dict_set (k : pystr) (v : json) (d : dict) : dict :=
  match d with
  | [] => [(k, v)]
  | (k', v') :: d' =>
      if PyStr.eqb k k' then (k', v) :: d' else (k', v') :: dict_set k v d'
  end.

Fixpoint scan_once (fuel : nat) (s : pystr) : parsed json :=
  match fuel with
  | O => PDeep
  | S n =>
      match s with
      | [] => PFail
      | c :: t =>
          if (c =? 34)%N then
            match scan_string t None [] with
            | POk str r => POk (JStr str) r
            | PFail => PFail
            | PDeep => PDeep
            end
          else if (c =? 123)%N then
            match skip_ws t with
            | c1 :: t1 =>
                if (c1 =? 125)%N then POk (JObj []) t1
                else scan_members n (skip_ws t) []
            | [] => PFail
            end
          else if (c =? 91)%N then
            match skip_ws t with
            | c1 :: t1 =>
                if (c1 =? 93)%N then POk (JArr []) t1
                else scan_items n (skip_ws t) []
            | [] => PFail
            end
          else
            match strip_prefix (lit "null") s, strip_prefix (lit "true") s,
                  strip_prefix (lit "false") s with
            | Some r, _, _ => POk JNull r
            | _, Some r, _ => POk (JBool true) r
            | _, _, Some r => POk (JBool false) r
            | None, None, None =>
                match scan_number s with
                | POk v r => POk v r
                | _ =>
                    match strip_prefix (lit "NaN") s,
                          strip_prefix (lit "Infinity") s,
                          strip_prefix (lit "-Infinity") s with
                    | Some r, _, _ => POk (JFloat S754_nan) r
                    | _, Some r, _ => POk (JFloat (S754_infinity false)) r
                    | _, _, Some r => POk (JFloat (S754_infinity true)) r
                    | None, None, None => PFail
                    end
                end
            end
      end
  end
(* members of an object, from the quote of the next key on *)
with scan_members (fuel : nat) (s : pystr) (acc : dict) : parsed json :=
  match fuel with
  | O => PDeep
  | S n =>
      match s with
      | c :: t =>
          if (c =? 34)%N then
            match scan_string t None [] with
            | POk key r =>
                match skip_ws r with
                | c1 :: t1 =>
                    if (c1 =? 58)%N then
                      match scan_once n (skip_ws t1) with
                      | POk v r1 =>
                          let acc' := dict_set key v acc in
                          match skip_ws r1 with
                          | c2 :: t2 =>
                              if (c2 =? 125)%N then POk (JObj acc') t2
                              else if (c2 =? 44)%N then
                                scan_members n (skip_ws t2) acc'
                              else PFail
                          | [] => PFail
                          end
                      | PFail => PFail
                      | PDeep => PDeep
                      end
                    else PFail
                | [] => PFail
                end
            | PFail => PFail
            | PDeep => PDeep
            end
          else PFail
      | [] => PFail
      end
  end
(* items of an array, from the first character of the next item on *)
with scan_items (fuel : nat) (s : pystr) (acc : list json) : parsed json :=
  match fuel with
  | O => PDeep
  | S n =>
      match scan_once n s with
      | POk v r =>
          match skip_ws r with
          | c :: t =>
              if (c =? 93)%N then POk (JArr (acc ++ [v])) t
              else if (c =? 44)%N then scan_items n (skip_ws t) (acc ++ [v])
              else PFail
          | [] => PFail
          end
      | PFail => PFail
      | PDeep => PDeep
      end
  end.

(** [json.loads(s)].  A value nested in an array takes two steps of fuel
    for each character it opens with, so that twice the length of the text
    is enough for every text: the decoder returns a value or rejects the
    text, and never runs out.  The depth of nesting at which the
    interpreter gives up with a [RecursionError] is not part of this
    decoder. *)
Definition json_loads (s : pystr) : loads_result :=
  match scan_once (S (2 * length s)) (skip_ws s) with
  | POk v r =>
      match skip_ws r with
      | [] => Loaded v
      | _ :: _ => JSONDecodeError
      end
  | PFail => JSONDecodeError
  | PDeep => LoadsRaised RecursionError
  end.

End PyJson.

(* ================================================================== *)
(** * The chat scripts *)
(* ================================================================== *)

(** The chat file: [None] until it is created. *)
Definition file := option pystr.

Definition file_text (f : file) : pystr :=
  match f with Some c => c | None => [] end.

(** What [datetime.datetime.now()] returned: the fields [strftime] prints, and
    the value of the object's [timestamp()] method (seconds since the epoch,
    a binary64 float; it depends on the host's time zone). *)
Record datetime : Type := {
  year : nat;
  month : nat;
  day : nat;
  hour : nat;
  minute : nat;
  second : nat;
  microsecond : nat;
  timestamp : spec_float
}.

Definition digit (n : nat) : codepoint := N.of_nat (48 + n mod 10).

(** Two and four decimal digits, zero padded: the fields of a [datetime] are
    within [0..99] and [1..9999]. *)
Definition pad2 (n : nat) : pystr := [digit (n / 10); digit n].
Definition pad4 (n : nat) : pystr :=
  [digit (n / 1000); digit (n / 100); digit (n / 10); digit n].

(** [now.strftime("%Y-%m-%d %H:%M:%S")] *)
Definition strftime (now : datetime) : pystr :=
  pad4 (year now) ++ lit "-" ++ pad2 (month now) ++ lit "-" ++ pad2 (day now)
  ++ lit " " ++ pad2 (hour now) ++ lit ":" ++ pad2 (minute now) ++ lit ":"
  ++ pad2 (second now).

(** The first line of a file the sender creates. *)
Definition session_banner : pystr := lit "=== Chat Session Started ===" ++ [NL].

(** The rule written after each record: ["-" * 50 + "\n"]. *)
Definition rule_line : pystr := repeat_char 45%N 50 ++ [NL].

Definition JSON_PREFIX : pystr := lit "JSON: ".

(** [prohibited_words] of [validate_message]. *)
Definition prohibited_words : list pystr := [lit "spam"; lit "test123"].

(** The sender's state: [self.username]. *)
Record sender : Type := { username : pystr }.

(** One call of [send_message] sees the clock twice (once for the timestamp
    text, once for the message id) and then the file system.  [writable]
    stands for the whole [try] block of [send_message] running to its end:
    the [open] in append mode, the three [write] calls and the close of the
    file.  It is [false] as soon as one of them raises, in which case
    nothing is taken to have reached the file. *)
Record send_env : Type := {
  now_timestamp : datetime;
  now_id : datetime;
  writable : bool
}.

(** The receiver's state: [self.last_position], [self.displayed_messages]. *)
Record receiver : Type := {
  last_position : nat;
  displayed_messages : Py.pyset
}.

(** What the receiver prints in [show_existing_messages]. *)
Inductive printed : Type :=
| PShowing (n : Z)
| PRule
| PMessage (text : pystr)
| PNoMessages
| PError (e : exn).

Section Chat.

(** Python's [json.loads], [json.dumps] and [str()] on a decoded value that is
    not a string. *)
Variable json_loads : pystr -> loads_result.
Variable json_dumps : json -> pystr.
Variable py_str : json -> pystr.

(** ** chat_send.py *)

(** [BasicChatSender.ensure_chat_file_exists] *)
Definition ensure_chat_file_exists (f : file) : file :=
  match f with
  | None => Some session_banner
  | Some c => Some c
  end.

(** [BasicChatSender.__init__] with a username given. *)
Definition sender_init (name : pystr) (f : file) : sender * file :=
  ({| username := name |}, ensure_chat_file_exists f).

(** [BasicChatSender.generate_message_id]:
    [int(datetime.datetime.now().timestamp() * 1000)] *)
Definition generate_message_id (now : datetime) : result Z :=
  Py.int_of_float (Py.float_mul (timestamp now) (Py.float_of_Z 1000)).

(** [BasicChatSender.format_message] *)
Definition format_message (self : sender) (message_text : pystr)
    (now1 now2 : datetime) : result dict :=
  let timestamp := strftime now1 in
  message_id <- generate_message_id now2 ;;
  Ok [(lit "timestamp", JStr timestamp);
      (lit "username", JStr (username self));
      (lit "message", JStr message_text);
      (lit "message_id", JInt message_id)].

(** [BasicChatSender.validate_message]: [(is_valid, error_message)] *)
Definition validate_message (message : pystr) : bool * pystr :=
  match strip message with
  | [] => (false, lit "Message cannot be empty")
  | _ :: _ =>
      if 500 <? length message then
        (false, lit "Message too long (max 500 characters)")
      else if existsb (fun word => contains word (lower message))
                      prohibited_words then
        (false, lit "Message contains prohibited content")
      else (true, [])
  end.

(** The text a value contributes to an f-string. *)
Definition format_field (v : json) : pystr :=
  match v with
  | JStr s => s
  | _ => py_str v
  end.

(** [formatted_message[k]] inside an f-string. *)
Definition item_text (d : dict) (k : pystr) : result pystr :=
  match Py.dict_get k d with
  | Some v => Ok (format_field v)
  | None => Raise KeyError
  end.

(** The three lines [send_message] writes for one message: [human_format],
    [json_format] and the rule. *)
Definition record_text (formatted_message : dict) : result pystr :=
  ts <- item_text formatted_message (lit "timestamp") ;;
  name <- item_text formatted_message (lit "username") ;;
  text <- item_text formatted_message (lit "message") ;;
  let human_format :=
    lit "[" ++ ts ++ lit "] " ++ name ++ lit ": " ++ text ++ [NL] in
  let json_format :=
    JSON_PREFIX ++ json_dumps (JObj formatted_message) ++ [NL] in
  Ok (human_format ++ json_format ++ rule_line).

(** [record_text] written out for a message whose three text fields are the
    strings [ts], [name] and [text]. *)
Definition record_of (m : dict) (ts name text : pystr) : pystr :=
  (lit "[" ++ ts ++ lit "] " ++ name ++ lit ": " ++ text ++ [NL])
  ++ (JSON_PREFIX ++ json_dumps (JObj m) ++ [NL]) ++ rule_line.

(** [BasicChatSender.send_message]: the returned flag and the file after the
    call.  [format_message] runs outside the [try] block, so an exception of
    [generate_message_id] leaves the method; whatever is raised inside the
    block is caught and answered with [False].  Opening in mode ['a'] creates
    a missing file; the three writes happen together or not at all. *)
Definition send_message (self : sender) (message_text : pystr)
    (env : send_env) (f : file) : result (bool * file) :=
  let '(is_valid, _) := validate_message message_text in
  if negb is_valid then Ok (false, f)
  else
    formatted_message <-
      format_message self message_text (now_timestamp env) (now_id env) ;;
    if writable env then
      match record_text formatted_message with
      | Ok lines => Ok (true, Some (file_text f ++ lines))
      | Raise _ => Ok (false, f)
      end
    else Ok (false, f).

(** ** chat_receive.py *)

(** [BasicChatReceiver.__init__] *)
Definition receiver_init : receiver :=
  {| last_position := 0; displayed_messages := [] |}.

(** The body of the [for line in lines] loop of [read_new_messages]: the
    set after the line and the message appended, if any.  [Raise] leaves the
    loop for the method's [except Exception]. *)
Definition read_line (line : pystr) (displayed : Py.pyset)
    : result (Py.pyset * option json) :=
  let line := strip line in
  if startswith JSON_PREFIX line then
    let json_str := skipn 6 line in
    match json_loads json_str with
    | JSONDecodeError => Ok (displayed, None)
    | LoadsRaised e => Raise e
    | Loaded message_data =>
        msg_id <- Py.get message_data (lit "message_id") JNull ;;
        if Py.truthy msg_id then
          seen <- Py.set_contains msg_id displayed ;;
          if negb seen then
            displayed' <- Py.set_add msg_id displayed ;;
            Ok (displayed', Some message_data)
          else Ok (displayed, None)
        else Ok (displayed, None)
    end
  else Ok (displayed, None).

(** The loop: the set, the messages collected, and the exception that ended
    the loop early, if one did. *)
Fixpoint read_lines (lines : list pystr) (displayed : Py.pyset)
    (new_messages : list json) : Py.pyset * list json * option exn :=
  match lines with
  | [] => (displayed, new_messages, None)
  | line :: rest =>
      match read_line line displayed with
      | Ok (displayed', Some m) => read_lines rest displayed' (new_messages ++ [m])
      | Ok (displayed', None) => read_lines rest displayed' new_messages
      | Raise e => (displayed, new_messages, Some e)
      end
  end.

(** [f.seek(pos); f.read(); f.tell()] on a file with text [c]. *)
Definition read_from (pos : nat) (c : pystr) : pystr * nat :=
  (universal_newlines (skipn pos c), Nat.max pos (length c)).

(** [BasicChatReceiver.read_new_messages]: the receiver afterwards, the list
    returned, and the exception the handler printed, if any. *)
Definition read_new_messages (self : receiver) (f : file)
    : receiver * list json * option exn :=
  match f with
  | None => (self, [], Some OSError)
  | Some c =>
      let '(new_content, pos) := read_from (last_position self) c in
      match strip new_content with
      | [] =>
          ({| last_position := pos;
              displayed_messages := displayed_messages self |}, [], None)
      | _ :: _ =>
          let lines := split NL new_content in
          let '(displayed, new_messages, raised) :=
            read_lines lines (displayed_messages self) [] in
          ({| last_position := pos; displayed_messages := displayed |},
           new_messages, raised)
      end
  end.

(** [timestamp.split(' ')]: only a [str] has the method. *)
Definition split_field (v : json) : result (list pystr) :=
  match v with
  | JStr s => Ok (split SP s)
  | _ => Raise AttributeError
  end.

(** The speech balloon U+1F4AC and the space that open a displayed line. *)
Definition balloon : pystr := [128172%N; SP].

(** [BasicChatReceiver.format_message_display] *)
Definition format_message_display (message_data : json) : result pystr :=
  timestamp <- Py.get message_data (lit "timestamp") (JStr (lit "Unknown time")) ;;
  username <- Py.get message_data (lit "username") (JStr (lit "Unknown user")) ;;
  message_text <- Py.get message_data (lit "message") (JStr []) ;;
  parts <- split_field timestamp ;;
  time_part <- Py.index parts 1 ;;
  Ok (balloon ++ lit "[" ++ time_part ++ lit "] " ++ format_field username
      ++ lit ": " ++ format_field message_text).

(** [f.readlines()]: the lines with their terminators. *)
Fixpoint readlines (s : pystr) : list pystr :=
  match s with
  | [] => []
  | c :: t =>
      if N.eqb c NL then [c] :: readlines t
      else match readlines t with
           | [] => [[c]]
           | w :: ws => (c :: w) :: ws
           end
  end.

(** The first loop of [show_existing_messages]: every line with the prefix
    that decodes, in file order. *)
Fixpoint existing_lines (lines : list pystr) (messages : list json)
    : result (list json) :=
  match lines with
  | [] => Ok messages
  | line :: rest =>
      let line := strip line in
      if startswith JSON_PREFIX line then
        match json_loads (skipn 6 line) with
        | Loaded message_data => existing_lines rest (messages ++ [message_data])
        | JSONDecodeError => existing_lines rest messages
        | LoadsRaised e => Raise e
        end
      else existing_lines rest messages
  end.

(** The second loop: print each recent message and remember its id. *)
Fixpoint show_recent (recent : list json) (displayed : Py.pyset)
    (out : list printed) : Py.pyset * list printed * option exn :=
  match recent with
  | [] => (displayed, out, None)
  | msg :: rest =>
      match format_message_display msg with
      | Raise e => (displayed, out, Some e)
      | Ok formatted_msg =>
          let out := out ++ [PMessage formatted_msg] in
          match Py.get msg (lit "message_id") JNull with
          | Raise e => (displayed, out, Some e)
          | Ok msg_id =>
              if Py.truthy msg_id then
                match Py.set_add msg_id displayed with
                | Raise e => (displayed, out, Some e)
                | Ok displayed' => show_recent rest displayed' out
                end
              else show_recent rest displayed out
          end
      end
  end.

(** [BasicChatReceiver.show_existing_messages(count)].  [f] is the file as
    [readlines] finds it and [f_end] the file as the second [open] finds it,
    when the position is moved to the end. *)
Definition show_existing_messages (self : receiver) (count : Z)
    (f f_end : file) : receiver * list printed :=
  match f with
  | None => (self, [])
  | Some c =>
      match existing_lines (readlines (universal_newlines c)) [] with
      | Raise e => (self, [PError e])
      | Ok [] => (self, [PNoMessages])
      | Ok messages =>
          let out := [PShowing (Z.min count (Z.of_nat (length messages))); PRule] in
          let recent_messages := Py.slice_from (- count) messages in
          match show_recent recent_messages (displayed_messages self) out with
          | (displayed, out, Some e) =>
              ({| last_position := last_position self;
                  displayed_messages := displayed |}, out ++ [PError e])
          | (displayed, out, None) =>
              match f_end with
              | None =>
                  ({| last_position := last_position self;
                      displayed_messages := displayed |},
                   out ++ [PRule; PError OSError])
              | Some c_end =>
                  ({| last_position := length c_end;
                      displayed_messages := displayed |}, out ++ [PRule])
              end
          end
      end
  end.

(** ** The rest of chat_send.py *)

(** [BasicChatSender.get_username]: [typed] are the lines the user enters at
    the prompt, one per [input()] call.  The result is the username and the
    lines not read yet; [None] when the input ends before a username is
    accepted ([input()] then raises [EOFError]). *)
Fixpoint get_username (typed : list pystr) : option (pystr * list pystr) :=
  match typed with
  | [] => None
  | line :: rest =>
      let username := strip line in
      if (match username with [] => false | _ :: _ => true end)
         && (2 <=? length username)
      then Some (username, rest)
      else get_username rest
  end.

(** [BasicChatSender.__init__]: [username or self.get_username()], then
    [ensure_chat_file_exists]. *)
Definition sender_new (name : option pystr) (typed : list pystr) (f : file)
    : option (sender * list pystr * file) :=
  match name with
  | Some (c :: n) =>
      Some ({| username := c :: n |}, typed, ensure_chat_file_exists f)
  | _ =>
      match get_username typed with
      | Some (n, rest) =>
          Some ({| username := n |}, rest, ensure_chat_file_exists f)
      | None => None
      end
  end.

(** What [show_recent_messages] prints. *)
Inductive history_out : Type :=
| HNoHistory
| HHeader (n : nat)
| HRule
| HLine (text : pystr).

(** The test of the list comprehension in [show_recent_messages]:
    [line.startswith('[') and ']:' in line]. *)
Definition is_message_line (line : pystr) : bool :=
  startswith (lit "[") line && contains (lit "]:") line.

(** [BasicChatSender.show_recent_messages(count)] *)
Definition show_recent_messages (count : Z) (f : file) : list history_out :=
  match f with
  | None => [HNoHistory]
  | Some c =>
      let lines := readlines (universal_newlines c) in
      let message_lines := filter is_message_line lines in
      let recent_messages := Py.slice_from (- count) message_lines in
      [HHeader (length recent_messages); HRule]
      ++ map (fun msg => HLine (strip msg)) recent_messages ++ [HRule]
  end.

(** What happens at the console of [run_interactive_chat]: the user enters
    a line (the clock and the file system are as [env] says, should the line
    be sent), or presses Ctrl-C. *)
Inductive console : Type :=
| Typed (line : pystr) (env : send_env)
| Interrupt.

(** What [run_interactive_chat] shows. *)
Inductive chat_out : Type :=
| CInfo
| CHelp
| CReady
| CGoodbye
| CHistory (h : list history_out)
| CClear
| CUnknown (command : pystr)
| CSent (ok : bool)
| CTypeAMessage
| CInterrupted
| CUnexpected (e : exn).

(** The [while True] loop of [run_interactive_chat], for as long as
    [inputs] lasts. *)
Fixpoint chat_loop (self : sender) (inputs : list console) (f : file)
    : file * list chat_out :=
  match inputs with
  | [] => (f, [])
  | Interrupt :: _ => (f, [CInterrupted])
  | Typed line env :: rest =>
      let user_input := strip line in
      let command := lower user_input in
      let continue (f' : file) (shown : chat_out) :=
        let '(f'', out) := chat_loop self rest f' in (f'', shown :: out) in
      if existsb (PyStr.eqb command) [lit "/quit"; lit "/exit"] then
        (f, [CGoodbye])
      else if PyStr.eqb command (lit "/help") then continue f CHelp
      else if PyStr.eqb command (lit "/info") then continue f CInfo
      else if PyStr.eqb command (lit "/history") then
        continue f (CHistory (show_recent_messages 5 f))
      else if PyStr.eqb command (lit "/clear") then continue f CClear
      else if startswith (lit "/") user_input then
        continue f (CUnknown user_input)
      else
        match user_input with
        | [] => continue f CTypeAMessage
        | _ :: _ =>
            match send_message self user_input env f with
            | Ok (ok, f') => continue f' (CSent ok)
            | Raise e => continue f (CUnexpected e)
            end
        end
  end.

(** [BasicChatSender.run_interactive_chat] *)
Definition run_interactive_chat (self : sender) (inputs : list console)
    (f : file) : file * list chat_out :=
  let '(f', out) := chat_loop self inputs f in
  (f', CInfo :: CHelp :: CReady :: out).

(** ** The rest of chat_receive.py *)

(** What [monitor_chat] shows. *)
Inductive monitor_out : Type :=
| MNotFound
| MInfo
| MExisting (shown : list printed)
| MMonitoring
| MReadError (e : exn)
| MNewMessage
| MLine (text : pystr)
| MGoodbye
| MUnexpected (e : exn).

(** The line the [except Exception] handler of [read_new_messages] prints
    when the read ended on an exception. *)
Definition read_error (raised : option exn) : list monitor_out :=
  match raised with
  | Some e => [MReadError e]
  | None => []
  end.

(** The [for message in new_messages] loop of [monitor_chat]:
    [display_message] prints what [format_message_display] returns, and an
    exception of it leaves the loop. *)
Fixpoint announce (new_messages : list json) : list monitor_out * option exn :=
  match new_messages with
  | [] => ([], None)
  | message :: rest =>
      match format_message_display message with
      | Ok formatted_msg =>
          let '(out, e) := announce rest in
          (MNewMessage :: MLine formatted_msg :: out, e)
      | Raise e => ([MNewMessage], Some e)
      end
  end.

(** The [while True] loop of [monitor_chat]: [polls] are the states of the
    file found by the successive [read_new_messages] calls, two seconds
    apart, until Ctrl-C.  A read that ended on an exception has printed its
    error line before the messages it still returned are shown.  An
    exception of [display_message] ends the loop at once. *)
Fixpoint monitor_loop (self : receiver) (polls : list file)
    : receiver * list monitor_out :=
  match polls with
  | [] => (self, [MGoodbye])
  | f :: rest =>
      let '(r, new_messages, raised) := read_new_messages self f in
      match announce new_messages with
      | (out, Some e) => (r, read_error raised ++ out ++ [MUnexpected e])
      | (out, None) =>
          let '(r', out') := monitor_loop r rest in
          (r', read_error raised ++ out ++ out')
      end
  end.

(** [BasicChatReceiver.monitor_chat]: [f] is the file when the monitor
    starts, [f_end] the file at the second [open] of
    [show_existing_messages]. *)
Definition monitor_chat (self : receiver) (f f_end : file)
    (polls : list file) : receiver * list monitor_out :=
  match f with
  | None => (self, [MNotFound])
  | Some _ =>
      let '(r, shown) := show_existing_messages self 10 f f_end in
      let '(r', out) := monitor_loop r polls in
      (r', MInfo :: MExisting shown :: MMonitoring :: out)
  end.

(** ** Runs of the two scripts over the shared file *)

(** One call of [send_message] by some sender. *)
Definition call : Type := (sender * pystr * send_env)%type.

(** A series of sends: the flags returned and the file at the end.  An
    exception that leaves [send_message] ends the series. *)
Fixpoint send_all (calls : list call) (f : file) : result (list bool * file) :=
  match calls with
  | [] => Ok ([], f)
  | (who, text, env) :: rest =>
      r <- send_message who text env f ;;
      let '(flag, f1) := r in
      r' <- send_all rest f1 ;;
      let '(flags, f2) := r' in
      Ok (flag :: flags, f2)
  end.

(** A call is accepted when its text passes validation and the file system
    lets the append happen. *)
Definition accepted (c : call) : bool :=
  let '(_, text, env) := c in
  fst (validate_message text) && writable env.

(** The messages of a series of calls: [format_message] of each accepted
    call, in call order. *)
Fixpoint sent_messages (calls : list call) : result (list dict) :=
  match calls with
  | [] => Ok []
  | (who, text, env) :: rest =>
      if accepted (who, text, env) then
        m <- format_message who text (now_timestamp env) (now_id env) ;;
        ms <- sent_messages rest ;;
        Ok (m :: ms)
      else sent_messages rest
  end.

(** The file as an appending sender leaves it; a sender that dies of an
    exception has written nothing. *)
Definition after_send (f : file) (c : call) : file :=
  let '(who, text, env) := c in
  match send_message who text env f with
  | Ok (_, f') => f'
  | Raise _ => f
  end.

(** The calls of [send_message] a console session makes: one for each line
    entered before [/quit], [/exit] or Ctrl-C that, once stripped, is not
    empty and does not start with a slash; the text sent is the stripped
    line. *)
Fixpoint plain_calls (self : sender) (inputs : list console) : list call :=
  match inputs with
  | [] => []
  | Interrupt :: _ => []
  | Typed line env :: rest =>
      let user_input := strip line in
      if existsb (PyStr.eqb (lower user_input)) [lit "/quit"; lit "/exit"]
      then []
      else
        match user_input with
        | [] => plain_calls self rest
        | c :: _ =>
            if N.eqb c 47 then plain_calls self rest
            else (self, user_input, env) :: plain_calls self rest
        end
  end.

(** The time of day as [strftime] prints it: [HH:MM:SS]. *)
Definition clock_time (now : datetime) : pystr :=
  pad2 (hour now) ++ lit ":" ++ pad2 (minute now) ++ lit ":"
  ++ pad2 (second now).

(** The line a receiver shows for the text [text] that [name] sent at
    [now]. *)
Definition shown_line (name text : pystr) (now : datetime) : pystr :=
  balloon ++ lit "[" ++ clock_time now ++ lit "] " ++ name ++ lit ": " ++ text.

(** What the monitor prints for the messages of the calls [cs]. *)
Definition announced (cs : list call) : list monitor_out :=
  flat_map (fun c : call =>
              [MNewMessage;
               MLine (shown_line (username (fst (fst c))) (snd (fst c))
                                 (now_timestamp (snd c)))]) cs.

(** The message lines among what [show_existing_messages] printed. *)
Definition printed_messages (out : list printed) : list pystr :=
  flat_map (fun p => match p with PMessage text => [text] | _ => [] end) out.

(** What can happen to the shared file and one receiver: a sender calls
    [send_message], or the receiver calls one of its two reading methods.
    Senders may append while [show_existing_messages] is between its
    [readlines] and its second [open]: [during] lists those calls. *)
Inductive event : Type :=
| Send (c : call)
| ReadNew
| ShowExisting (count : Z) (during : list call).

Record system : Type := {
  chat_file : file;
  rcv : receiver
}.

(** What an event shows to the outside: the list [read_new_messages]
    returned, or the lines [show_existing_messages] printed. *)
Inductive observation : Type :=
| Sent
| Received (batch : list json)
| Shown (out : list printed).

Definition step (s : system) (ev : event) : system * observation :=
  match ev with
  | Send c =>
      ({| chat_file := after_send (chat_file s) c; rcv := rcv s |}, Sent)
  | ReadNew =>
      let '(r, batch, _) := read_new_messages (rcv s) (chat_file s) in
      ({| chat_file := chat_file s; rcv := r |}, Received batch)
  | ShowExisting count during =>
      let f_end := fold_left after_send during (chat_file s) in
      let '(r, out) := show_existing_messages (rcv s) count (chat_file s) f_end in
      ({| chat_file := f_end; rcv := r |}, Shown out)
  end.

(** The states a run passes through after each event, and what it shows. *)
Fixpoint run (s : system) (evs : list event) : list (system * observation) :=
  match evs with
  | [] => []
  | ev :: rest => let so := step s ev in so :: run (fst so) rest
  end.

(** Every message a run handed to the consumer through
    [read_new_messages], in delivery order. *)
Definition received (tr : list (system * observation)) : list json :=
  flat_map (fun so => match snd so with Received b => b | _ => [] end) tr.

(** The messages the store holds, as [show_existing_messages] collects
    them. *)
Definition stored_messages (f : file) : result (list json) :=
  match f with
  | None => Ok []
  | Some c => existing_lines (readlines (universal_newlines c)) []
  end.

(** [message_data.get('message_id')] *)
Definition message_id (m : json) : result json :=
  Py.get m (lit "message_id") JNull.

(** A line both reading loops pass over without effect: it lacks the prefix
    or its remainder does not decode. *)
Definition malformed (line : pystr) : Prop :=
  startswith JSON_PREFIX (strip line) = false \/
  json_loads (skipn 6 (strip line)) = JSONDecodeError.

(** The messages a loop hands over one after the other, each with an id
    that the set, as grown so far, does not hold. *)
Fixpoint fresh_run (d : Py.pyset) (news : list json) (d' : Py.pyset) : Prop :=
  match news with
  | [] => d' = d
  | m :: rest =>
      exists id, message_id m = Ok id /\ Py.truthy id = true /\
                 Py.hashable id = true /\ existsb (Py.key_eq id) d = false /\
                 fresh_run (d ++ [id]) rest d'
  end.

(** A line of the input that has the prefix and decodes to [m]. *)
Definition decodes_to (lines : list pystr) (m : json) : Prop :=
  exists line, In line lines /\
    startswith JSON_PREFIX (strip line) = true /\
    json_loads (skipn 6 (strip line)) = Loaded m.

(** A text that stays on one line of the file: no line feed and no
    carriage return. *)
Definition single_line (s : pystr) : bool :=
  forallb (fun c => negb (N.eqb c NL || N.eqb c CR)) s.

(** What the receiver needs of the codec for a message [m] of the sender:
    [json.dumps] writes it on one line that is not empty and does not end
    in whitespace, and [json.loads] gives [m] back. *)
Definition round_trips (m : dict) : Prop :=
  let text := json_dumps (JObj m) in
  single_line text = true /\ rstrip text = text /\ text <> [] /\
  json_loads text = Loaded (JObj m).

(** The integer a sender stored as [message_id]. *)
Definition sent_id (m : dict) : Z :=
  match Py.dict_get (lit "message_id") m with
  | Some (JInt id) => id
  | _ => 0%Z
  end.

End Chat.

(* ================================================================== *)
(** * Concrete clocks, users and files *)
(* ================================================================== *)

Module Demo.

(** 2024-01-01 10:00:00 UTC and one second later, on a host set to UTC. *)
Definition ten_o_clock : datetime :=
  {| year := 2024; month := 1; day := 1; hour := 10; minute := 0; second := 0;
     microsecond := 0; timestamp := Py.float_of_Z 1704103200 |}.

Definition one_second_later : datetime :=
  {| year := 2024; month := 1; day := 1; hour := 10; minute := 0; second := 1;
     microsecond := 0; timestamp := Py.float_of_Z 1704103201 |}.

(** A send during which both clock readings fall into the same second. *)
Definition at_time (now : datetime) : send_env :=
  {| now_timestamp := now; now_id := now; writable := true |}.

Definition alice : sender := {| username := lit "alice" |}.
Definition bob : sender := {| username := lit "bob" |}.

(** [str()] is never asked for where every field is a string. *)
Definition no_str (v : json) : pystr := [].

(** A message as a sender writes it. *)
Definition message (ts name text : string) (id : Z) : json :=
  JObj [(lit "timestamp", JStr (lit ts)); (lit "username", JStr (lit name));
        (lit "message", JStr (lit text)); (lit "message_id", JInt id)].

(** A record some other producer wrote without a [message_id]:
    [JSON: {"username": "carol", "message": "hello"}] between the lines a
    sender would write around it. *)
Definition anonymous_message : json :=
  JObj [(lit "timestamp", JStr (lit "2024-01-01 10:00:00"));
        (lit "username", JStr (lit "carol"));
        (lit "message", JStr (lit "hello"))].

Definition anonymous_file : file :=
  Some (session_banner
        ++ lit "[2024-01-01 10:00:00] carol: hello" ++ [NL]
        ++ JSON_PREFIX ++ PyJson.json_dumps anonymous_message ++ [NL]
        ++ rule_line).

(** Alice and Bob send within the same millisecond, Alice again a second
    later. *)
Definition three_calls : list call :=
  [(alice, lit "hi", at_time ten_o_clock);
   (bob, lit "yo", at_time ten_o_clock);
   (alice, lit "again", at_time one_second_later)].

(** Alice and Bob send within the same millisecond. *)
Definition colliding_calls : list call :=
  [(alice, lit "hi", at_time ten_o_clock);
   (bob, lit "yo", at_time ten_o_clock)].

(** The same message sent twice with the same id. *)
Definition repeated_calls : list call :=
  [(alice, lit "hi", at_time ten_o_clock);
   (alice, lit "hi", at_time ten_o_clock)].

(** Two sends a second apart. *)
Definition two_calls : list call :=
  [(alice, lit "hi", at_time ten_o_clock);
   (bob, lit "yo", at_time one_second_later)].

(** The chat file after [calls] went into a file a sender just created. *)
Definition file_after (calls : list call) : file :=
  match send_all PyJson.json_dumps no_str calls (Some session_banner) with
  | Ok (_, f) => f
  | Raise _ => None
  end.

(** A receiver that starts on a new file while senders are at work. *)
Definition busy_run : list event :=
  [Send (alice, lit "hi", at_time ten_o_clock);
   ReadNew;
   Send (bob, lit "yo", at_time one_second_later);
   ShowExisting 10 [(alice, lit "again", at_time one_second_later)];
   ReadNew].

Definition new_system : system :=
  {| chat_file := Some session_banner; rcv := receiver_init |}.

(** A receiver that has read a new file up to the end of its banner. *)
Definition after_banner : receiver :=
  {| last_position := length session_banner; displayed_messages := [] |}.

(** A file with one line of the shape the history command looks for. *)
Definition note_file : file := Some (lit "[note]: remember the milk" ++ [NL]).

(** A file in which a prefixed line holds a number, before a line that
    holds a message. *)
Definition number_file : pystr :=
  lit "hello" ++ [NL] ++ lit "JSON: 42" ++ [NL]
  ++ JSON_PREFIX
  ++ PyJson.json_dumps (message "2024-01-01 10:00:00" "alice" "hi" 7).

(** A message whose timestamp is a time of day only, and the file that holds
    it after a sender's message. *)
Definition odd_message : json := message "10:00:00" "mallory" "boo" 8.

Definition odd_file : file :=
  Some (JSON_PREFIX
        ++ PyJson.json_dumps (message "2024-01-01 10:00:00" "alice" "hi" 7)
        ++ [NL] ++ JSON_PREFIX ++ PyJson.json_dumps odd_message ++ [NL]
        ++ JSON_PREFIX
        ++ PyJson.json_dumps (message "2024-01-01 10:00:02" "bob" "yo" 9)
        ++ [NL]).

(** The same file with a prefixed line at its end that holds a number. *)
Definition broken_file : file :=
  Some (file_text odd_file ++ JSON_PREFIX ++ lit "42" ++ [NL]).

(** A console session: a message, the end of the session, and a line typed
    too late. *)
Definition session_start : list console :=
  [Typed (lit "  hello there ") (at_time ten_o_clock)].

Definition typed_late : list console :=
  [Typed (lit "never sent") (at_time one_second_later)].

(** A record that some producer indented by two spaces:
    [  JSON: {"message_id": 3}]. *)
Definition indented_line : pystr :=
  lit "  JSON: {" ++ [34%N] ++ lit "message_id" ++ [34%N] ++ lit ": 3}".

Definition indented_file : file := Some (indented_line ++ [NL]).

End Demo.

(* ================================================================== *)
(** * Properties *)
(* ================================================================== *)

(** ** Strings *)

Lemma eqb_eq (a b : pystr) : PyStr.eqb a b = true <-> a = b.
Proof.
  unfold PyStr.eqb. destruct (list_eq_dec N.eq_dec a b); split; congruence.
Qed.

Lemma eqb_refl (a : pystr) : PyStr.eqb a a = true.
Proof. apply eqb_eq. reflexivity. Qed.

Lemma rstrip_cons_nonspace (c : codepoint) (t : pystr) :
  isspace c = false -> exists t', rstrip (c :: t) = c :: t'.
Proof.
  intros Hc. simpl. destruct (rstrip t) as [|x r].
  - rewrite Hc. eauto.
  - eauto.
Qed.

Lemma strip_cons_nonspace (c : codepoint) (t : pystr) :
  isspace c = false -> exists t', strip (c :: t) = c :: t'.
Proof.
  intros Hc. unfold strip. simpl lstrip. rewrite Hc.
  apply rstrip_cons_nonspace; assumption.
Qed.

Lemma split_without_sep (sep : codepoint) (s : pystr) :
  existsb (N.eqb sep) s = false -> split sep s = [s].
Proof.
  induction s as [|c t IH]; simpl; intros H; [reflexivity|].
  apply orb_false_iff in H. destruct H as [Hc Ht].
  rewrite N.eqb_sym, Hc. rewrite (IH Ht). reflexivity.
Qed.

Lemma split_nonempty (sep : codepoint) (s : pystr) : split sep s <> [].
Proof.
  destruct s as [|c t]; simpl; [discriminate|].
  destruct (N.eqb c sep); [discriminate|].
  destruct (split sep t); discriminate.
Qed.

Lemma split_with_sep (sep : codepoint) (s : pystr) :
  existsb (N.eqb sep) s = true -> exists a b r, split sep s = a :: b :: r.
Proof.
  induction s as [|c t IH]; simpl; intros H; [discriminate|].
  rewrite (N.eqb_sym sep c) in H.
  destruct (N.eqb c sep) eqn:Hc.
  - destruct (split sep t) as [|w ws] eqn:Hs.
    + exfalso. exact (split_nonempty sep t Hs).
    + eauto.
  - simpl in H. destruct (IH H) as (a & b & r & Hs). rewrite Hs. eauto.
Qed.

(** ** The decoder *)

Lemma skip_ws_length (s : pystr) :
  length (PyJson.skip_ws s) <= length s.
Proof.
  induction s as [|c t IH]; simpl; [lia|].
  destruct (PyJson.is_ws c); simpl; lia.
Qed.

Lemma scan_string_rest (n : nat) :
  forall (s : pystr) (hi : option N) (acc : pystr),
    length s <= n ->
    PyJson.scan_string s hi acc <> PyJson.PDeep /\
    forall a r, PyJson.scan_string s hi acc = PyJson.POk a r ->
                length r < length s.
Proof.
  induction n as [|n IH]; intros s hi acc Hn.
  - destruct s; [|simpl in Hn; lia]. simpl. split; [discriminate|discriminate].
  - destruct s as [|c t]; [simpl; split; discriminate|].
    simpl in Hn.
    assert (Ht : forall t' hi' acc', length t' <= length t ->
               PyJson.scan_string t' hi' acc' <> PyJson.PDeep /\
               forall a r, PyJson.scan_string t' hi' acc' = PyJson.POk a r ->
                           length r < length (c :: t)).
    { intros t' hi' acc' Hle. destruct (IH t' hi' acc' ltac:(lia)) as [H1 H2].
      split; [exact H1|]. intros a r H. specialize (H2 a r H). simpl. lia. }
    cbn [PyJson.scan_string].
    repeat match goal with
    | |- context [if ?b then _ else _] => destruct b
    | |- context [match ?x with [] => _ | _ :: _ => _ end] => destruct x; cbn [length] in *
    | |- context [match ?x with Some _ => _ | None => _ end] => destruct x
    | |- _ <> _ /\ _ => first [ apply Ht; cbn [length]; lia
                              | split; [discriminate|intros a r H; first [discriminate | injection H as <- <-; cbn [length]; lia]] ]
    end.
Qed.

Lemma take_digits_rest (s ds r : pystr) :
  PyJson.take_digits s = (ds, r) -> length r <= length s.
Proof.
  revert ds r. induction s as [|c t IH]; simpl; intros ds r H.
  - injection H as <- <-. simpl. lia.
  - destruct (PyJson.is_digit c).
    + destruct (PyJson.take_digits t) as [ds' r'] eqn:Ht.
      injection H as <- <-. specialize (IH _ _ eq_refl). lia.
    + injection H as <- <-. simpl. lia.
Qed.

Lemma scan_number_rest (s : pystr) :
  PyJson.scan_number s <> PyJson.PDeep /\
  forall v r, PyJson.scan_number s = PyJson.POk v r -> length r <= length s.
Proof.
  unfold PyJson.scan_number.
  repeat match goal with
  | |- context [PyJson.take_digits ?x] =>
      let H := fresh "Hd" in
      let ds := fresh "ds" in
      let r := fresh "r" in
      destruct (PyJson.take_digits x) as [ds r] eqn:H;
      apply take_digits_rest in H; cbn [length] in H
  | |- context [if ?b then _ else _] => destruct b
  | |- context [match ?x with [] => _ | _ :: _ => _ end] =>
      destruct x; cbn [length] in *
  | |- context [match ?x with Some _ => _ | None => _ end] => destruct x
  end;
  (split; [discriminate|intros v r' H;
           first [discriminate | injection H as <- <-; cbn [length] in *; lia]]).
Qed.

Lemma strip_prefix_rest (p s r : pystr) :
  PyJson.strip_prefix p s = Some r -> length r <= length s.
Proof.
  unfold PyJson.strip_prefix. destruct (startswith p s); [|discriminate].
  intros H. injection H as <-. rewrite length_skipn. lia.
Qed.

Ltac scan_done :=
  split;
  [ discriminate
  | let H := fresh in
    intros ? ? H;
    first [ discriminate H
          | injection H as <- <-; cbn [length] in *; lia ] ].

Lemma scan_rest (fuel : nat) :
  (forall s,
      (2 * length s + 1 <= fuel -> PyJson.scan_once fuel s <> PyJson.PDeep) /\
      (forall v r, PyJson.scan_once fuel s = PyJson.POk v r ->
                   length r <= length s)) /\
  (forall s acc,
      (2 * length s + 2 <= fuel ->
       PyJson.scan_members fuel s acc <> PyJson.PDeep) /\
      (forall v r, PyJson.scan_members fuel s acc = PyJson.POk v r ->
                   length r <= length s)) /\
  (forall s acc,
      (2 * length s + 2 <= fuel ->
       PyJson.scan_items fuel s acc <> PyJson.PDeep) /\
      (forall v r, PyJson.scan_items fuel s acc = PyJson.POk v r ->
                   length r <= length s)).
Proof.
  induction fuel as [|n (IHo & IHm & IHi)].
  - split; [|split]; intros; (split; [lia | discriminate]).
  - split; [|split].
    + intros [|c t]; cbn [PyJson.scan_once length]; [scan_done|].
      destruct (c =? 34)%N.
      { destruct (@scan_string_rest (length t) t None [] (le_n _)) as [H1 H2].
        destruct (PyJson.scan_string t None []) as [str r| |].
        - specialize (H2 _ _ eq_refl). scan_done.
        - scan_done.
        - contradiction. }
      destruct (c =? 123)%N.
      { pose proof (skip_ws_length t) as Hws.
        destruct (PyJson.skip_ws t) as [|c1 t1]; [scan_done|].
        destruct (c1 =? 125)%N; [scan_done|].
        destruct (IHm (c1 :: t1) []) as [Hd Hr]. split.
        - intros Hf. apply Hd. lia.
        - intros v r H. specialize (Hr _ _ H). lia. }
      destruct (c =? 91)%N.
      { pose proof (skip_ws_length t) as Hws.
        destruct (PyJson.skip_ws t) as [|c1 t1]; [scan_done|].
        destruct (c1 =? 93)%N; [scan_done|].
        destruct (IHi (c1 :: t1) []) as [Hd Hr]. split.
        - intros Hf. apply Hd. lia.
        - intros v r H. specialize (Hr _ _ H). lia. }
      destruct (scan_number_rest (c :: t)) as [_ Hnum].
      repeat match goal with
      | |- context [PyJson.strip_prefix ?p (c :: t)] =>
          let H := fresh "Hp" in
          destruct (PyJson.strip_prefix p (c :: t)) eqn:H;
          [apply strip_prefix_rest in H|clear H]
      | |- context [PyJson.scan_number (c :: t)] =>
          destruct (PyJson.scan_number (c :: t));
          [specialize (Hnum _ _ eq_refl)| |]
      end; scan_done.
    + intros [|c t] acc; cbn [PyJson.scan_members length]; [scan_done|].
      destruct (c =? 34)%N; [|scan_done].
      destruct (@scan_string_rest (length t) t None [] (le_n _)) as [H1 H2].
      destruct (PyJson.scan_string t None []) as [key r| |];
        [|scan_done|contradiction].
      specialize (H2 _ _ eq_refl).
      pose proof (skip_ws_length r) as Hws.
      destruct (PyJson.skip_ws r) as [|c1 t1]; [scan_done|].
      destruct (c1 =? 58)%N; [|scan_done].
      pose proof (skip_ws_length t1) as Hws1.
      destruct (IHo (PyJson.skip_ws t1)) as [Hd Hr].
      destruct (PyJson.scan_once n (PyJson.skip_ws t1)) as [v r1| |].
      * specialize (Hr _ _ eq_refl).
        pose proof (skip_ws_length r1) as Hws2.
        destruct (PyJson.skip_ws r1) as [|c2 t2]; [scan_done|].
        destruct (c2 =? 125)%N; [scan_done|].
        destruct (c2 =? 44)%N; [|scan_done].
        pose proof (skip_ws_length t2) as Hws3.
        destruct (IHm (PyJson.skip_ws t2) (PyJson.dict_set key v acc))
          as [Hd' Hr'].
        cbn [length] in *. split.
        -- intros Hf. apply Hd'. lia.
        -- intros v' r' H. specialize (Hr' _ _ H). lia.
      * scan_done.
      * cbn [length] in *. split; [|discriminate].
        intros Hf. exfalso. apply Hd; [lia|reflexivity].
    + intros s acc. cbn [PyJson.scan_items].
      destruct (IHo s) as [Hd Hr].
      destruct (PyJson.scan_once n s) as [v r| |].
      * specialize (Hr _ _ eq_refl).
        pose proof (skip_ws_length r) as Hws.
        destruct (PyJson.skip_ws r) as [|c t]; [scan_done|].
        destruct (c =? 93)%N; [scan_done|].
        destruct (c =? 44)%N; [|scan_done].
        pose proof (skip_ws_length t) as Hws1.
        destruct (IHi (PyJson.skip_ws t) (acc ++ [v])) as [Hd' Hr'].
        cbn [length] in *. split.
        -- intros Hf. apply Hd'. lia.
        -- intros v' r' H. specialize (Hr' _ _ H). lia.
      * scan_done.
      * split; [|discriminate].
        intros Hf. exfalso. apply Hd; [lia|reflexivity].
Qed.

(** The decoder always comes to an answer: it returns a value or rejects
    the text, whatever the text. *)
Lemma json_loads_total (s : pystr) :
  PyJson.json_loads s = JSONDecodeError \/
  exists v, PyJson.json_loads s = Loaded v.
Proof.
  unfold PyJson.json_loads.
  destruct (scan_rest (S (2 * length s))) as (Ho & _).
  destruct (Ho (PyJson.skip_ws s)) as [Hd _].
  pose proof (skip_ws_length s) as Hws.
  destruct (PyJson.scan_once (S (2 * length s)) (PyJson.skip_ws s))
    as [v r| |].
  - destruct (PyJson.skip_ws r); eauto.
  - auto.
  - exfalso. apply Hd; [lia|reflexivity].
Qed.

(** Arrays left open are rejected like any other text that is not JSON. *)
Lemma unclosed_arrays_are_rejected :
  PyJson.json_loads (lit "[[[") = JSONDecodeError.
Proof. vm_compute; reflexivity. Qed.

Section Properties.

Variable json_loads : pystr -> loads_result.
Variable json_dumps : json -> pystr.
Variable py_str : json -> pystr.

(** ** Validation *)

(** C3, as amended.  [validate_message] rejects a text exactly when it is
    empty or whitespace only, or longer than 500 characters, or contains one
    of the prohibited words ["spam"] and ["test123"] in any letter case; and
    [send_message] then returns [False] and leaves the file as it was. *)
Theorem validate_message_rejects_iff (message : pystr) :
  (fst (validate_message message) = false <->
   strip message = [] \/ 500 < length message \/
   contains (lit "spam") (lower message) = true \/
   contains (lit "test123") (lower message) = true) /\
  (fst (validate_message message) = false ->
   forall self env f,
     send_message json_dumps py_str self message env f = Ok (false, f)).
Proof.
  split.
  - unfold validate_message, prohibited_words.
    destruct (strip message) as [|c t] eqn:Hs.
    + simpl. split; auto.
    + destruct (500 <? length message) eqn:Hl.
      * simpl. apply Nat.ltb_lt in Hl. split; auto.
      * apply Nat.ltb_ge in Hl. cbn [existsb].
        destruct (contains (lit "spam") (lower message)) eqn:H1;
          [simpl; split; auto|].
        destruct (contains (lit "test123") (lower message)) eqn:H2;
          [simpl; split; auto|].
        simpl. split; [discriminate|].
        intros [H|[H|[H|H]]]; try discriminate. lia.
  - intros H self env f. unfold send_message.
    destruct (validate_message message) as [v msg]. simpl in H. subst v.
    reflexivity.
Qed.

(** ** Display *)

(** C8, as amended.  When the three fields read by [format_message_display]
    are strings and the timestamp has a second space-separated part, the
    displayed line is a speech balloon and a space, then
    [[time] username: message] with [time] that second part of the timestamp
    (the time of day of a sender's ["%Y-%m-%d %H:%M:%S"]). *)
Theorem format_message_display_form (d : dict) (ts user text date time : pystr)
    (rest : list pystr) :
  Py.get (JObj d) (lit "timestamp") (JStr (lit "Unknown time")) = Ok (JStr ts) ->
  Py.get (JObj d) (lit "username") (JStr (lit "Unknown user")) = Ok (JStr user) ->
  Py.get (JObj d) (lit "message") (JStr []) = Ok (JStr text) ->
  split SP ts = date :: time :: rest ->
  format_message_display py_str (JObj d) =
  Ok (balloon ++ lit "[" ++ time ++ lit "] " ++ user ++ lit ": " ++ text).
Proof.
  intros Hts Hu Hm Hsplit. unfold format_message_display.
  rewrite Hts, Hu, Hm. cbn [bind split_field]. rewrite Hsplit.
  reflexivity.
Qed.

(** C10.  For a message dict whose ['timestamp'] is a string,
    [format_message_display] returns a line when the string contains a
    space and raises [IndexError] when it contains none. *)
Theorem format_message_display_needs_space (d : dict) (ts : pystr) :
  Py.dict_get (lit "timestamp") d = Some (JStr ts) ->
  if existsb (N.eqb SP) ts
  then exists line, format_message_display py_str (JObj d) = Ok line
  else format_message_display py_str (JObj d) = Raise IndexError.
Proof.
  intros Hts. unfold format_message_display, Py.get. rewrite Hts.
  cbn [bind split_field].
  destruct (existsb (N.eqb SP) ts) eqn:Hsp.
  - destruct (split_with_sep SP ts Hsp) as (a & b & r & Hs). rewrite Hs.
    cbn. eauto.
  - rewrite (split_without_sep SP ts Hsp). reflexivity.
Qed.

(** ** The sender's log *)

Lemma format_message_inv (self : sender) (text : pystr) (n1 n2 : datetime)
    (m : dict) :
  format_message self text n1 n2 = Ok m ->
  exists id, generate_message_id n2 = Ok id /\
    m = [(lit "timestamp", JStr (strftime n1));
         (lit "username", JStr (username self));
         (lit "message", JStr text);
         (lit "message_id", JInt id)].
Proof.
  unfold format_message. destruct (generate_message_id n2) as [id|e]; simpl.
  - intros H. injection H as <-. eauto.
  - discriminate.
Qed.

Lemma record_text_formatted (self : sender) (text : pystr) (n1 n2 : datetime)
    (m : dict) :
  format_message self text n1 n2 = Ok m ->
  record_text json_dumps py_str m =
  Ok (record_of json_dumps m (strftime n1) (username self) text).
Proof.
  intros H. destruct (format_message_inv _ _ _ _ H) as (id & _ & ->).
  reflexivity.
Qed.

Lemma send_message_accepted (self : sender) (text : pystr) (env : send_env)
    (f : file) (m : dict) :
  accepted (self, text, env) = true ->
  format_message self text (now_timestamp env) (now_id env) = Ok m ->
  send_message json_dumps py_str self text env f =
  Ok (true, Some (file_text f ++
                  record_of json_dumps m (strftime (now_timestamp env)) (username self) text)).
Proof.
  unfold accepted, send_message. intros Hacc Hm.
  destruct (validate_message text) as [v msg]. simpl in Hacc.
  apply andb_true_iff in Hacc. destruct Hacc as [-> Hw]. simpl.
  rewrite Hm. simpl. rewrite Hw.
  rewrite (record_text_formatted _ _ _ _ Hm). reflexivity.
Qed.

Lemma send_message_refused (self : sender) (text : pystr) (env : send_env)
    (f : file) (flag : bool) (f' : file) :
  accepted (self, text, env) = false ->
  send_message json_dumps py_str self text env f = Ok (flag, f') ->
  flag = false /\ f' = f.
Proof.
  unfold accepted, send_message. intros Hacc.
  destruct (validate_message text) as [v msg]. simpl in Hacc.
  destruct v; simpl.
  - simpl in Hacc. rewrite Hacc.
    destruct (format_message self text (now_timestamp env) (now_id env));
      simpl; intros H; [injection H as <- <-; auto | discriminate].
  - intros H. injection H as <- <-. auto.
Qed.

Lemma send_message_flag (self : sender) (text : pystr) (env : send_env)
    (f : file) (flag : bool) (f' : file) :
  send_message json_dumps py_str self text env f = Ok (flag, f') ->
  flag = accepted (self, text, env) /\
  (flag = true ->
   exists m, format_message self text (now_timestamp env) (now_id env) = Ok m /\
     f' = Some (file_text f ++
                record_of json_dumps m (strftime (now_timestamp env)) (username self) text)) /\
  (flag = false -> f' = f).
Proof.
  intros H. destruct (accepted (self, text, env)) eqn:Hacc.
  - assert (Hfmt : exists m,
      format_message self text (now_timestamp env) (now_id env) = Ok m).
    { revert H. unfold accepted, send_message in *.
      destruct (validate_message text) as [v msg]. simpl in Hacc.
      apply andb_true_iff in Hacc. destruct Hacc as [-> _]. simpl.
      destruct (format_message self text (now_timestamp env) (now_id env));
        simpl; [eauto | discriminate]. }
    destruct Hfmt as (m & Hm).
    rewrite (send_message_accepted _ _ _ f Hacc Hm) in H.
    injection H as <- <-. repeat split; eauto. discriminate.
  - destruct (send_message_refused _ _ _ _ Hacc H) as [-> ->].
    repeat split; auto. discriminate.
Qed.

(** The file after a series of sends is the file before followed by the
    records of the accepted calls, in call order. *)
Lemma send_all_log (calls : list call) (f : file) (flags : list bool)
    (f' : file) :
  send_all json_dumps py_str calls f = Ok (flags, f') ->
  flags = map accepted calls /\
  exists msgs,
    sent_messages calls = Ok msgs /\
    Forall2 (fun c m =>
               format_message (fst (fst c)) (snd (fst c))
                              (now_timestamp (snd c)) (now_id (snd c)) = Ok m)
            (filter accepted calls) msgs /\
    file_text f' =
    file_text f ++
    concat (map (fun cm : call * dict =>
                   record_of json_dumps (snd cm) (strftime (now_timestamp (snd (fst cm))))
                             (username (fst (fst (fst cm)))) (snd (fst (fst cm))))
                (combine (filter accepted calls) msgs)) /\
    (f <> None -> f' <> None).
Proof.
  revert f flags f'. induction calls as [|[[who text] env] rest IH];
    intros f flags f' H.
  - simpl in H. injection H as <- <-. split; [reflexivity|].
    exists []. simpl. rewrite app_nil_r. repeat split; auto.
  - cbn [send_all] in H.
    destruct (send_message json_dumps py_str who text env f) as [[flag f1]|e]
      eqn:Hsend; [|discriminate].
    cbn [bind] in H.
    destruct (send_all json_dumps py_str rest f1) as [[flags1 f2]|e]
      eqn:Hrest; [|discriminate].
    cbn [bind] in H. injection H as <- <-.
    destruct (IH _ _ _ Hrest) as (Hflags & msgs & Hmsgs & Hall & Hfile & Hsome).
    destruct (send_message_flag _ _ _ _ Hsend) as (Hflag & Hyes & Hno).
    split; [cbn [map]; congruence|].
    cbn [sent_messages filter]. rewrite <- Hflag.
    destruct flag.
    + destruct (Hyes eq_refl) as (m & Hm & ->).
      exists (m :: msgs). rewrite Hm, Hmsgs. cbn [bind].
      split; [reflexivity|]. split; [constructor; assumption|].
      split.
      * rewrite Hfile. cbn [file_text combine map concat fst snd].
        rewrite <- !app_assoc. reflexivity.
      * intros _. apply Hsome. discriminate.
    + rewrite (Hno eq_refl) in *.
      exists msgs. repeat split; assumption.
Qed.

Lemma send_all_records (calls : list call) (f : file) (flags : list bool)
    (f' : file) :
  send_all json_dumps py_str calls f = Ok (flags, f') ->
  exists msgs recs,
    sent_messages calls = Ok msgs /\
    Forall2 (fun m r => record_text json_dumps py_str m = Ok r) msgs recs /\
    file_text f' = file_text f ++ concat recs.
Proof.
  intros H. destruct (send_all_log _ _ H) as (_ & msgs & Hmsgs & Hall & Hfile & _).
  exists msgs. eexists. split; [exact Hmsgs|]. split; [|exact Hfile].
  clear Hfile Hmsgs H. induction Hall as [|c m cs ms Hm _ IH]; cbn [combine map].
  - constructor.
  - constructor; [|exact IH].
    cbn [fst snd]. apply (record_text_formatted _ _ _ _ Hm).
Qed.

(** C1, as amended.  Every accepted call of [send_message] stores exactly
    one message, and the [message_id] of that message is the clock reading
    taken in that call, in whole milliseconds:
    [int(now.timestamp() * 1000)].  The ids follow the clock; nothing makes
    them consecutive or distinct. *)
Theorem message_ids_follow_clock (calls : list call) (f : file)
    (flags : list bool) (f' : file) :
  send_all json_dumps py_str calls f = Ok (flags, f') ->
  exists msgs recs,
    sent_messages calls = Ok msgs /\
    Forall2 (fun c m =>
               exists id, generate_message_id (now_id (snd c)) = Ok id /\
                          Py.dict_get (lit "message_id") m = Some (JInt id))
            (filter accepted calls) msgs /\
    Forall2 (fun m r => record_text json_dumps py_str m = Ok r) msgs recs /\
    file_text f' = file_text f ++ concat recs.
Proof.
  intros H. destruct (send_all_log _ _ H) as (_ & msgs & Hmsgs & Hall & _).
  destruct (send_all_records _ _ H) as (msgs' & recs & Hmsgs' & Hrecs & Hfile).
  rewrite Hmsgs in Hmsgs'. injection Hmsgs' as <-.
  exists msgs, recs. split; [assumption|]. split; [|split; assumption].
  revert Hall. apply Forall2_impl. intros c m Hm.
  destruct (format_message_inv _ _ _ _ Hm) as (id & Hid & ->).
  exists id. split; [assumption | reflexivity].
Qed.

(** C2, as amended.  [send_message] keeps no record of the ids it has used:
    two accepted calls that carry the same [message_id] both return [True]
    and both records are appended, in call order.  (The second one is only
    passed over later, by a receiver's [read_new_messages].) *)
Theorem send_message_appends_duplicates (c1 c2 : call) (f : file) (id : Z) :
  accepted c1 = true -> accepted c2 = true ->
  generate_message_id (now_id (snd c1)) = Ok id ->
  generate_message_id (now_id (snd c2)) = Ok id ->
  exists m1 m2 r1 r2,
    send_all json_dumps py_str [c1; c2] f =
      Ok ([true; true], Some (file_text f ++ r1 ++ r2)) /\
    sent_messages [c1; c2] = Ok [m1; m2] /\
    Py.dict_get (lit "message_id") m1 = Some (JInt id) /\
    Py.dict_get (lit "message_id") m2 = Some (JInt id) /\
    record_text json_dumps py_str m1 = Ok r1 /\
    record_text json_dumps py_str m2 = Ok r2.
Proof.
  destruct c1 as [[w1 t1] e1], c2 as [[w2 t2] e2]. cbn [snd].
  intros A1 A2 I1 I2.
  pose (m1 := [(lit "timestamp", JStr (strftime (now_timestamp e1)));
               (lit "username", JStr (username w1));
               (lit "message", JStr t1); (lit "message_id", JInt id)]).
  pose (m2 := [(lit "timestamp", JStr (strftime (now_timestamp e2)));
               (lit "username", JStr (username w2));
               (lit "message", JStr t2); (lit "message_id", JInt id)]).
  assert (F1 : format_message w1 t1 (now_timestamp e1) (now_id e1) = Ok m1)
    by (unfold format_message; rewrite I1; reflexivity).
  assert (F2 : format_message w2 t2 (now_timestamp e2) (now_id e2) = Ok m2)
    by (unfold format_message; rewrite I2; reflexivity).
  exists m1, m2, (record_of json_dumps m1 (strftime (now_timestamp e1)) (username w1) t1),
    (record_of json_dumps m2 (strftime (now_timestamp e2)) (username w2) t2).
  split; [|split; [|repeat split]].
  - cbn [send_all]. rewrite (send_message_accepted _ _ _ f A1 F1). cbn [bind].
    rewrite (send_message_accepted _ _ _ _ A2 F2). cbn [bind file_text].
    rewrite <- app_assoc. reflexivity.
  - cbn [sent_messages]. rewrite A1, A2, F1, F2. reflexivity.
Qed.

(** ** The receiver's loops *)

Lemma key_eq_refl (v : json) : Py.hashable v = true -> Py.key_eq v v = true.
Proof.
  destruct v as [|b|z|f|s|l|d]; simpl; try discriminate; intros _.
  - reflexivity.
  - destruct b; reflexivity.
  - apply Z.eqb_refl.
  - destruct f as [s|s| |s m e]; try reflexivity.
    + destruct s; reflexivity.
    + unfold SFeqb, SFcompare. rewrite Z.compare_refl, Pos.compare_cont_refl.
      destruct s; reflexivity.
  - apply eqb_refl.
Qed.

(** What one line can do to [read_new_messages]: nothing, or hand over the
    message it decodes to, whose id is true, hashable and not in the set,
    and is added to it. *)
Lemma read_line_inv (line : pystr) (d d' : Py.pyset) (om : option json) :
  read_line json_loads line d = Ok (d', om) ->
  (om = None /\ d' = d) \/
  (exists m id,
      om = Some m /\
      startswith JSON_PREFIX (strip line) = true /\
      json_loads (skipn 6 (strip line)) = Loaded m /\
      message_id m = Ok id /\ Py.truthy id = true /\ Py.hashable id = true /\
      existsb (Py.key_eq id) d = false /\ d' = d ++ [id]).
Proof.
  unfold read_line, message_id.
  destruct (startswith JSON_PREFIX (strip line)) eqn:Hp;
    [|intros H; injection H as <- <-; auto].
  destruct (json_loads (skipn 6 (strip line))) as [m| |e] eqn:Hl;
    [|intros H; injection H as <- <-; auto | discriminate].
  destruct (Py.get m (lit "message_id") JNull) as [id|e] eqn:Hid;
    [|discriminate].
  cbn [bind]. destruct (Py.truthy id) eqn:Ht;
    [|intros H; injection H as <- <-; auto].
  unfold Py.set_contains, Py.set_add.
  destruct (Py.hashable id) eqn:Hh; [|discriminate]. cbn [bind].
  destruct (existsb (Py.key_eq id) d) eqn:Hin; cbn [negb bind];
    intros H; injection H as <- <-; [auto|].
  right. exists m, id. repeat split; auto.
Qed.

Lemma read_line_malformed (line : pystr) (d : Py.pyset) :
  malformed json_loads line -> read_line json_loads line d = Ok (d, None).
Proof.
  unfold malformed, read_line. intros [H|H].
  - rewrite H. reflexivity.
  - rewrite H. destruct (startswith JSON_PREFIX (strip line)); reflexivity.
Qed.

(** An exception of [json.loads] other than [JSONDecodeError] is not
    caught per line: it leaves the loop for the handler of the method. *)
Lemma read_line_loads_raised (line : pystr) (e : exn) (d : Py.pyset) :
  startswith JSON_PREFIX (strip line) = true ->
  json_loads (skipn 6 (strip line)) = LoadsRaised e ->
  read_line json_loads line d = Raise e.
Proof.
  unfold read_line. intros -> ->. reflexivity.
Qed.

Lemma read_lines_inv (lines : list pystr) (d : Py.pyset) (acc : list json)
    (d' : Py.pyset) (out : list json) (e : option exn) :
  read_lines json_loads lines d acc = (d', out, e) ->
  exists news, out = acc ++ news /\ fresh_run d news d' /\
               Forall (decodes_to json_loads lines) news.
Proof.
  revert d acc. induction lines as [|line rest IH]; intros d acc H.
  - simpl in H. injection H as <- <- <-. exists []. rewrite app_nil_r.
    repeat split. constructor.
  - cbn [read_lines] in H.
    destruct (read_line json_loads line d) as [[d1 om]|ex] eqn:Hline.
    + assert (Hweak : forall news, Forall (decodes_to json_loads rest) news ->
                                   Forall (decodes_to json_loads (line :: rest)) news).
      { intros news. apply Forall_impl. intros m (l & Hl & Hrest).
        exists l. split; [right; assumption | assumption]. }
      destruct (read_line_inv _ _ Hline) as [[-> ->]|(m & id & -> & Hp & Hl & Hid & Ht & Hh & Hnew & ->)].
      * destruct (IH _ _ H) as (news & -> & Hfresh & Hfrom).
        exists news. auto.
      * destruct (IH _ _ H) as (news & -> & Hfresh & Hfrom).
        exists (m :: news). rewrite <- app_assoc. split; [reflexivity|].
        split.
        -- simpl. exists id. auto.
        -- constructor; [|auto]. exists line. split; [left; reflexivity | auto].
    + injection H as <- <- <-. exists []. rewrite app_nil_r.
      repeat split. constructor.
Qed.

Lemma read_new_messages_inv (self r : receiver) (f : file) (batch : list json)
    (e : option exn) :
  read_new_messages json_loads self f = (r, batch, e) ->
  fresh_run (displayed_messages self) batch (displayed_messages r) /\
  last_position r =
    match f with
    | None => last_position self
    | Some c => Nat.max (last_position self) (length c)
    end /\
  forall m, In m batch ->
    exists c, f = Some c /\
      decodes_to json_loads (split NL (fst (read_from (last_position self) c))) m.
Proof.
  unfold read_new_messages. destruct f as [c|].
  - cbn [read_from fst].
    destruct (strip (universal_newlines (skipn (last_position self) c))).
    + intros H. injection H as <- <- <-. simpl. repeat split; auto.
      intros m [].
    + destruct (read_lines json_loads _ (displayed_messages self) [])
        as [[d out] ex] eqn:Hrl.
      intros H. injection H as <- <- <-. simpl.
      destruct (read_lines_inv _ _ _ Hrl) as (news & -> & Hfresh & Hfrom).
      simpl. repeat split; auto.
      intros m Hm. exists c. split; [reflexivity|].
      rewrite Forall_forall in Hfrom. auto.
  - intros H. injection H as <- <- <-. simpl. repeat split; auto.
    intros m [].
Qed.

Lemma fresh_run_truthy (d : Py.pyset) (news : list json) (d' : Py.pyset) :
  fresh_run d news d' ->
  forall m, In m news ->
    exists id, message_id m = Ok id /\ Py.truthy id = true.
Proof.
  revert d. induction news as [|m0 rest IH]; intros d H m Hm; [destruct Hm|].
  destruct H as (id & Hid & Ht & _ & _ & Hrest).
  destruct Hm as [<-|Hm]; [eauto | eapply IH; eauto].
Qed.

(** Whatever the decoder and the file: [read_new_messages] returns no
    message whose [message_id] is absent, [None], empty, zero or false. *)
Lemma read_new_messages_needs_id (self : receiver) (f : file) (m : json) :
  In m (snd (fst (read_new_messages json_loads self f))) ->
  exists id, message_id m = Ok id /\ Py.truthy id = true.
Proof.
  destruct (read_new_messages json_loads self f) as [[r batch] e] eqn:H.
  simpl. destruct (read_new_messages_inv _ _ H) as (Hfresh & _).
  eapply fresh_run_truthy; eassumption.
Qed.

Lemma read_lines_skip (line : pystr) (before after : list pystr)
    (d : Py.pyset) (acc : list json) :
  malformed json_loads line ->
  read_lines json_loads (before ++ line :: after) d acc =
  read_lines json_loads (before ++ after) d acc.
Proof.
  intros Hbad. revert d acc.
  induction before as [|l rest IH]; intros d acc; cbn [app read_lines].
  - rewrite (read_line_malformed _ Hbad). reflexivity.
  - destruct (read_line json_loads l d) as [[d1 [m|]]|e]; auto.
Qed.

Lemma existing_lines_skip (line : pystr) (before after : list pystr)
    (acc : list json) :
  malformed json_loads line ->
  existing_lines json_loads (before ++ line :: after) acc =
  existing_lines json_loads (before ++ after) acc.
Proof.
  intros Hbad. revert acc.
  induction before as [|l rest IH]; intros acc; cbn [app existing_lines].
  - destruct Hbad as [H|H]; rewrite H; [reflexivity|].
    destruct (startswith JSON_PREFIX (strip line)); reflexivity.
  - destruct (startswith JSON_PREFIX (strip l)); [|auto].
    destruct (json_loads (skipn 6 (strip l))); auto.
Qed.

(** C9.  A line that does not start with ["JSON: "] once stripped, or whose
    remainder [json.loads] rejects, is passed over by both reading loops:
    it adds no message, changes no state and raises nothing, so each loop
    runs as if the line were not in the file; and every message
    [read_new_messages] returns was decoded from a line that does carry the
    prefix. *)
Theorem malformed_lines_are_skipped (line : pystr) :
  malformed json_loads line ->
  (forall d, read_line json_loads line d = Ok (d, None)) /\
  (forall before after d acc,
      read_lines json_loads (before ++ line :: after) d acc =
      read_lines json_loads (before ++ after) d acc) /\
  (forall before after acc,
      existing_lines json_loads (before ++ line :: after) acc =
      existing_lines json_loads (before ++ after) acc) /\
  (forall self f m,
      In m (snd (fst (read_new_messages json_loads self f))) ->
      exists c, f = Some c /\
        decodes_to json_loads (split NL (fst (read_from (last_position self) c))) m).
Proof.
  intros Hbad. repeat split.
  - intros d. apply read_line_malformed; assumption.
  - intros. apply read_lines_skip; assumption.
  - intros. apply existing_lines_skip; assumption.
  - intros self f m.
    destruct (read_new_messages json_loads self f) as [[r batch] e] eqn:H.
    simpl. intros Hm. destruct (read_new_messages_inv _ _ H) as (_ & _ & Hfrom).
    auto.
Qed.

(** ** Runs: no redelivery, and the read position *)

Lemma show_recent_grows (recent : list json) (d : Py.pyset)
    (out : list printed) (d' : Py.pyset) (out' : list printed)
    (e : option exn) :
  show_recent py_str recent d out = (d', out', e) -> incl d d'.
Proof.
  revert d out. induction recent as [|msg rest IH]; intros d out H.
  - simpl in H. injection H as <- <- <-. apply incl_refl.
  - cbn [show_recent] in H.
    destruct (format_message_display py_str msg);
      [|injection H as <- <- <-; apply incl_refl].
    destruct (Py.get msg (lit "message_id") JNull) as [id|ex];
      [|injection H as <- <- <-; apply incl_refl].
    destruct (Py.truthy id); [|eapply IH; eassumption].
    unfold Py.set_add in H.
    destruct (Py.hashable id);
      [|injection H as <- <- <-; apply incl_refl].
    destruct (existsb (Py.key_eq id) d); [eapply IH; eassumption|].
    apply IH in H. intros x Hx. apply H. apply in_or_app. auto.
Qed.

Lemma show_existing_messages_inv (self : receiver) (count : Z)
    (f f_end : file) :
  let r := fst (show_existing_messages json_loads py_str self count f f_end) in
  incl (displayed_messages self) (displayed_messages r) /\
  (last_position r = last_position self \/
   exists c_end, f_end = Some c_end /\ last_position r = length c_end).
Proof.
  unfold show_existing_messages. destruct f as [c|];
    [|simpl; split; [apply incl_refl | auto]].
  destruct (existing_lines json_loads (readlines (universal_newlines c)) [])
    as [[|m ms]|e]; try (simpl; split; [apply incl_refl | auto]).
  destruct (show_recent py_str _ (displayed_messages self) _)
    as [[d out] [e|]] eqn:Hrec;
    pose proof (show_recent_grows _ _ _ Hrec) as Hincl.
  - simpl. auto.
  - destruct f_end as [c_end|]; simpl; split; auto.
    right. exists c_end. auto.
Qed.

Lemma after_send_grows (f : file) (c : call) :
  length (file_text f) <= length (file_text (after_send json_dumps py_str f c)).
Proof.
  destruct c as [[who text] env]. unfold after_send.
  destruct (send_message json_dumps py_str who text env f) as [[flag f']|e]
    eqn:H; [|apply Nat.le_refl].
  destruct (send_message_flag _ _ _ _ H) as (_ & Hyes & Hno).
  destruct flag.
  - destruct (Hyes eq_refl) as (m & _ & ->). simpl.
    rewrite length_app. lia.
  - rewrite (Hno eq_refl). apply Nat.le_refl.
Qed.

Lemma after_sends_grow (calls : list call) (f : file) :
  length (file_text f) <=
  length (file_text (fold_left (after_send json_dumps py_str) calls f)).
Proof.
  revert f. induction calls as [|c rest IH]; intros f; simpl.
  - apply Nat.le_refl.
  - eapply Nat.le_trans; [apply after_send_grows | apply IH].
Qed.

(** One event moves the read position forward, or not at all, and keeps it
    within the file. *)
Lemma step_position (s : system) (ev : event) :
  last_position (rcv s) <= length (file_text (chat_file s)) ->
  let s' := fst (step json_loads json_dumps py_str s ev) in
  last_position (rcv s) <= last_position (rcv s') /\
  last_position (rcv s') <= length (file_text (chat_file s')).
Proof.
  intros Hinv. destruct ev as [c| |count during]; cbn [step].
  - simpl. split; [apply Nat.le_refl|].
    eapply Nat.le_trans; [exact Hinv | apply after_send_grows].
  - destruct (read_new_messages json_loads (rcv s) (chat_file s))
      as [[r batch] e] eqn:H.
    destruct (read_new_messages_inv _ _ H) as (_ & Hpos & _).
    simpl. rewrite Hpos. destruct (chat_file s) as [c|]; simpl in *; lia.
  - pose proof (show_existing_messages_inv (rcv s) count (chat_file s)
                  (fold_left (after_send json_dumps py_str) during (chat_file s)))
      as [_ Hpos].
    pose proof (after_sends_grow during (chat_file s)) as Hgrow.
    destruct (show_existing_messages json_loads py_str (rcv s) count _ _)
      as [r out]. simpl in *.
    destruct Hpos as [->|(c_end & Hend & ->)].
    + lia.
    + rewrite Hend in *. simpl in *. lia.
Qed.

(** C7.  Along every run of sends, [read_new_messages] calls and
    [show_existing_messages] calls, started with the read position inside
    the file, the position never decreases and never passes the end of the
    file as it is after each event. *)
Theorem cursor_never_decreases_nor_passes_end (s : system) (evs : list event) :
  last_position (rcv s) <= length (file_text (chat_file s)) ->
  let states := map fst (run json_loads json_dumps py_str s evs) in
  Sorted.StronglySorted le
    (last_position (rcv s) :: map (fun s' => last_position (rcv s')) states) /\
  Forall (fun s' => last_position (rcv s') <= length (file_text (chat_file s')))
         states.
Proof.
  revert s. induction evs as [|ev rest IH]; intros s Hinv; cbn [run map].
  - split; repeat constructor.
  - destruct (step_position s ev Hinv) as [Hle Hin].
    destruct (IH _ Hin) as [Hsorted Hall].
    split; [|constructor; assumption].
    constructor; [exact Hsorted|].
    apply Sorted.StronglySorted_inv in Hsorted. destruct Hsorted as [_ Hrest].
    constructor; [exact Hle|].
    revert Hrest. apply Forall_impl. intros p Hp. lia.
Qed.

Lemma fresh_run_nodup (news : list json) (d d' : Py.pyset) (D : list json) :
  NoDup D ->
  (forall m, In m D -> exists id, message_id m = Ok id /\ In id d) ->
  fresh_run d news d' ->
  NoDup (D ++ news) /\
  (forall m, In m (D ++ news) -> exists id, message_id m = Ok id /\ In id d').
Proof.
  revert d D. induction news as [|m rest IH]; intros d D Hnd Hcov Hrun.
  - simpl in Hrun. subst d'. rewrite app_nil_r. auto.
  - destruct Hrun as (id & Hid & _ & Hh & Hnew & Hrest).
    replace (D ++ m :: rest) with ((D ++ [m]) ++ rest)
      by (rewrite <- app_assoc; reflexivity).
    apply (IH (d ++ [id])); [| |assumption].
    + apply NoDup_app; [assumption | repeat constructor; intros [] |].
      intros a Ha [<-|[]].
      destruct (Hcov _ Ha) as (id0 & Hid0 & Hin0).
      rewrite Hid in Hid0. injection Hid0 as <-.
      assert (existsb (Py.key_eq id) d = true).
      { apply existsb_exists. exists id. split; [assumption|].
        apply key_eq_refl; assumption. }
      congruence.
    + intros a Ha. apply in_app_or in Ha. destruct Ha as [Ha|[<-|[]]].
      * destruct (Hcov _ Ha) as (id0 & Hid0 & Hin0).
        exists id0. split; [assumption|]. apply in_or_app. auto.
      * exists id. split; [assumption|]. apply in_or_app. right. left.
        reflexivity.
Qed.

Lemma run_nodup (evs : list event) (s : system) (D : list json) :
  NoDup D ->
  (forall m, In m D ->
     exists id, message_id m = Ok id /\ In id (displayed_messages (rcv s))) ->
  NoDup (D ++ received (run json_loads json_dumps py_str s evs)).
Proof.
  revert s D. induction evs as [|ev rest IH]; intros s D Hnd Hcov.
  - simpl. rewrite app_nil_r. assumption.
  - cbn [run received flat_map]. fold (received (run json_loads json_dumps py_str
      (fst (step json_loads json_dumps py_str s ev)) rest)).
    destruct ev as [c| |count during]; cbn [step].
    + simpl. apply IH; assumption.
    + destruct (read_new_messages json_loads (rcv s) (chat_file s))
        as [[r batch] e] eqn:H.
      destruct (read_new_messages_inv _ _ H) as (Hfresh & _).
      destruct (@fresh_run_nodup _ _ _ _ Hnd Hcov Hfresh) as [Hnd' Hcov'].
      cbn [fst snd]. rewrite app_assoc. apply IH; assumption.
    + pose proof (show_existing_messages_inv (rcv s) count (chat_file s)
                  (fold_left (after_send json_dumps py_str) during (chat_file s)))
        as [Hincl _].
      destruct (show_existing_messages json_loads py_str (rcv s) count _ _)
        as [r out]. cbn [fst snd app] in *.
      apply IH; [assumption|].
      intros m Hm. destruct (Hcov _ Hm) as (id & Hid & Hin).
      exists id. split; [assumption | apply Hincl; assumption].
Qed.

(** C5.  Whatever the file holds and however sends and
    [show_existing_messages] calls fall between the polls, the messages one
    receiver gets from its [read_new_messages] calls are pairwise different:
    none is returned a second time, neither by a later poll nor within one
    poll. *)
Theorem no_message_is_returned_twice (s : system) (evs : list event) :
  NoDup (received (run json_loads json_dumps py_str s evs)).
Proof.
  apply (@run_nodup evs s []); [constructor | intros m []].
Qed.

(** ** Read completeness *)

Lemma startswith_app (p s : pystr) : startswith p (p ++ s) = true.
Proof.
  induction p as [|c p IH]; simpl; [reflexivity|].
  rewrite N.eqb_refl. exact IH.
Qed.

Lemma rstrip_app (a b : pystr) :
  rstrip b <> [] -> rstrip (a ++ b) = a ++ rstrip b.
Proof.
  intros Hb. induction a as [|c a IH]; [reflexivity|].
  cbn [app rstrip]. rewrite IH.
  destruct (a ++ rstrip b) as [|x r] eqn:Hab; [|reflexivity].
  apply app_eq_nil in Hab. destruct Hab as [_ Hab]. contradiction.
Qed.

Lemma single_line_app (a b : pystr) :
  single_line (a ++ b) = single_line a && single_line b.
Proof. apply forallb_app. Qed.

(** Reading a line that holds neither line break, up to its terminator. *)
Lemma lines_cons (l rest : pystr) :
  single_line l = true ->
  split NL (universal_newlines (l ++ NL :: rest)) =
  l :: split NL (universal_newlines rest).
Proof.
  induction l as [|c l IH]; intros Hl.
  - reflexivity.
  - cbn [single_line forallb] in Hl. apply andb_true_iff in Hl.
    destruct Hl as [Hc Hl]. apply negb_true_iff, orb_false_iff in Hc.
    destruct Hc as [Hnl Hcr]. fold (single_line l) in Hl.
    cbn [app universal_newlines]. change 13%N with CR. rewrite Hcr.
    cbn [split]. rewrite Hnl. rewrite (IH Hl). reflexivity.
Qed.

Lemma newlines_cons (l rest : pystr) :
  single_line l = true ->
  universal_newlines (l ++ NL :: rest) = l ++ NL :: universal_newlines rest.
Proof.
  induction l as [|c l IH]; intros Hl.
  - reflexivity.
  - cbn [single_line forallb] in Hl. apply andb_true_iff in Hl.
    destruct Hl as [Hc Hl]. apply negb_true_iff, orb_false_iff in Hc.
    destruct Hc as [Hnl Hcr]. fold (single_line l) in Hl.
    cbn [app universal_newlines]. change 13%N with CR. rewrite Hcr.
    rewrite (IH Hl). reflexivity.
Qed.

Lemma digit_single_line (n : nat) :
  negb (N.eqb (digit n) NL || N.eqb (digit n) CR) = true.
Proof.
  apply negb_true_iff, orb_false_iff. unfold digit, NL, CR.
  split; apply N.eqb_neq; lia.
Qed.

Lemma strftime_single_line (now : datetime) : single_line (strftime now) = true.
Proof.
  unfold strftime, pad4, pad2, single_line.
  cbn [app forallb lit map list_ascii_of_string].
  rewrite !digit_single_line. reflexivity.
Qed.

Lemma existsb_key_int (id : Z) (done : list Z) :
  ~ In id done -> existsb (Py.key_eq (JInt id)) (map JInt done) = false.
Proof.
  induction done as [|x done IH]; intros Hnot; [reflexivity|].
  cbn [map existsb]. rewrite IH by (intros H; apply Hnot; right; exact H).
  simpl. rewrite orb_false_r. apply Z.eqb_neq.
  intros ->. apply Hnot. left. reflexivity.
Qed.

(** The record of a message as three lines and their terminators. *)
Lemma record_of_lines (m : dict) (ts name text rest : pystr) :
  record_of json_dumps m ts name text ++ rest =
  (lit "[" ++ ts ++ lit "] " ++ name ++ lit ": " ++ text) ++ NL ::
  (JSON_PREFIX ++ json_dumps (JObj m)) ++ NL ::
  repeat_char 45%N 50 ++ NL :: rest.
Proof.
  unfold record_of, rule_line. repeat rewrite <- app_assoc. reflexivity.
Qed.

Lemma read_line_human (ts name text : pystr) (d : Py.pyset) :
  read_line json_loads (lit "[" ++ ts ++ lit "] " ++ name ++ lit ": " ++ text) d
  = Ok (d, None).
Proof.
  apply read_line_malformed. left.
  destruct (strip_cons_nonspace 91%N
              (ts ++ lit "] " ++ name ++ lit ": " ++ text) eq_refl) as (t' & Ht).
  change (91%N :: ts ++ lit "] " ++ name ++ lit ": " ++ text)
    with (lit "[" ++ ts ++ lit "] " ++ name ++ lit ": " ++ text) in Ht.
  rewrite Ht. reflexivity.
Qed.

Lemma read_line_json (m : dict) (id : Z) (done : list Z) :
  round_trips json_loads json_dumps m ->
  Py.dict_get (lit "message_id") m = Some (JInt id) ->
  id <> 0%Z -> ~ In id done ->
  read_line json_loads (JSON_PREFIX ++ json_dumps (JObj m)) (map JInt done) =
  Ok (map JInt (done ++ [id]), Some (JObj m)).
Proof.
  intros (_ & Hr & Hne & Hload) Hid Hnz Hnew. unfold read_line.
  assert (Hstrip : strip (JSON_PREFIX ++ json_dumps (JObj m)) =
                   JSON_PREFIX ++ json_dumps (JObj m)).
  { unfold strip. change (lstrip (JSON_PREFIX ++ json_dumps (JObj m)))
      with (JSON_PREFIX ++ json_dumps (JObj m)).
    rewrite rstrip_app by (rewrite Hr; exact Hne). rewrite Hr. reflexivity. }
  rewrite Hstrip, startswith_app.
  change (skipn 6 (JSON_PREFIX ++ json_dumps (JObj m)))
    with (json_dumps (JObj m)).
  rewrite Hload. unfold Py.get. rewrite Hid. cbn [bind Py.truthy].
  apply Z.eqb_neq in Hnz. rewrite Hnz. cbn [negb].
  unfold Py.set_contains, Py.set_add. cbn [Py.hashable bind].
  rewrite (existsb_key_int _ _ Hnew). cbn [negb bind].
  rewrite map_app. reflexivity.
Qed.

(** The loop of [read_new_messages] over the records of the sender's
    messages [msgs], written by the calls [cs]. *)
Lemma read_lines_records (cs : list call) (msgs : list dict) :
  Forall2 (fun c m =>
             format_message (fst (fst c)) (snd (fst c))
                            (now_timestamp (snd c)) (now_id (snd c)) = Ok m)
          cs msgs ->
  Forall (fun c : call => single_line (username (fst (fst c))) = true /\
                          single_line (snd (fst c)) = true) cs ->
  Forall (round_trips json_loads json_dumps) msgs ->
  forall (done : list Z) (acc : list json),
    NoDup (done ++ map sent_id msgs) ->
    ~ In 0%Z (map sent_id msgs) ->
    read_lines json_loads
      (split NL (universal_newlines
         (concat (map (fun cm : call * dict =>
                         record_of json_dumps (snd cm)
                           (strftime (now_timestamp (snd (fst cm))))
                           (username (fst (fst (fst cm)))) (snd (fst (fst cm))))
                      (combine cs msgs)))))
      (map JInt done) acc =
    (map JInt (done ++ map sent_id msgs), acc ++ map JObj msgs, None).
Proof.
  induction 1 as [|c m cs msgs Hm Hrest IH];
    intros Hlines Hcodec done acc Hnd Hnz.
  - simpl. rewrite !app_nil_r. reflexivity.
  - apply Forall_cons_iff in Hlines. destruct Hlines as [[Hname Htext] Hlines].
    apply Forall_cons_iff in Hcodec. destruct Hcodec as [Hrt Hcodec].
    destruct c as [[who text] env]. cbn [fst snd] in *.
    destruct (format_message_inv _ _ _ _ Hm) as (id & _ & Hmd).
    assert (Hid : Py.dict_get (lit "message_id") m = Some (JInt id))
      by (rewrite Hmd; reflexivity).
    assert (Hsid : sent_id m = id) by (unfold sent_id; rewrite Hid; reflexivity).
    cbn [combine map concat fst snd]. cbn [map] in Hnd, Hnz.
    rewrite Hsid in *.
    rewrite record_of_lines.
    pose proof Hrt as (Hone & _).
    rewrite lines_cons.
    2:{ rewrite !single_line_app, strftime_single_line, Hname, Htext.
        reflexivity. }
    rewrite lines_cons.
    2:{ rewrite single_line_app, Hone. reflexivity. }
    rewrite lines_cons by reflexivity.
    cbn [read_lines]. rewrite read_line_human.
    assert (Hnew : ~ In id done).
    { intros Hin. apply NoDup_remove_2 in Hnd. apply Hnd.
      apply in_or_app. left. exact Hin. }
    assert (Hid0 : id <> 0%Z).
    { intros ->. apply Hnz. left. reflexivity. }
    rewrite (read_line_json _ Hrt Hid Hid0 Hnew).
    change (read_line json_loads (repeat_char 45%N 50) (map JInt (done ++ [id])))
      with (Ok (map JInt (done ++ [id]), @None json)).
    cbn iota beta.
    rewrite (IH Hlines Hcodec (done ++ [id]) (acc ++ [JObj m])).
    + rewrite <- !app_assoc. reflexivity.
    + rewrite <- app_assoc. exact Hnd.
    + intros Hin. apply Hnz. right. exact Hin.
Qed.

(** C6, as amended.  After a series of sends into a file a sender created,
    a new receiver's first [read_new_messages] returns exactly the messages
    of the accepted calls, in call order, and moves to the end of the file,
    provided that the message ids are pairwise different and none is zero,
    that no username and no text holds a line break, and that the JSON codec
    writes each message on one line and reads it back. *)
Theorem fresh_receiver_reads_all_sent (calls : list call) (flags : list bool)
    (f' : file) (msgs : list dict) :
  send_all json_dumps py_str calls (ensure_chat_file_exists None)
  = Ok (flags, f') ->
  sent_messages calls = Ok msgs ->
  Forall (fun c : call =>
            accepted c = true ->
            single_line (username (fst (fst c))) = true /\
            single_line (snd (fst c)) = true) calls ->
  Forall (round_trips json_loads json_dumps) msgs ->
  NoDup (map sent_id msgs) ->
  ~ In 0%Z (map sent_id msgs) ->
  read_new_messages json_loads receiver_init f' =
  ({| last_position := length (file_text f');
      displayed_messages := map JInt (map sent_id msgs) |},
   map JObj msgs, None).
Proof.
  intros Hsend Hmsgs Hlines Hcodec Hnd Hnz.
  change (ensure_chat_file_exists None) with (Some session_banner) in Hsend.
  destruct (send_all_log _ _ Hsend)
    as (_ & msgs0 & Hmsgs0 & Hall & Hfile & Hsome).
  rewrite Hmsgs in Hmsgs0. injection Hmsgs0 as <-.
  destruct f' as [c|]; [|exfalso; apply Hsome; [discriminate | reflexivity]].
  cbn [file_text] in Hfile |- *.
  assert (Hlines' : Forall (fun c : call =>
                              single_line (username (fst (fst c))) = true /\
                              single_line (snd (fst c)) = true)
                           (filter accepted calls)).
  { rewrite Forall_forall in *. intros x Hx. apply filter_In in Hx.
    destruct Hx as [Hx Hacc]. exact (Hlines x Hx Hacc). }
  pose proof (read_lines_records Hall Hlines' Hcodec [] [] Hnd Hnz) as Hread.
  unfold read_new_messages, receiver_init, read_from.
  cbn [last_position displayed_messages skipn]. rewrite Hfile.
  change (session_banner ++ ?t)
    with (lit "=== Chat Session Started ===" ++ NL :: t).
  rewrite newlines_cons by reflexivity.
  destruct (strip_cons_nonspace 61%N
    (lit "== Chat Session Started ===" ++ NL ::
     universal_newlines
       (concat (map (fun cm : call * dict =>
                       record_of json_dumps (snd cm)
                         (strftime (now_timestamp (snd (fst cm))))
                         (username (fst (fst (fst cm)))) (snd (fst (fst cm))))
                    (combine (filter accepted calls) msgs)))) eq_refl)
    as (t' & Hstrip).
  change (61%N :: lit "== Chat Session Started ===" ++ ?t)
    with (lit "=== Chat Session Started ===" ++ t) in Hstrip.
  rewrite Hstrip.
  rewrite <- newlines_cons by reflexivity.
  rewrite lines_cons by reflexivity.
  cbn [read_lines].
  change (read_line json_loads (lit "=== Chat Session Started ===") [])
    with (Ok (@nil json, @None json)).
  cbn iota beta. change (@nil json) with (map JInt []) at 1.
  rewrite Hread. cbn [app Nat.max]. reflexivity.
Qed.

(** ** Usernames *)

Lemma lstrip_head (s : pystr) :
  lstrip s = [] \/ exists c t, lstrip s = c :: t /\ isspace c = false.
Proof.
  induction s as [|c t IH]; simpl; [auto|].
  destruct (isspace c) eqn:Hc; [exact IH|]. right. eauto.
Qed.

Lemma rstrip_idem (s : pystr) : rstrip (rstrip s) = rstrip s.
Proof.
  induction s as [|c t IH]; [reflexivity|]. cbn [rstrip].
  destruct (rstrip t) as [|x r] eqn:Ht.
  - destruct (isspace c) eqn:Hc; [reflexivity|]. simpl. rewrite Hc. reflexivity.
  - change (rstrip (c :: x :: r))
      with (match rstrip (x :: r) with
            | [] => if isspace c then [] else [c]
            | t' => c :: t'
            end).
    rewrite IH. reflexivity.
Qed.

Lemma strip_idem (s : pystr) : strip (strip s) = strip s.
Proof.
  unfold strip. destruct (lstrip_head s) as [Hs|(c & t & Hs & Hc)].
  - rewrite Hs. reflexivity.
  - rewrite Hs. destruct (rstrip_cons_nonspace c t Hc) as (t' & Ht).
    rewrite Ht. cbn [lstrip]. rewrite Hc. rewrite <- Ht. apply rstrip_idem.
Qed.

(** X1.  When [get_username] returns, the username is what the user typed on
    some line, stripped; it has at least two characters and no whitespace
    at either end; and every line typed before it was refused for being
    shorter than two characters once stripped. *)
Theorem get_username_returns_first_valid (typed : list pystr) (name : pystr)
    (rest : list pystr) :
  get_username typed = Some (name, rest) ->
  2 <= length name /\ strip name = name /\
  exists refused line,
    typed = refused ++ line :: rest /\ name = strip line /\
    Forall (fun l => length (strip l) < 2) refused.
Proof.
  induction typed as [|l typed IH]; [discriminate|]. cbn [get_username].
  destruct ((match strip l with [] => false | _ :: _ => true end)
            && (2 <=? length (strip l))) eqn:Hok.
  - intros H. injection H as <- <-.
    apply andb_true_iff in Hok. destruct Hok as [_ Hlen].
    apply Nat.leb_le in Hlen. split; [exact Hlen|]. split; [apply strip_idem|].
    exists [], l. repeat split. constructor.
  - intros H. destruct (IH H) as (Hlen & Hstrip & refused & line & -> & -> & Hall).
    split; [exact Hlen|]. split; [exact Hstrip|].
    exists (l :: refused), line. repeat split. constructor; [|exact Hall].
    apply andb_false_iff in Hok. destruct Hok as [Hok|Hok].
    + destruct (strip l); [simpl; lia | discriminate].
    + apply Nat.leb_gt in Hok. exact Hok.
Qed.

(** ** The history command *)

Lemma In_slice_from (A : Type) (start : Z) (l : list A) (x : A) :
  In x (Py.slice_from start l) -> In x l.
Proof.
  assert (Hskip : forall n, In x (skipn n l) -> In x l).
  { intros n H. rewrite <- (firstn_skipn n l). apply in_or_app. right. exact H. }
  unfold Py.slice_from. destruct (start <? 0)%Z; apply Hskip.
Qed.

(** X2.  Every line [show_recent_messages] lists is a line of the file,
    stripped, that starts with ['['] and contains ["]:"]. *)
Theorem show_recent_messages_lists_bracketed_lines (count : Z) (c text : pystr) :
  In (HLine text) (show_recent_messages count (Some c)) ->
  exists line,
    In line (readlines (universal_newlines c)) /\ text = strip line /\
    startswith (lit "[") line = true /\ contains (lit "]:") line = true.
Proof.
  unfold show_recent_messages. intros H.
  apply in_app_or in H. destruct H as [[H|[H|[]]]|H]; try discriminate.
  apply in_app_or in H. destruct H as [H|[H|[]]]; try discriminate.
  apply in_map_iff in H. destruct H as (line & Heq & Hin).
  injection Heq as <-. apply In_slice_from in Hin.
  apply filter_In in Hin. destruct Hin as [Hin Hok].
  apply andb_true_iff in Hok. destruct Hok as [H1 H2].
  exists line. auto.
Qed.

Lemma contains_skip (a : codepoint) (w x y : pystr) :
  existsb (N.eqb a) x = false ->
  contains (a :: w) (x ++ y) = contains (a :: w) y.
Proof.
  induction x as [|c x IH]; intros H; [reflexivity|].
  cbn [existsb] in H. apply orb_false_iff in H. destruct H as [Hc Hx].
  cbn [app contains startswith]. rewrite Hc. cbn [andb orb]. exact (IH Hx).
Qed.

Lemma contains_absent (a : codepoint) (w y : pystr) :
  existsb (N.eqb a) y = false -> contains (a :: w) y = false.
Proof.
  intros H. rewrite <- (app_nil_r y). rewrite (@contains_skip a w y [] H).
  reflexivity.
Qed.

Lemma digit_not_bracket (n : nat) : N.eqb 93 (digit n) = false.
Proof.
  unfold digit. apply N.eqb_neq.
  pose proof (Nat.mod_upper_bound n 10). lia.
Qed.

Lemma strftime_no_bracket (now : datetime) :
  existsb (N.eqb 93%N) (strftime now) = false.
Proof.
  unfold strftime, pad4, pad2.
  cbn [app existsb lit map list_ascii_of_string].
  rewrite !digit_not_bracket. reflexivity.
Qed.

Lemma readlines_cons (l rest : pystr) :
  single_line l = true ->
  readlines (universal_newlines (l ++ NL :: rest)) =
  (l ++ [NL]) :: readlines (universal_newlines rest).
Proof.
  intros Hl. rewrite newlines_cons by exact Hl.
  induction l as [|c l IH].
  - reflexivity.
  - cbn [single_line forallb] in Hl. apply andb_true_iff in Hl.
    destruct Hl as [Hc Hl]. apply negb_true_iff, orb_false_iff in Hc.
    destruct Hc as [Hnl _]. fold (single_line l) in Hl.
    cbn [app readlines]. rewrite Hnl. rewrite (IH Hl). reflexivity.
Qed.

(** The line [send_message] writes for people is not one the history
    command looks for, unless the username or the text brings its own
    ["]"]. *)
Lemma human_line_is_not_listed (ts name text : pystr) :
  existsb (N.eqb 93%N) ts = false ->
  existsb (N.eqb 93%N) name = false ->
  existsb (N.eqb 93%N) text = false ->
  is_message_line
    ((lit "[" ++ ts ++ lit "] " ++ name ++ lit ": " ++ text) ++ [NL]) = false.
Proof.
  intros Hts Hname Htext. unfold is_message_line.
  apply andb_false_iff. right.
  change ((lit "[" ++ ts ++ lit "] " ++ name ++ lit ": " ++ text) ++ [NL])
    with ((91%N :: ts ++ 93%N :: 32%N :: name ++ lit ": " ++ text) ++ [NL]).
  change (lit "]:") with [93%N; 58%N].
  replace ((91%N :: ts ++ 93%N :: 32%N :: name ++ lit ": " ++ text) ++ [NL])
    with ((91%N :: ts) ++ 93%N :: 32%N :: (name ++ lit ": " ++ text ++ [NL])).
  2:{ cbn [app]. f_equal. rewrite <- !app_assoc. cbn [app].
      rewrite <- !app_assoc. reflexivity. }
  rewrite contains_skip by (cbn [existsb]; rewrite Hts; reflexivity).
  change (contains [93%N; 58%N]
            (32%N :: (name ++ lit ": " ++ text ++ [NL])) = false).
  apply contains_absent. cbn [existsb]. unfold codepoint.
  rewrite !existsb_app, Hname, Htext. reflexivity.
Qed.

Lemma sent_records_are_not_listed (cs : list call) (msgs : list dict) :
  Forall2 (fun c m =>
             format_message (fst (fst c)) (snd (fst c))
                            (now_timestamp (snd c)) (now_id (snd c)) = Ok m)
          cs msgs ->
  Forall (fun c : call =>
            (single_line (username (fst (fst c))) = true /\
             single_line (snd (fst c)) = true) /\
            existsb (N.eqb 93%N) (username (fst (fst c))) = false /\
            existsb (N.eqb 93%N) (snd (fst c)) = false) cs ->
  Forall (fun m => single_line (json_dumps (JObj m)) = true) msgs ->
  filter is_message_line
    (readlines (universal_newlines
       (concat (map (fun cm : call * dict =>
                       record_of json_dumps (snd cm)
                         (strftime (now_timestamp (snd (fst cm))))
                         (username (fst (fst (fst cm)))) (snd (fst (fst cm))))
                    (combine cs msgs))))) = [].
Proof.
  induction 1 as [|c m cs msgs Hm Hrest IH]; intros Hcalls Hcodec.
  - reflexivity.
  - apply Forall_cons_iff in Hcalls.
    destruct Hcalls as [[[Hname Htext] [Hbn Hbt]] Hcalls].
    apply Forall_cons_iff in Hcodec. destruct Hcodec as [Hone Hcodec].
    destruct c as [[who text] env]. cbn [fst snd] in *.
    cbn [combine map concat fst snd]. rewrite record_of_lines.
    rewrite readlines_cons.
    2:{ rewrite !single_line_app, strftime_single_line, Hname, Htext.
        reflexivity. }
    rewrite readlines_cons.
    2:{ rewrite single_line_app, Hone. reflexivity. }
    rewrite readlines_cons by reflexivity.
    cbn [filter].
    rewrite (human_line_is_not_listed _ _ _ (strftime_no_bracket _) Hbn Hbt).
    change (is_message_line ((JSON_PREFIX ++ json_dumps (JObj m)) ++ [NL]))
      with false.
    change (is_message_line (repeat_char 45%N 50 ++ [NL])) with false.
    cbn iota. exact (IH Hcalls Hcodec).
Qed.

(** X3.  The history command finds none of the messages [send_message]
    stored: in a file a sender created and only sends have written to, with
    usernames and texts that hold no line break and no ["]"], no line has
    the ["]:"] the command looks for (the sender writes ["] "] after the
    timestamp), so [show_recent_messages] reports zero messages whatever
    [count] is. *)
Theorem history_misses_sent_messages (calls : list call) (flags : list bool)
    (f' : file) (msgs : list dict) (count : Z) :
  send_all json_dumps py_str calls (ensure_chat_file_exists None)
  = Ok (flags, f') ->
  sent_messages calls = Ok msgs ->
  Forall (fun c : call =>
            accepted c = true ->
            (single_line (username (fst (fst c))) = true /\
             single_line (snd (fst c)) = true) /\
            existsb (N.eqb 93%N) (username (fst (fst c))) = false /\
            existsb (N.eqb 93%N) (snd (fst c)) = false) calls ->
  Forall (fun m => single_line (json_dumps (JObj m)) = true) msgs ->
  show_recent_messages count f' = [HHeader 0; HRule; HRule].
Proof.
  intros Hsend Hmsgs Hcalls Hcodec.
  change (ensure_chat_file_exists None) with (Some session_banner) in Hsend.
  destruct (send_all_log _ _ Hsend)
    as (_ & msgs0 & Hmsgs0 & Hall & Hfile & Hsome).
  rewrite Hmsgs in Hmsgs0. injection Hmsgs0 as <-.
  destruct f' as [c|]; [|exfalso; apply Hsome; [discriminate | reflexivity]].
  cbn [file_text] in Hfile.
  assert (Hcalls' : Forall (fun c : call =>
            (single_line (username (fst (fst c))) = true /\
             single_line (snd (fst c)) = true) /\
            existsb (N.eqb 93%N) (username (fst (fst c))) = false /\
            existsb (N.eqb 93%N) (snd (fst c)) = false)
           (filter accepted calls)).
  { rewrite Forall_forall in *. intros x Hx. apply filter_In in Hx.
    destruct Hx as [Hx Hacc]. exact (Hcalls x Hx Hacc). }
  unfold show_recent_messages. rewrite Hfile.
  change (session_banner ++ ?t)
    with (lit "=== Chat Session Started ===" ++ NL :: t).
  rewrite readlines_cons by reflexivity. cbn [filter].
  change (is_message_line (lit "=== Chat Session Started ===" ++ [NL]))
    with false.
  cbn iota. rewrite (sent_records_are_not_listed Hall Hcalls' Hcodec).
  unfold Py.slice_from. destruct (- count <? 0)%Z; rewrite skipn_nil; reflexivity.
Qed.

(** ** The console session *)

Lemma lower_keeps_slash (s : pystr) :
  startswith (lit "/") (lower s) = startswith (lit "/") s.
Proof.
  destruct s as [|c t]; [reflexivity|].
  change (lit "/") with [47%N]. unfold lower. cbn [flat_map].
  unfold lower_char.
  destruct ((65 <=? c)%N && (c <=? 90)%N) eqn:Hup.
  - apply andb_true_iff in Hup. destruct Hup as [Hlo _].
    apply N.leb_le in Hlo. cbn [app startswith].
    replace (47 =? c + 32)%N with false by (symmetry; apply N.eqb_neq; lia).
    replace (47 =? c)%N with false by (symmetry; apply N.eqb_neq; lia).
    reflexivity.
  - destruct (c =? 304)%N eqn:H1.
    + apply N.eqb_eq in H1. subst c. reflexivity.
    + destruct (c =? 8490)%N eqn:H2.
      * apply N.eqb_eq in H2. subst c. reflexivity.
      * reflexivity.
Qed.

Lemma command_starts_with_slash (s command : pystr) :
  PyStr.eqb (lower s) command = true ->
  startswith (lit "/") command = true ->
  exists t, s = 47%N :: t.
Proof.
  intros Heq Hslash. apply eqb_eq in Heq. rewrite <- Heq in Hslash.
  rewrite lower_keeps_slash in Hslash.
  destruct s as [|c t]; [discriminate|].
  change (startswith (lit "/") (c :: t)) with ((47 =? c)%N && true) in Hslash.
  rewrite andb_true_r in Hslash.
  apply N.eqb_eq in Hslash. subst c. eauto.
Qed.

(** X4.  Once [/quit] or [/exit] is entered, in any letter case and with
    any whitespace around it, the session is over: whatever is typed after
    it changes neither the file nor what is shown. *)
Theorem quit_ends_the_session (self : sender) (before after : list console)
    (line : pystr) (env : send_env) (f : file) :
  existsb (PyStr.eqb (lower (strip line))) [lit "/quit"; lit "/exit"] = true ->
  run_interactive_chat json_dumps py_str self
    (before ++ Typed line env :: after) f =
  run_interactive_chat json_dumps py_str self (before ++ [Typed line env]) f.
Proof.
  intros Hquit. unfold run_interactive_chat.
  assert (H : forall f,
    chat_loop json_dumps py_str self (before ++ Typed line env :: after) f =
    chat_loop json_dumps py_str self (before ++ [Typed line env]) f).
  { induction before as [|[l e|] before IH]; intros f0.
    - cbn [app chat_loop]. rewrite Hquit. reflexivity.
    - cbn [app chat_loop].
      destruct (existsb (PyStr.eqb (lower (strip l))) [lit "/quit"; lit "/exit"]);
        [reflexivity|].
      destruct (PyStr.eqb (lower (strip l)) (lit "/help"));
        [rewrite IH; reflexivity|].
      destruct (PyStr.eqb (lower (strip l)) (lit "/info"));
        [rewrite IH; reflexivity|].
      destruct (PyStr.eqb (lower (strip l)) (lit "/history"));
        [rewrite IH; reflexivity|].
      destruct (PyStr.eqb (lower (strip l)) (lit "/clear"));
        [rewrite IH; reflexivity|].
      destruct (startswith (lit "/") (strip l)); [rewrite IH; reflexivity|].
      destruct (strip l) as [|ch tl]; [rewrite IH; reflexivity|].
      destruct (send_message json_dumps py_str self (ch :: tl) e f0)
        as [[ok f1]|ex]; rewrite IH; reflexivity.
    - reflexivity. }
  rewrite H. reflexivity.
Qed.

(** X5.  A console session changes the file by its sends and by nothing
    else: the file at the end is the file at the start after one
    [send_message] for each plain line, in the order typed, with the
    stripped line as the text.  Commands (every line that starts with a
    slash once stripped) and blank lines leave the file alone. *)
Theorem session_file_is_sends_of_plain_lines (self : sender)
    (inputs : list console) (f : file) :
  fst (run_interactive_chat json_dumps py_str self inputs f) =
  fold_left (after_send json_dumps py_str) (plain_calls self inputs) f.
Proof.
  unfold run_interactive_chat.
  assert (H : forall f,
    fst (chat_loop json_dumps py_str self inputs f) =
    fold_left (after_send json_dumps py_str) (plain_calls self inputs) f).
  { induction inputs as [|[l e|] inputs IH]; intros f0; [reflexivity| |reflexivity].
    cbn [chat_loop plain_calls].
    destruct (existsb (PyStr.eqb (lower (strip l))) [lit "/quit"; lit "/exit"]);
      [reflexivity|].
    assert (Hcmd : forall command shown,
      PyStr.eqb (lower (strip l)) command = true ->
      startswith (lit "/") command = true ->
      fst (let '(f'', out) := chat_loop json_dumps py_str self inputs f0 in
           (f'', shown :: out)) =
      fold_left (after_send json_dumps py_str)
        match strip l with
        | [] => plain_calls self inputs
        | c :: _ =>
            if (c =? 47)%N then plain_calls self inputs
            else (self, strip l, e) :: plain_calls self inputs
        end f0).
    { intros command shown Heq Hslash.
      destruct (command_starts_with_slash _ _ Heq Hslash) as (t & ->).
      cbn [N.eqb Pos.eqb]. rewrite <- IH.
      destruct (chat_loop json_dumps py_str self inputs f0). reflexivity. }
    destruct (PyStr.eqb (lower (strip l)) (lit "/help")) eqn:H1;
      [exact (Hcmd _ _ H1 eq_refl)|].
    destruct (PyStr.eqb (lower (strip l)) (lit "/info")) eqn:H2;
      [exact (Hcmd _ _ H2 eq_refl)|].
    destruct (PyStr.eqb (lower (strip l)) (lit "/history")) eqn:H3;
      [exact (Hcmd _ _ H3 eq_refl)|].
    destruct (PyStr.eqb (lower (strip l)) (lit "/clear")) eqn:H4;
      [exact (Hcmd _ _ H4 eq_refl)|].
    clear Hcmd. destruct (strip l) as [|c t] eqn:Hs.
    - cbn [startswith]. rewrite <- IH.
      destruct (chat_loop json_dumps py_str self inputs f0). reflexivity.
    - change (startswith (lit "/") (c :: t)) with ((47 =? c)%N && true).
      rewrite andb_true_r, (N.eqb_sym 47 c).
      destruct (c =? 47)%N.
      + rewrite <- IH.
        destruct (chat_loop json_dumps py_str self inputs f0). reflexivity.
      + cbn [fold_left after_send].
        destruct (send_message json_dumps py_str self (c :: t) e f0)
          as [[ok f1]|ex]; rewrite <- IH;
          match goal with
          | |- context [chat_loop ?a ?b ?c ?d ?g] =>
              destruct (chat_loop a b c d g); reflexivity
          end. }
  rewrite <- H. destruct (chat_loop json_dumps py_str self inputs f). reflexivity.
Qed.

(** ** Polling *)

Lemma read_new_messages_caught_up (self : receiver) (c : pystr) :
  last_position self = length c ->
  read_new_messages json_loads self (Some c) = (self, [], None).
Proof.
  intros H. unfold read_new_messages, read_from. rewrite H, skipn_all.
  cbn [universal_newlines strip lstrip rstrip]. rewrite Nat.max_id.
  destruct self as [pos d]. cbn in *. subst pos. reflexivity.
Qed.

(** X6.  A poll that finds nothing new returns nothing and changes nothing:
    after one [read_new_messages], a second one on the unchanged file
    returns the empty list and leaves the receiver as it is. *)
Theorem second_poll_returns_nothing (self : receiver) (c : pystr) :
  last_position self <= length c ->
  let r := fst (fst (read_new_messages json_loads self (Some c))) in
  read_new_messages json_loads r (Some c) = (r, [], None).
Proof.
  intros Hpos r. apply read_new_messages_caught_up. subst r.
  destruct (read_new_messages json_loads self (Some c)) as [[r batch] e] eqn:H.
  destruct (read_new_messages_inv _ _ H) as (_ & Hr & _).
  cbn [fst]. rewrite Hr. lia.
Qed.

Lemma show_existing_end_position (self r : receiver) (count : Z)
    (f f_end : file) (out : list printed) :
  show_existing_messages json_loads py_str self count f f_end = (r, out) ->
  last out PNoMessages = PRule ->
  exists c_end, f_end = Some c_end /\ last_position r = length c_end.
Proof.
  unfold show_existing_messages. destruct f as [c|];
    [|intros H; injection H as <- <-; discriminate].
  destruct (existing_lines json_loads (readlines (universal_newlines c)) [])
    as [[|m ms]|e]; try (intros H; injection H as <- <-; discriminate).
  destruct (show_recent py_str _ (displayed_messages self) _)
    as [[d shown] [e|]].
  - intros H. injection H as <- <-. rewrite last_last. discriminate.
  - destruct f_end as [c_end|]; intros H; injection H as <- <-.
    + intros _. exists c_end. split; reflexivity.
    + change (shown ++ [PRule; PError OSError])
        with (shown ++ [PRule] ++ [PError OSError]).
      rewrite app_assoc, last_last. discriminate.
Qed.

(** X7.  Once [show_existing_messages] has printed its closing rule, the
    receiver stands at the end of the file as it then is: the next
    [read_new_messages] on that file returns nothing.  So what was shown is
    not announced again, and neither is a message that was appended while
    [show_existing_messages] was at work, nor one older than the [count]
    shown. *)
Theorem nothing_is_new_after_show_existing (self r : receiver) (count : Z)
    (f f_end : file) (out : list printed) :
  show_existing_messages json_loads py_str self count f f_end = (r, out) ->
  last out PNoMessages = PRule ->
  exists c_end, f_end = Some c_end /\ last_position r = length c_end /\
    read_new_messages json_loads r f_end = (r, [], None).
Proof.
  intros Hshow Hlast.
  destruct (@show_existing_end_position self r count f f_end out Hshow Hlast)
    as (c_end & -> & Hpos).
  exists c_end. split; [reflexivity|]. split; [exact Hpos|].
  apply read_new_messages_caught_up. exact Hpos.
Qed.

Lemma fresh_run_skips_displayed (d : Py.pyset) (news : list json)
    (d' : Py.pyset) :
  fresh_run d news d' ->
  incl d d' /\
  forall m, In m news ->
    exists id, message_id m = Ok id /\
               existsb (Py.key_eq id) d = false /\ In id d'.
Proof.
  revert d. induction news as [|m0 rest IH]; intros d H.
  - simpl in H. subst d'. split; [apply incl_refl | intros m []].
  - destruct H as (id & Hid & _ & _ & Hnew & Hrest).
    destruct (IH _ Hrest) as [Hincl Hids].
    assert (Hd : incl d d').
    { intros x Hx. apply Hincl. apply in_or_app. left. exact Hx. }
    split; [exact Hd|].
    intros m [<-|Hm].
    + exists id. repeat split; auto. apply Hincl. apply in_or_app. right.
      left. reflexivity.
    + destruct (Hids m Hm) as (id' & Hid' & Hnew' & Hin').
      exists id'. repeat split; auto.
      rewrite existsb_app in Hnew'. apply orb_false_iff in Hnew'.
      destruct Hnew' as [Hnew' _]. exact Hnew'.
Qed.

(** X8.  [read_new_messages] returns no message whose [message_id] equals
    (as Python's [==]) an id already in [displayed_messages]; it puts the id
    of every message it returns into the set and removes none. *)
Theorem read_new_messages_skips_displayed_ids (self r : receiver) (f : file)
    (batch : list json) (e : option exn) :
  read_new_messages json_loads self f = (r, batch, e) ->
  incl (displayed_messages self) (displayed_messages r) /\
  forall m, In m batch ->
    exists id, message_id m = Ok id /\
               existsb (Py.key_eq id) (displayed_messages self) = false /\
               In id (displayed_messages r).
Proof.
  intros H. destruct (read_new_messages_inv _ _ H) as (Hfresh & _).
  apply fresh_run_skips_displayed. exact Hfresh.
Qed.

Lemma read_lines_app (before rest : list pystr) (d d1 : Py.pyset)
    (acc out : list json) :
  read_lines json_loads before d acc = (d1, out, None) ->
  read_lines json_loads (before ++ rest) d acc =
  read_lines json_loads rest d1 out.
Proof.
  revert d acc. induction before as [|l before IH]; intros d acc H.
  - simpl in H. injection H as <- <-. reflexivity.
  - cbn [app read_lines] in *.
    destruct (read_line json_loads l d) as [[d2 [m|]]|ex];
      [apply IH; exact H | apply IH; exact H | discriminate].
Qed.

Lemma lstrip_all_space (s : pystr) :
  lstrip s = [] <-> forallb isspace s = true.
Proof.
  induction s as [|c t IH]; simpl; [split; reflexivity|].
  destruct (isspace c); simpl; [exact IH|]. split; discriminate.
Qed.

Lemma strip_nil_iff (s : pystr) : strip s = [] <-> forallb isspace s = true.
Proof.
  rewrite <- lstrip_all_space. unfold strip. split.
  - intros H. destruct (lstrip_head s) as [Hs|(c & t & Hs & Hc)]; [exact Hs|].
    rewrite Hs in H. destruct (rstrip_cons_nonspace c t Hc) as (t' & Ht).
    rewrite Ht in H. discriminate.
  - intros ->. reflexivity.
Qed.

Lemma split_chars (sep : codepoint) (s line : pystr) :
  In line (split sep s) -> forall ch, In ch line -> In ch s.
Proof.
  revert line. induction s as [|c t IH]; intros line Hin ch Hch.
  - simpl in Hin. destruct Hin as [<-|[]]. destruct Hch.
  - cbn [split] in Hin. destruct (N.eqb c sep).
    + destruct Hin as [<-|Hin]; [destruct Hch|]. right. eapply IH; eauto.
    + destruct (split sep t) as [|w ws] eqn:Hs.
      * destruct Hin as [<-|[]]. destruct Hch as [<-|[]]. left. reflexivity.
      * destruct Hin as [<-|Hin].
        -- destruct Hch as [<-|Hch]; [left; reflexivity|].
           right. apply (IH w); [left; reflexivity | exact Hch].
        -- right. apply (IH line); [right; exact Hin | exact Hch].
Qed.

Lemma blank_text_has_blank_lines (sep : codepoint) (s line : pystr) :
  strip s = [] -> In line (split sep s) -> strip line = [].
Proof.
  rewrite !strip_nil_iff, !forallb_forall. intros Hs Hin ch Hch.
  apply Hs. eapply split_chars; eauto.
Qed.

(** X9.  A line with the prefix whose JSON is valid but is not an object (a
    number, a string, a list, [null]) ends the poll: [read_new_messages]
    returns the messages of the lines before it, reports [AttributeError],
    and has already moved to the end of the file, so the lines after it are
    not read, now or later. *)
Theorem non_object_line_ends_the_poll (self : receiver) (c : pystr)
    (before after : list pystr) (bad : pystr) (v : json) (d1 : Py.pyset)
    (out : list json) :
  split NL (fst (read_from (last_position self) c)) = before ++ bad :: after ->
  read_lines json_loads before (displayed_messages self) [] = (d1, out, None) ->
  startswith JSON_PREFIX (strip bad) = true ->
  json_loads (skipn 6 (strip bad)) = Loaded v ->
  (forall members, v <> JObj members) ->
  read_new_messages json_loads self (Some c) =
  ({| last_position := Nat.max (last_position self) (length c);
      displayed_messages := d1 |}, out, Some AttributeError).
Proof.
  intros Hsplit Hbefore Hprefix Hload Hv.
  unfold read_new_messages. cbn [read_from fst] in *.
  destruct (strip (universal_newlines (skipn (last_position self) c)))
    as [|ch tl] eqn:Hblank.
  - assert (Hbad : strip bad = []).
    { eapply blank_text_has_blank_lines; [exact Hblank|]. rewrite Hsplit.
      apply in_or_app. right. left. reflexivity. }
    rewrite Hbad in Hprefix. discriminate.
  - rewrite Hsplit, (@read_lines_app before (bad :: after) _ _ _ _ Hbefore).
    cbn [read_lines].
    unfold read_line. rewrite Hprefix, Hload.
    destruct v; try reflexivity. exfalso. eapply Hv. reflexivity.
Qed.

(** ** From the sender to the receiver's screen *)

Lemma digit_not_space (n : nat) : N.eqb (digit n) SP = false.
Proof. unfold digit, SP. apply N.eqb_neq. lia. Qed.

Lemma strftime_split (now : datetime) :
  split SP (strftime now) =
  [pad4 (year now) ++ lit "-" ++ pad2 (month now) ++ lit "-" ++ pad2 (day now);
   clock_time now].
Proof.
  unfold strftime, clock_time, pad4, pad2.
  change (lit "-") with [45%N]. change (lit " ") with [32%N].
  change (lit ":") with [58%N]. cbn [app split].
  rewrite !digit_not_space. reflexivity.
Qed.

(** X10.  What [format_message] builds, [format_message_display] shows
    without fail: a speech balloon, then the time of day of the sender's
    clock in brackets, the username and the text. *)
Theorem sent_message_is_displayed (self : sender) (text : pystr)
    (now1 now2 : datetime) (m : dict) :
  format_message self text now1 now2 = Ok m ->
  format_message_display py_str (JObj m) =
  Ok (shown_line (username self) text now1).
Proof.
  intros H. destruct (format_message_inv _ _ _ _ H) as (id & _ & ->).
  unfold format_message_display.
  change (Py.get _ (lit "timestamp") _) with (Ok (JStr (strftime now1))).
  change (Py.get _ (lit "username") _) with (Ok (JStr (username self))).
  change (Py.get _ (lit "message") _) with (Ok (JStr text)).
  cbn [bind split_field]. rewrite strftime_split. reflexivity.
Qed.

Lemma read_line_json_from (m : dict) (id : Z) (d : Py.pyset) :
  round_trips json_loads json_dumps m ->
  Py.dict_get (lit "message_id") m = Some (JInt id) ->
  id <> 0%Z -> existsb (Py.key_eq (JInt id)) d = false ->
  read_line json_loads (JSON_PREFIX ++ json_dumps (JObj m)) d =
  Ok (d ++ [JInt id], Some (JObj m)).
Proof.
  intros (_ & Hr & Hne & Hload) Hid Hnz Hnew. unfold read_line.
  assert (Hstrip : strip (JSON_PREFIX ++ json_dumps (JObj m)) =
                   JSON_PREFIX ++ json_dumps (JObj m)).
  { unfold strip. change (lstrip (JSON_PREFIX ++ json_dumps (JObj m)))
      with (JSON_PREFIX ++ json_dumps (JObj m)).
    rewrite rstrip_app by (rewrite Hr; exact Hne). rewrite Hr. reflexivity. }
  rewrite Hstrip, startswith_app.
  change (skipn 6 (JSON_PREFIX ++ json_dumps (JObj m)))
    with (json_dumps (JObj m)).
  rewrite Hload. unfold Py.get. rewrite Hid. cbn [bind Py.truthy].
  apply Z.eqb_neq in Hnz. rewrite Hnz. cbn [negb].
  unfold Py.set_contains, Py.set_add. cbn [Py.hashable bind].
  rewrite Hnew. reflexivity.
Qed.

Lemma read_lines_records_from (cs : list call) (msgs : list dict) :
  Forall2 (fun c m =>
             format_message (fst (fst c)) (snd (fst c))
                            (now_timestamp (snd c)) (now_id (snd c)) = Ok m)
          cs msgs ->
  Forall (fun c : call => single_line (username (fst (fst c))) = true /\
                          single_line (snd (fst c)) = true) cs ->
  Forall (round_trips json_loads json_dumps) msgs ->
  forall (d : Py.pyset) (acc : list json),
    NoDup (map sent_id msgs) ->
    ~ In 0%Z (map sent_id msgs) ->
    Forall (fun id => existsb (Py.key_eq (JInt id)) d = false)
           (map sent_id msgs) ->
    read_lines json_loads
      (split NL (universal_newlines
         (concat (map (fun cm : call * dict =>
                         record_of json_dumps (snd cm)
                           (strftime (now_timestamp (snd (fst cm))))
                           (username (fst (fst (fst cm)))) (snd (fst (fst cm))))
                      (combine cs msgs)))))
      d acc =
    (d ++ map JInt (map sent_id msgs), acc ++ map JObj msgs, None).
Proof.
  induction 1 as [|c m cs msgs Hm Hrest IH];
    intros Hlines Hcodec d acc Hnd Hnz Hnew.
  - simpl. rewrite !app_nil_r. reflexivity.
  - apply Forall_cons_iff in Hlines. destruct Hlines as [[Hname Htext] Hlines].
    apply Forall_cons_iff in Hcodec. destruct Hcodec as [Hrt Hcodec].
    destruct c as [[who text] env]. cbn [fst snd] in *.
    destruct (format_message_inv _ _ _ _ Hm) as (id & _ & Hmd).
    assert (Hid : Py.dict_get (lit "message_id") m = Some (JInt id))
      by (rewrite Hmd; reflexivity).
    assert (Hsid : sent_id m = id) by (unfold sent_id; rewrite Hid; reflexivity).
    cbn [combine map concat fst snd]. cbn [map] in Hnd, Hnz, Hnew.
    rewrite Hsid in *.
    apply NoDup_cons_iff in Hnd. destruct Hnd as [Hfresh Hnd].
    apply Forall_cons_iff in Hnew. destruct Hnew as [Hnew Hnews].
    rewrite record_of_lines.
    pose proof Hrt as (Hone & _).
    rewrite lines_cons.
    2:{ rewrite !single_line_app, strftime_single_line, Hname, Htext.
        reflexivity. }
    rewrite lines_cons.
    2:{ rewrite single_line_app, Hone. reflexivity. }
    rewrite lines_cons by reflexivity.
    cbn [read_lines]. rewrite read_line_human.
    assert (Hid0 : id <> 0%Z).
    { intros ->. apply Hnz. left. reflexivity. }
    rewrite (@read_line_json_from m id d Hrt Hid Hid0 Hnew).
    change (read_line json_loads (repeat_char 45%N 50) (d ++ [JInt id]))
      with (Ok (d ++ [JInt id], @None json)).
    cbn iota beta.
    rewrite (IH Hlines Hcodec (d ++ [JInt id]) (acc ++ [JObj m])).
    + rewrite <- !app_assoc. reflexivity.
    + exact Hnd.
    + intros Hin. apply Hnz. right. exact Hin.
    + rewrite Forall_forall in *. intros id' Hin'.
      rewrite existsb_app, (Hnews id' Hin'). cbn [existsb orb].
      rewrite orb_false_r. cbn [Py.key_eq Py.py_eq]. apply Z.eqb_neq.
      intros ->. exact (Hfresh Hin').
Qed.

Lemma read_appended_records (self : receiver) (c : pystr) (cs : list call)
    (msgs : list dict) :
  last_position self = length c ->
  Forall2 (fun c m =>
             format_message (fst (fst c)) (snd (fst c))
                            (now_timestamp (snd c)) (now_id (snd c)) = Ok m)
          cs msgs ->
  Forall (fun c : call => single_line (username (fst (fst c))) = true /\
                          single_line (snd (fst c)) = true) cs ->
  Forall (round_trips json_loads json_dumps) msgs ->
  NoDup (map sent_id msgs) ->
  ~ In 0%Z (map sent_id msgs) ->
  Forall (fun id => existsb (Py.key_eq (JInt id)) (displayed_messages self)
                    = false) (map sent_id msgs) ->
  forall c' : pystr,
    c' = c ++ concat (map (fun cm : call * dict =>
                             record_of json_dumps (snd cm)
                               (strftime (now_timestamp (snd (fst cm))))
                               (username (fst (fst (fst cm))))
                               (snd (fst (fst cm))))
                          (combine cs msgs)) ->
    read_new_messages json_loads self (Some c') =
    ({| last_position := length c';
        displayed_messages :=
          displayed_messages self ++ map JInt (map sent_id msgs) |},
     map JObj msgs, None).
Proof.
  intros Hpos Hall Hlines Hcodec Hnd Hnz Hnew c' Hfile.
  pose proof (read_lines_records_from Hall Hlines Hcodec
                (displayed_messages self) [] Hnd Hnz Hnew) as Hread.
  unfold read_new_messages, read_from. rewrite Hpos, Hfile.
  rewrite skipn_app, skipn_all, Nat.sub_diag, skipn_0. cbn [app].
  rewrite length_app, Nat.max_r by lia.
  destruct Hall as [|[[who text] env] m cs ms Hm Hall].
  - cbn [combine map concat universal_newlines strip lstrip rstrip app].
    rewrite app_nil_r. reflexivity.
  - match goal with
    | |- context [strip ?x] =>
        assert (Hblank : exists ch tl, strip x = ch :: tl)
    end.
    { cbn [combine map concat fst snd]. rewrite record_of_lines.
      rewrite newlines_cons.
      2:{ destruct (Forall_inv Hlines) as [Hname Htext]. cbn [fst snd] in *.
          rewrite !single_line_app, strftime_single_line, Hname, Htext.
          reflexivity. }
      match goal with
      | |- context [strip ((lit "[" ++ ?a) ++ ?b)] =>
          destruct (strip_cons_nonspace 91%N (a ++ b) eq_refl) as (t' & Ht);
          change (91%N :: (a ++ b)) with ((lit "[" ++ a) ++ b) in Ht;
          rewrite Ht
      end.
      eauto. }
    destruct Hblank as (ch & tl & ->). rewrite Hread. reflexivity.
Qed.

Lemma accepted_calls_single_line (calls : list call) :
  Forall (fun c : call =>
            accepted c = true ->
            single_line (username (fst (fst c))) = true /\
            single_line (snd (fst c)) = true) calls ->
  Forall (fun c : call =>
            single_line (username (fst (fst c))) = true /\
            single_line (snd (fst c)) = true) (filter accepted calls).
Proof.
  rewrite !Forall_forall. intros Hlines x Hx. apply filter_In in Hx.
  destruct Hx as [Hx Hacc]. exact (Hlines x Hx Hacc).
Qed.

(** X11.  A receiver that has read the file to its end gets exactly what is
    sent afterwards: its next [read_new_messages] returns the messages of
    the accepted calls, in call order, adds their ids to
    [displayed_messages] and moves to the new end of the file, provided the
    ids are non-zero, pairwise different and not displayed yet, no username
    or text holds a line break, and the JSON codec writes each message on
    one line and reads it back. *)
Theorem caught_up_receiver_reads_new_sends (self : receiver) (c : pystr)
    (calls : list call) (flags : list bool) (f' : file) (msgs : list dict) :
  last_position self = length c ->
  send_all json_dumps py_str calls (Some c) = Ok (flags, f') ->
  sent_messages calls = Ok msgs ->
  Forall (fun c : call =>
            accepted c = true ->
            single_line (username (fst (fst c))) = true /\
            single_line (snd (fst c)) = true) calls ->
  Forall (round_trips json_loads json_dumps) msgs ->
  NoDup (map sent_id msgs) ->
  ~ In 0%Z (map sent_id msgs) ->
  Forall (fun id => existsb (Py.key_eq (JInt id)) (displayed_messages self)
                    = false) (map sent_id msgs) ->
  read_new_messages json_loads self f' =
  ({| last_position := length (file_text f');
      displayed_messages :=
        displayed_messages self ++ map JInt (map sent_id msgs) |},
   map JObj msgs, None).
Proof.
  intros Hpos Hsend Hmsgs Hlines Hcodec Hnd Hnz Hnew.
  destruct (send_all_log _ _ Hsend)
    as (_ & msgs0 & Hmsgs0 & Hall & Hfile & Hsome).
  rewrite Hmsgs in Hmsgs0. injection Hmsgs0 as <-.
  destruct f' as [c'|]; [|exfalso; apply Hsome; [discriminate | reflexivity]].
  cbn [file_text] in Hfile |- *.
  exact (@read_appended_records self c (filter accepted calls) msgs Hpos Hall
           (accepted_calls_single_line Hlines) Hcodec Hnd Hnz Hnew c' Hfile).
Qed.

(** ** The monitor *)

Lemma announce_sent (cs : list call) (msgs : list dict) :
  Forall2 (fun c m =>
             format_message (fst (fst c)) (snd (fst c))
                            (now_timestamp (snd c)) (now_id (snd c)) = Ok m)
          cs msgs ->
  announce py_str (map JObj msgs) = (announced cs, None).
Proof.
  induction 1 as [|[[who text] env] m cs msgs Hm _ IH]; [reflexivity|].
  cbn [map announce fst snd] in *.
  destruct (format_message_inv _ _ _ _ Hm) as (id & _ & ->).
  unfold format_message_display at 1.
  change (Py.get _ (lit "timestamp") _)
    with (Ok (JStr (strftime (now_timestamp env)))).
  change (Py.get _ (lit "username") _) with (Ok (JStr (username who))).
  change (Py.get _ (lit "message") _) with (Ok (JStr text)).
  cbn [bind split_field]. rewrite strftime_split. cbn [Py.index nth_error bind].
  rewrite IH. reflexivity.
Qed.

(** X12.  What is sent reaches the screen of a monitor that has read the
    file to its end: at its next poll the monitor announces each accepted
    message once, in call order, as a speech balloon, the sender's time of
    day, the username and the text, and goes on polling; under the
    conditions of X11 on ids, line breaks and the JSON codec. *)
Theorem monitor_announces_what_is_sent (self : receiver) (c : pystr)
    (calls : list call) (flags : list bool) (f' : file) (msgs : list dict)
    (polls : list file) :
  last_position self = length c ->
  send_all json_dumps py_str calls (Some c) = Ok (flags, f') ->
  sent_messages calls = Ok msgs ->
  Forall (fun c : call =>
            accepted c = true ->
            single_line (username (fst (fst c))) = true /\
            single_line (snd (fst c)) = true) calls ->
  Forall (round_trips json_loads json_dumps) msgs ->
  NoDup (map sent_id msgs) ->
  ~ In 0%Z (map sent_id msgs) ->
  Forall (fun id => existsb (Py.key_eq (JInt id)) (displayed_messages self)
                    = false) (map sent_id msgs) ->
  let r := {| last_position := length (file_text f');
              displayed_messages :=
                displayed_messages self ++ map JInt (map sent_id msgs) |} in
  monitor_loop json_loads py_str self (f' :: polls) =
  (fst (monitor_loop json_loads py_str r polls),
   announced (filter accepted calls)
   ++ snd (monitor_loop json_loads py_str r polls)).
Proof.
  intros Hpos Hsend Hmsgs Hlines Hcodec Hnd Hnz Hnew r.
  destruct (send_all_log _ _ Hsend)
    as (_ & msgs0 & Hmsgs0 & Hall & Hfile & Hsome).
  rewrite Hmsgs in Hmsgs0. injection Hmsgs0 as <-.
  destruct f' as [c'|]; [|exfalso; apply Hsome; [discriminate | reflexivity]].
  cbn [file_text] in Hfile, r. cbn [monitor_loop].
  rewrite (@read_appended_records self c (filter accepted calls) msgs Hpos
             Hall (accepted_calls_single_line Hlines) Hcodec Hnd Hnz Hnew c'
             Hfile).
  rewrite (@announce_sent (filter accepted calls) msgs Hall). fold r.
  destruct (monitor_loop json_loads py_str r polls). reflexivity.
Qed.

Lemma announce_stops (good more : list json) (bad : json)
    (lines : list pystr) (e : exn) :
  Forall2 (fun m line => format_message_display py_str m = Ok line)
          good lines ->
  format_message_display py_str bad = Raise e ->
  announce py_str (good ++ bad :: more) =
  (flat_map (fun line => [MNewMessage; MLine line]) lines ++ [MNewMessage],
   Some e).
Proof.
  intros Hgood Hbad. induction Hgood as [|m line good lines Hm _ IH].
  - cbn [app announce flat_map]. rewrite Hbad. reflexivity.
  - cbn [app announce flat_map]. rewrite Hm, IH. reflexivity.
Qed.

(** X13.  One new message that [format_message_display] cannot format
    stops the monitor: after the error line of the read, if the read ended
    on an exception, the messages before it in the batch are shown, the
    exception is reported, and [monitor_chat]'s loop is over; the rest of
    the batch is not shown and no later poll is made. *)
Theorem undisplayable_message_stops_the_monitor (self r : receiver)
    (f : file) (good more : list json) (bad : json) (lines : list pystr)
    (e0 : option exn) (e : exn) (polls : list file) :
  read_new_messages json_loads self f = (r, good ++ bad :: more, e0) ->
  Forall2 (fun m line => format_message_display py_str m = Ok line)
          good lines ->
  format_message_display py_str bad = Raise e ->
  monitor_loop json_loads py_str self (f :: polls) =
  (r, read_error e0
      ++ flat_map (fun line => [MNewMessage; MLine line]) lines
      ++ [MNewMessage; MUnexpected e]).
Proof.
  intros Hread Hgood Hbad. cbn [monitor_loop]. rewrite Hread.
  rewrite (@announce_stops good more bad lines e Hgood Hbad).
  rewrite <- app_assoc. reflexivity.
Qed.

(** ** Showing what is there *)

Lemma displayed_message_is_object (m : json) (line : pystr) :
  format_message_display py_str m = Ok line -> exists d, m = JObj d.
Proof.
  destruct m; try discriminate. eauto.
Qed.

Lemma existsb_key_incl (id : json) (d d' : Py.pyset) :
  incl d d' -> existsb (Py.key_eq id) d = true ->
  existsb (Py.key_eq id) d' = true.
Proof.
  intros Hincl H. apply existsb_exists in H. destruct H as (x & Hx & Hk).
  apply existsb_exists. exists x. auto.
Qed.

Lemma show_recent_all (recent : list json) (lines : list pystr) :
  Forall2 (fun m line => format_message_display py_str m = Ok line)
          recent lines ->
  Forall (fun m => forall id, message_id m = Ok id -> Py.truthy id = true ->
                              Py.hashable id = true) recent ->
  forall (d : Py.pyset) (out : list printed),
  exists d',
    show_recent py_str recent d out = (d', out ++ map PMessage lines, None) /\
    incl d d' /\
    forall m id, In m recent -> message_id m = Ok id -> Py.truthy id = true ->
                 existsb (Py.key_eq id) d' = true.
Proof.
  induction 1 as [|m line recent lines Hm _ IH]; intros Hids d out.
  - exists d. cbn [show_recent map]. rewrite app_nil_r.
    split; [reflexivity|]. split; [apply incl_refl | intros m id []].
  - apply Forall_cons_iff in Hids. destruct Hids as [Hid Hids].
    destruct (displayed_message_is_object _ Hm) as (dm & ->).
    cbn [show_recent]. rewrite Hm. unfold message_id in Hid.
    destruct (Py.get (JObj dm) (lit "message_id") JNull) as [id|ex] eqn:Hget;
      [|discriminate].
    destruct (Py.truthy id) eqn:Ht.
    + unfold Py.set_add. rewrite (Hid id eq_refl Ht).
      destruct (IH Hids (if existsb (Py.key_eq id) d then d else d ++ [id])
                  (out ++ [PMessage line])) as (d' & Hrun & Hincl & Hin).
      exists d'. rewrite Hrun. cbn [map]. rewrite <- app_assoc.
      split; [reflexivity|].
      assert (Hd : incl d d').
      { intros x Hx. apply Hincl.
        destruct (existsb (Py.key_eq id) d); [exact Hx|].
        apply in_or_app. left. exact Hx. }
      split; [exact Hd|].
      intros m id' [<-|Hm'] Hid' Ht'; [|eapply Hin; eauto].
      unfold message_id in Hid'. rewrite Hget in Hid'. injection Hid' as <-.
      destruct (existsb (Py.key_eq id) d) eqn:Hex.
      * exact (existsb_key_incl _ Hincl Hex).
      * apply (existsb_key_incl id (d := d ++ [id])); [exact Hincl|].
        rewrite existsb_app. cbn [existsb].
        rewrite (key_eq_refl _ (Hid id eq_refl Ht)).
        rewrite orb_true_r. reflexivity.
    + destruct (IH Hids d (out ++ [PMessage line])) as (d' & Hrun & Hincl & Hin).
      exists d'. rewrite Hrun. cbn [map]. rewrite <- app_assoc.
      split; [reflexivity|]. split; [exact Hincl|].
      intros m id' [<-|Hm'] Hid' Ht'; [|eapply Hin; eauto].
      unfold message_id in Hid'. rewrite Hget in Hid'. injection Hid' as <-.
      congruence.
Qed.

(** X14.  When the file holds messages and each of the last [count] can be
    formatted (and has an id that is hashable or false),
    [show_existing_messages] prints a header with
    [min(count, len(messages))], a rule, those messages in file order and a
    closing rule; it moves to the end of the file and has every true id of
    a message shown in [displayed_messages].  Which messages are shown is
    the slice [messages[-count:]]. *)
Theorem show_existing_messages_shows_recent (self : receiver) (count : Z)
    (c c_end : pystr) (msgs : list json) (lines : list pystr) :
  stored_messages json_loads (Some c) = Ok msgs -> msgs <> [] ->
  Forall2 (fun m line => format_message_display py_str m = Ok line)
          (Py.slice_from (- count) msgs) lines ->
  Forall (fun m => forall id, message_id m = Ok id -> Py.truthy id = true ->
                              Py.hashable id = true)
         (Py.slice_from (- count) msgs) ->
  exists d,
    show_existing_messages json_loads py_str self count (Some c) (Some c_end) =
    ({| last_position := length c_end; displayed_messages := d |},
     [PShowing (Z.min count (Z.of_nat (length msgs))); PRule]
     ++ map PMessage lines ++ [PRule]) /\
    incl (displayed_messages self) d /\
    forall m id, In m (Py.slice_from (- count) msgs) ->
      message_id m = Ok id -> Py.truthy id = true ->
      existsb (Py.key_eq id) d = true.
Proof.
  intros Hstored Hne Hlines Hids. unfold stored_messages in Hstored.
  unfold show_existing_messages. rewrite Hstored.
  destruct msgs as [|m0 ms]; [contradiction|].
  destruct (@show_recent_all _ lines Hlines Hids (displayed_messages self)
              [PShowing (Z.min count (Z.of_nat (length (m0 :: ms)))); PRule])
    as (d & Hrun & Hincl & Hin).
  exists d. rewrite Hrun. rewrite <- app_assoc. auto.
Qed.

(** X15.  With [count = 0] the slice [messages[-0:]] is the whole list:
    [show_existing_messages(0)] announces zero messages in its header and
    then shows every message in the file. *)
Theorem show_existing_messages_zero_shows_all (self : receiver)
    (c c_end : pystr) (msgs : list json) (lines : list pystr) :
  stored_messages json_loads (Some c) = Ok msgs -> msgs <> [] ->
  Forall2 (fun m line => format_message_display py_str m = Ok line)
          msgs lines ->
  Forall (fun m => forall id, message_id m = Ok id -> Py.truthy id = true ->
                              Py.hashable id = true) msgs ->
  snd (show_existing_messages json_loads py_str self 0 (Some c) (Some c_end)) =
  [PShowing 0; PRule] ++ map PMessage lines ++ [PRule].
Proof.
  intros Hstored Hne Hlines Hids. unfold stored_messages in Hstored.
  unfold show_existing_messages. rewrite Hstored.
  destruct msgs as [|m0 ms]; [contradiction|].
  change (Py.slice_from (- 0) (m0 :: ms)) with (m0 :: ms).
  destruct (@show_recent_all _ lines Hlines Hids (displayed_messages self)
              [PShowing (Z.min 0 (Z.of_nat (length (m0 :: ms)))); PRule])
    as (d & Hrun & _).
  rewrite Hrun. cbn [snd]. rewrite Z.min_l by lia.
  rewrite <- app_assoc. reflexivity.
Qed.

(** X16.  A monitor does not announce as new what it has just shown: when
    [show_existing_messages] ran to its closing rule, a first poll that
    finds the file as [show_existing_messages] left it adds nothing to what
    [monitor_chat] prints and changes nothing in its state. *)
Theorem monitor_does_not_announce_what_it_showed (self : receiver)
    (f f_end : file) (polls : list file) :
  last (snd (show_existing_messages json_loads py_str self 10 f f_end))
       PNoMessages = PRule ->
  monitor_chat json_loads py_str self f f_end (f_end :: polls) =
  monitor_chat json_loads py_str self f f_end polls.
Proof.
  intros Hlast. unfold monitor_chat. destruct f as [c|]; [|reflexivity].
  destruct (show_existing_messages json_loads py_str self 10 (Some c) f_end)
    as [r out] eqn:Hshow.
  cbn [snd] in Hlast.
  destruct (@show_existing_end_position self r 10 (Some c) f_end out Hshow Hlast)
    as (c_end & -> & Hpos).
  cbn [monitor_loop]. rewrite (read_new_messages_caught_up _ _ Hpos).
  cbn [announce app].
  destruct (monitor_loop json_loads py_str r polls). reflexivity.
Qed.

Lemma printed_messages_app (a b : list printed) :
  printed_messages (a ++ b) = printed_messages a ++ printed_messages b.
Proof. apply flat_map_app. Qed.

Lemma show_recent_count (recent : list json) (d : Py.pyset)
    (out : list printed) (d' : Py.pyset) (out' : list printed)
    (e : option exn) :
  show_recent py_str recent d out = (d', out', e) ->
  length (printed_messages out') <=
  length (printed_messages out) + length recent.
Proof.
  revert d out. induction recent as [|msg rest IH]; intros d out H.
  - simpl in H. injection H as <- <- <-. lia.
  - cbn [show_recent] in H. cbn [length].
    assert (Hstep : forall d0,
      show_recent py_str rest d0 (out ++ [PMessage
        match format_message_display py_str msg with
        | Ok t => t | Raise _ => [] end]) = (d', out', e) ->
      length (printed_messages out') <=
      length (printed_messages out) + S (length rest)).
    { intros d0 H0. apply IH in H0. rewrite printed_messages_app in H0.
      rewrite length_app in H0. cbn in H0. lia. }
    destruct (format_message_display py_str msg) as [line|ex];
      [|injection H as <- <- <-; lia].
    destruct (Py.get msg (lit "message_id") JNull) as [id|ex].
    2:{ injection H as <- <- <-. rewrite printed_messages_app, length_app.
        cbn. lia. }
    destruct (Py.truthy id); [|exact (Hstep _ H)].
    destruct (Py.set_add id d) as [d0|ex]; [exact (Hstep _ H)|].
    injection H as <- <- <-. rewrite printed_messages_app, length_app.
    cbn. lia.
Qed.

Lemma slice_last_length (A : Type) (count : Z) (l : list A) :
  (0 < count)%Z -> length (Py.slice_from (- count) l) <= Z.to_nat count.
Proof.
  intros Hc. unfold Py.slice_from.
  replace (- count <? 0)%Z with true by (symmetry; apply Z.ltb_lt; lia).
  rewrite Z.opp_involutive, length_skipn. lia.
Qed.

(** X17.  For a positive [count], [show_existing_messages] prints at most
    [count] messages, whatever the file holds. *)
Theorem show_existing_messages_prints_at_most_count (self : receiver)
    (count : Z) (f f_end : file) :
  (0 < count)%Z ->
  length (printed_messages
            (snd (show_existing_messages json_loads py_str self count f f_end)))
  <= Z.to_nat count.
Proof.
  intros Hc. unfold show_existing_messages.
  destruct f as [c|]; [|simpl; lia].
  destruct (existing_lines json_loads (readlines (universal_newlines c)) [])
    as [[|m ms]|e]; try (simpl; lia).
  destruct (show_recent py_str (Py.slice_from (- count) (m :: ms))
              (displayed_messages self)
              [PShowing (Z.min count (Z.of_nat (length (m :: ms)))); PRule])
    as [[d out] e] eqn:Hrec.
  apply show_recent_count in Hrec.
  pose proof (slice_last_length (m :: ms) Hc) as Hlen.
  change (length (printed_messages
            [PShowing (Z.min count (Z.of_nat (length (m :: ms)))); PRule]))
    with 0 in Hrec.
  destruct e as [e|]; [|destruct f_end]; cbn [snd];
    rewrite printed_messages_app, length_app; cbn [printed_messages flat_map
      app length]; lia.
Qed.

End Properties.

(* ================================================================== *)
(** * The properties on concrete files *)
(* ================================================================== *)

(** Three accepted sends get the ids 1704103200000, 1704103200000 and
    1704103201000: the first two are equal, the third is 1000 further. *)
Lemma message_ids_repeat_and_jump :
  send_all PyJson.json_dumps Demo.no_str Demo.three_calls (Some session_banner)
  = Ok ([true; true; true], Demo.file_after Demo.three_calls) /\
  sent_messages Demo.three_calls =
  Ok [[(lit "timestamp", JStr (lit "2024-01-01 10:00:00"));
       (lit "username", JStr (lit "alice")); (lit "message", JStr (lit "hi"));
       (lit "message_id", JInt 1704103200000)];
      [(lit "timestamp", JStr (lit "2024-01-01 10:00:00"));
       (lit "username", JStr (lit "bob")); (lit "message", JStr (lit "yo"));
       (lit "message_id", JInt 1704103200000)];
      [(lit "timestamp", JStr (lit "2024-01-01 10:00:01"));
       (lit "username", JStr (lit "alice")); (lit "message", JStr (lit "again"));
       (lit "message_id", JInt 1704103201000)]].
Proof. split; vm_compute; reflexivity. Qed.

Lemma message_ids_follow_clock_witness :
  send_all PyJson.json_dumps Demo.no_str Demo.three_calls (Some session_banner)
  = Ok ([true; true; true], Demo.file_after Demo.three_calls) /\
  exists msgs recs,
    sent_messages Demo.three_calls = Ok msgs /\
    Forall2 (fun c m =>
               exists id, generate_message_id (now_id (snd c)) = Ok id /\
                          Py.dict_get (lit "message_id") m = Some (JInt id))
            (filter accepted Demo.three_calls) msgs /\
    Forall2 (fun m r => record_text PyJson.json_dumps Demo.no_str m = Ok r)
            msgs recs /\
    file_text (Demo.file_after Demo.three_calls) = session_banner ++ concat recs.
Proof.
  assert (H : send_all PyJson.json_dumps Demo.no_str Demo.three_calls
                (Some session_banner)
              = Ok ([true; true; true], Demo.file_after Demo.three_calls))
    by (vm_compute; reflexivity).
  split; [exact H|].
  exact (@message_ids_follow_clock PyJson.json_dumps Demo.no_str
           Demo.three_calls (Some session_banner) [true; true; true]
           (Demo.file_after Demo.three_calls) H).
Defined.

(** The same message sent twice with the same id: the second call returns
    [True] as well, and the store holds the message twice. *)
Lemma second_send_of_same_id_is_stored :
  send_all PyJson.json_dumps Demo.no_str Demo.repeated_calls
           (Some session_banner)
  = Ok ([true; true], Demo.file_after Demo.repeated_calls) /\
  stored_messages PyJson.json_loads (Some session_banner) = Ok [] /\
  stored_messages PyJson.json_loads (Demo.file_after Demo.repeated_calls)
  = Ok [Demo.message "2024-01-01 10:00:00" "alice" "hi" 1704103200000;
        Demo.message "2024-01-01 10:00:00" "alice" "hi" 1704103200000].
Proof. repeat split; vm_compute; reflexivity. Qed.

Lemma send_message_appends_duplicates_witness :
  accepted (Demo.alice, lit "hi", Demo.at_time Demo.ten_o_clock) = true /\
  generate_message_id Demo.ten_o_clock = Ok 1704103200000%Z /\
  exists m1 m2 r1 r2,
    send_all PyJson.json_dumps Demo.no_str Demo.repeated_calls
             (Some session_banner)
    = Ok ([true; true], Some (session_banner ++ r1 ++ r2)) /\
    sent_messages Demo.repeated_calls = Ok [m1; m2] /\
    Py.dict_get (lit "message_id") m1 = Some (JInt 1704103200000) /\
    Py.dict_get (lit "message_id") m2 = Some (JInt 1704103200000) /\
    record_text PyJson.json_dumps Demo.no_str m1 = Ok r1 /\
    record_text PyJson.json_dumps Demo.no_str m2 = Ok r2.
Proof.
  assert (A : accepted (Demo.alice, lit "hi", Demo.at_time Demo.ten_o_clock)
              = true) by (vm_compute; reflexivity).
  assert (I : generate_message_id Demo.ten_o_clock = Ok 1704103200000%Z)
    by (vm_compute; reflexivity).
  split; [exact A|]. split; [exact I|].
  exact (@send_message_appends_duplicates PyJson.json_dumps Demo.no_str
           (Demo.alice, lit "hi", Demo.at_time Demo.ten_o_clock)
           (Demo.alice, lit "hi", Demo.at_time Demo.ten_o_clock)
           (Some session_banner) 1704103200000%Z A A I I).
Defined.

(** A short text that is not blank is still rejected when it contains a
    prohibited word. *)
Lemma prohibited_word_is_rejected :
  validate_message (lit "no Spam please")
  = (false, lit "Message contains prohibited content") /\
  strip (lit "no Spam please") = lit "no Spam please" /\
  length (lit "no Spam please") = 14.
Proof. repeat split; vm_compute; reflexivity. Qed.

Lemma validate_message_rejects_iff_witness :
  fst (validate_message (lit "no Spam please")) = false /\
  contains (lit "spam") (lower (lit "no Spam please")) = true /\
  send_message PyJson.json_dumps Demo.no_str Demo.alice (lit "no Spam please")
               (Demo.at_time Demo.ten_o_clock) (Some session_banner)
  = Ok (false, Some session_banner).
Proof.
  assert (H : fst (validate_message (lit "no Spam please")) = false)
    by (vm_compute; reflexivity).
  split; [exact H|]. split; [vm_compute; reflexivity|].
  exact (proj2 (@validate_message_rejects_iff PyJson.json_dumps Demo.no_str
                  (lit "no Spam please")) H Demo.alice
               (Demo.at_time Demo.ten_o_clock) (Some session_banner)).
Defined.

(** C4.  A record without [message_id] is stored and shown by
    [show_existing_messages], but a receiver that polls the same file with
    [read_new_messages] gets nothing and moves past it: the message is never
    delivered. *)
Lemma anonymous_message_is_dropped :
  stored_messages PyJson.json_loads Demo.anonymous_file
  = Ok [Demo.anonymous_message] /\
  read_new_messages PyJson.json_loads receiver_init Demo.anonymous_file
  = ({| last_position := length (file_text Demo.anonymous_file);
        displayed_messages := [] |}, [], None) /\
  show_existing_messages PyJson.json_loads Demo.no_str receiver_init 10
                         Demo.anonymous_file Demo.anonymous_file
  = ({| last_position := length (file_text Demo.anonymous_file);
        displayed_messages := [] |},
     [PShowing 1; PRule;
      PMessage (balloon ++ lit "[10:00:00] carol: hello"); PRule]).
Proof. repeat split; vm_compute; reflexivity. Qed.

(** Two accepted sends within one millisecond: both messages are stored with
    the same id, and a new receiver gets the first one only. *)
Lemma same_id_message_is_not_read :
  send_all PyJson.json_dumps Demo.no_str Demo.colliding_calls
           (ensure_chat_file_exists None)
  = Ok ([true; true], Demo.file_after Demo.colliding_calls) /\
  stored_messages PyJson.json_loads (Demo.file_after Demo.colliding_calls)
  = Ok [Demo.message "2024-01-01 10:00:00" "alice" "hi" 1704103200000;
        Demo.message "2024-01-01 10:00:00" "bob" "yo" 1704103200000] /\
  read_new_messages PyJson.json_loads receiver_init
                    (Demo.file_after Demo.colliding_calls)
  = ({| last_position :=
          length (file_text (Demo.file_after Demo.colliding_calls));
        displayed_messages := [JInt 1704103200000] |},
     [Demo.message "2024-01-01 10:00:00" "alice" "hi" 1704103200000], None).
Proof. repeat split; vm_compute; reflexivity. Qed.

Lemma fresh_receiver_reads_all_sent_witness :
  read_new_messages PyJson.json_loads receiver_init
                    (Demo.file_after Demo.two_calls) =
  ({| last_position := length (file_text (Demo.file_after Demo.two_calls));
      displayed_messages := [JInt 1704103200000; JInt 1704103201000] |},
   [Demo.message "2024-01-01 10:00:00" "alice" "hi" 1704103200000;
    Demo.message "2024-01-01 10:00:01" "bob" "yo" 1704103201000], None).
Proof.
  refine (@fresh_receiver_reads_all_sent PyJson.json_loads PyJson.json_dumps
            Demo.no_str Demo.two_calls [true; true]
            (Demo.file_after Demo.two_calls)
            [[(lit "timestamp", JStr (lit "2024-01-01 10:00:00"));
              (lit "username", JStr (lit "alice"));
              (lit "message", JStr (lit "hi"));
              (lit "message_id", JInt 1704103200000)];
             [(lit "timestamp", JStr (lit "2024-01-01 10:00:01"));
              (lit "username", JStr (lit "bob"));
              (lit "message", JStr (lit "yo"));
              (lit "message_id", JInt 1704103201000)]]
            _ _ _ _ _ _).
  - vm_compute; reflexivity.
  - vm_compute; reflexivity.
  - repeat constructor.
  - repeat constructor; try (vm_compute; reflexivity);
      intros H; vm_compute in H; discriminate H.
  - vm_compute. repeat constructor; simpl; intuition discriminate.
  - vm_compute. intuition discriminate.
Defined.

Lemma cursor_never_decreases_nor_passes_end_witness :
  let states :=
    map fst (run PyJson.json_loads PyJson.json_dumps Demo.no_str
                 Demo.new_system Demo.busy_run) in
  map (fun s' => last_position (rcv s')) states = [0; 222; 222; 610; 610] /\
  map (fun s' => length (file_text (chat_file s'))) states
  = [222; 222; 411; 610; 610] /\
  Sorted.StronglySorted le
    (0 :: map (fun s' => last_position (rcv s')) states) /\
  Forall (fun s' => last_position (rcv s') <= length (file_text (chat_file s')))
         states.
Proof.
  split; [vm_compute; reflexivity|]. split; [vm_compute; reflexivity|].
  exact (@cursor_never_decreases_nor_passes_end PyJson.json_loads
           PyJson.json_dumps Demo.no_str Demo.new_system Demo.busy_run
           (Nat.le_0_l _)).
Defined.

(** A sender's message is shown with a speech balloon in front and with the
    time of day only: neither as [[time] author: body] with the whole
    timestamp nor with the time part alone. *)
Lemma display_is_not_bracket_form :
  format_message_display Demo.no_str
    (Demo.message "2024-01-01 10:00:00" "alice" "hi" 1704103200000)
  = Ok (balloon ++ lit "[10:00:00] alice: hi") /\
  PyStr.eqb (balloon ++ lit "[10:00:00] alice: hi")
            (lit "[2024-01-01 10:00:00] alice: hi") = false /\
  PyStr.eqb (balloon ++ lit "[10:00:00] alice: hi")
            (lit "[10:00:00] alice: hi") = false.
Proof. repeat split; vm_compute; reflexivity. Qed.

Lemma format_message_display_form_witness :
  split SP (lit "2024-01-01 10:00:00") = [lit "2024-01-01"; lit "10:00:00"] /\
  format_message_display Demo.no_str
    (Demo.message "2024-01-01 10:00:00" "alice" "hi" 1704103200000)
  = Ok (balloon ++ lit "[" ++ lit "10:00:00" ++ lit "] " ++ lit "alice"
        ++ lit ": " ++ lit "hi").
Proof.
  split; [vm_compute; reflexivity|].
  refine (@format_message_display_form Demo.no_str
            [(lit "timestamp", JStr (lit "2024-01-01 10:00:00"));
             (lit "username", JStr (lit "alice"));
             (lit "message", JStr (lit "hi"));
             (lit "message_id", JInt 1704103200000)]
            (lit "2024-01-01 10:00:00") (lit "alice") (lit "hi")
            (lit "2024-01-01") (lit "10:00:00") [] _ _ _ _);
    vm_compute; reflexivity.
Defined.

(** The line [  JSON: {"message_id": 3}] does not start with the prefix,
    yet it is not skipped: both loops strip the line before they look for
    the prefix, so that [read_new_messages] returns the record and
    [show_existing_messages] shows it. *)
Lemma indented_json_line_is_read :
  startswith JSON_PREFIX Demo.indented_line = false /\
  read_new_messages PyJson.json_loads receiver_init Demo.indented_file
  = ({| last_position := 26; displayed_messages := [JInt 3] |},
     [JObj [(lit "message_id", JInt 3)]], None) /\
  show_existing_messages PyJson.json_loads Demo.no_str receiver_init 10
                         Demo.indented_file Demo.indented_file
  = ({| last_position := 26; displayed_messages := [JInt 3] |},
     [PShowing 1; PRule;
      PMessage (balloon ++ lit "[time] Unknown user: "); PRule]).
Proof. repeat split; vm_compute; reflexivity. Qed.

Lemma malformed_lines_are_skipped_witness :
  malformed PyJson.json_loads (lit "JSON: {not json") /\
  forall before after d acc,
    read_lines PyJson.json_loads (before ++ lit "JSON: {not json" :: after) d acc
    = read_lines PyJson.json_loads (before ++ after) d acc.
Proof.
  assert (H : malformed PyJson.json_loads (lit "JSON: {not json"))
    by (right; vm_compute; reflexivity).
  split; [exact H|].
  exact (proj1 (proj2 (@malformed_lines_are_skipped PyJson.json_loads
                        (lit "JSON: {not json") H))).
Defined.

Lemma format_message_display_needs_space_witness :
  Py.dict_get (lit "timestamp") [(lit "timestamp", JStr (lit "10:00:00"))]
  = Some (JStr (lit "10:00:00")) /\
  format_message_display Demo.no_str
    (JObj [(lit "timestamp", JStr (lit "10:00:00"))]) = Raise IndexError.
Proof.
  assert (H : Py.dict_get (lit "timestamp")
                [(lit "timestamp", JStr (lit "10:00:00"))]
              = Some (JStr (lit "10:00:00"))) by (vm_compute; reflexivity).
  split; [exact H|].
  exact (@format_message_display_needs_space Demo.no_str
           [(lit "timestamp", JStr (lit "10:00:00"))] (lit "10:00:00") H).
Defined.

(** ** The other functions on concrete input *)

Lemma get_username_returns_first_valid_witness :
  get_username [lit "   "; lit " a "; lit "  bob "; lit "carol"]
  = Some (lit "bob", [lit "carol"]) /\
  2 <= length (lit "bob") /\ strip (lit "bob") = lit "bob" /\
  exists refused line,
    [lit "   "; lit " a "; lit "  bob "; lit "carol"]
    = refused ++ line :: [lit "carol"] /\
    lit "bob" = strip line /\
    Forall (fun l => length (strip l) < 2) refused.
Proof.
  assert (H : get_username [lit "   "; lit " a "; lit "  bob "; lit "carol"]
              = Some (lit "bob", [lit "carol"])) by (vm_compute; reflexivity).
  split; [exact H|].
  exact (@get_username_returns_first_valid
           [lit "   "; lit " a "; lit "  bob "; lit "carol"]
           (lit "bob") [lit "carol"] H).
Defined.

Lemma show_recent_messages_lists_bracketed_lines_witness :
  show_recent_messages 5 Demo.note_file
  = [HHeader 1; HRule; HLine (lit "[note]: remember the milk"); HRule] /\
  exists line,
    In line (readlines (universal_newlines
                          (lit "[note]: remember the milk" ++ [NL]))) /\
    lit "[note]: remember the milk" = strip line /\
    startswith (lit "[") line = true /\ contains (lit "]:") line = true.
Proof.
  assert (H : show_recent_messages 5 Demo.note_file
              = [HHeader 1; HRule; HLine (lit "[note]: remember the milk");
                 HRule]) by (vm_compute; reflexivity).
  split; [exact H|].
  refine (@show_recent_messages_lists_bracketed_lines 5
            (lit "[note]: remember the milk" ++ [NL])
            (lit "[note]: remember the milk") _).
  vm_compute. right. right. left. reflexivity.
Defined.

Lemma history_misses_sent_messages_witness :
  stored_messages PyJson.json_loads (Demo.file_after Demo.two_calls)
  = Ok [Demo.message "2024-01-01 10:00:00" "alice" "hi" 1704103200000;
        Demo.message "2024-01-01 10:00:01" "bob" "yo" 1704103201000] /\
  show_recent_messages 5 (Demo.file_after Demo.two_calls)
  = [HHeader 0; HRule; HRule].
Proof.
  split; [vm_compute; reflexivity|].
  refine (@history_misses_sent_messages PyJson.json_dumps Demo.no_str
            Demo.two_calls [true; true] (Demo.file_after Demo.two_calls)
            [[(lit "timestamp", JStr (lit "2024-01-01 10:00:00"));
              (lit "username", JStr (lit "alice"));
              (lit "message", JStr (lit "hi"));
              (lit "message_id", JInt 1704103200000)];
             [(lit "timestamp", JStr (lit "2024-01-01 10:00:01"));
              (lit "username", JStr (lit "bob"));
              (lit "message", JStr (lit "yo"));
              (lit "message_id", JInt 1704103201000)]] 5 _ _ _ _).
  - vm_compute; reflexivity.
  - vm_compute; reflexivity.
  - repeat constructor.
  - repeat constructor.
Defined.

Lemma quit_ends_the_session_witness :
  existsb (PyStr.eqb (lower (strip (lit " /QUIT "))))
          [lit "/quit"; lit "/exit"] = true /\
  run_interactive_chat PyJson.json_dumps Demo.no_str Demo.alice
    (Demo.session_start
     ++ Typed (lit " /QUIT ") (Demo.at_time Demo.ten_o_clock)
        :: Demo.typed_late) (Some session_banner) =
  run_interactive_chat PyJson.json_dumps Demo.no_str Demo.alice
    (Demo.session_start
     ++ [Typed (lit " /QUIT ") (Demo.at_time Demo.ten_o_clock)])
    (Some session_banner).
Proof.
  assert (H : existsb (PyStr.eqb (lower (strip (lit " /QUIT "))))
                      [lit "/quit"; lit "/exit"] = true)
    by (vm_compute; reflexivity).
  split; [exact H|].
  exact (@quit_ends_the_session PyJson.json_dumps Demo.no_str Demo.alice
           Demo.session_start Demo.typed_late (lit " /QUIT ")
           (Demo.at_time Demo.ten_o_clock) (Some session_banner) H).
Defined.

Lemma second_poll_returns_nothing_witness :
  snd (fst (read_new_messages PyJson.json_loads receiver_init
              (Demo.file_after Demo.two_calls)))
  = [Demo.message "2024-01-01 10:00:00" "alice" "hi" 1704103200000;
     Demo.message "2024-01-01 10:00:01" "bob" "yo" 1704103201000] /\
  let r := fst (fst (read_new_messages PyJson.json_loads receiver_init
                       (Some (file_text (Demo.file_after Demo.two_calls))))) in
  read_new_messages PyJson.json_loads r
    (Some (file_text (Demo.file_after Demo.two_calls))) = (r, [], None).
Proof.
  split; [vm_compute; reflexivity|].
  exact (@second_poll_returns_nothing PyJson.json_loads receiver_init
           (file_text (Demo.file_after Demo.two_calls)) (Nat.le_0_l _)).
Defined.

Lemma nothing_is_new_after_show_existing_witness :
  let shown :=
    show_existing_messages PyJson.json_loads Demo.no_str receiver_init 1
      (Demo.file_after Demo.two_calls) (Demo.file_after Demo.three_calls) in
  snd shown = [PShowing 1; PRule;
               PMessage (balloon ++ lit "[10:00:01] bob: yo"); PRule] /\
  exists c_end,
    Demo.file_after Demo.three_calls = Some c_end /\
    last_position (fst shown) = length c_end /\
    read_new_messages PyJson.json_loads (fst shown)
                      (Demo.file_after Demo.three_calls)
    = (fst shown, [], None).
Proof.
  split; [vm_compute; reflexivity|].
  refine (@nothing_is_new_after_show_existing PyJson.json_loads Demo.no_str
            receiver_init _ 1 (Demo.file_after Demo.two_calls)
            (Demo.file_after Demo.three_calls) _ _ _).
  - apply surjective_pairing.
  - vm_compute; reflexivity.
Defined.

Lemma read_new_messages_skips_displayed_ids_witness :
  let self := {| last_position := 0;
                 displayed_messages := [JFloat (Py.float_of_Z 1704103200000)] |} in
  let result := read_new_messages PyJson.json_loads self
                  (Demo.file_after Demo.two_calls) in
  snd (fst result)
  = [Demo.message "2024-01-01 10:00:01" "bob" "yo" 1704103201000] /\
  incl (displayed_messages self) (displayed_messages (fst (fst result))) /\
  forall m, In m (snd (fst result)) ->
    exists id, message_id m = Ok id /\
               existsb (Py.key_eq id) (displayed_messages self) = false /\
               In id (displayed_messages (fst (fst result))).
Proof.
  split; [vm_compute; reflexivity|].
  refine (@read_new_messages_skips_displayed_ids PyJson.json_loads _ _
            (Demo.file_after Demo.two_calls) _ _ _).
  rewrite <- !surjective_pairing. reflexivity.
Defined.

Lemma non_object_line_ends_the_poll_witness :
  split NL (fst (read_from 0 Demo.number_file))
  = [lit "hello"] ++ lit "JSON: 42"
    :: [JSON_PREFIX ++ PyJson.json_dumps
          (Demo.message "2024-01-01 10:00:00" "alice" "hi" 7)] /\
  read_new_messages PyJson.json_loads receiver_init (Some Demo.number_file) =
  ({| last_position := Nat.max 0 (length Demo.number_file);
      displayed_messages := [] |}, [], Some AttributeError).
Proof.
  assert (H : split NL (fst (read_from 0 Demo.number_file))
              = [lit "hello"] ++ lit "JSON: 42"
                :: [JSON_PREFIX ++ PyJson.json_dumps
                      (Demo.message "2024-01-01 10:00:00" "alice" "hi" 7)])
    by (vm_compute; reflexivity).
  split; [exact H|].
  refine (@non_object_line_ends_the_poll PyJson.json_loads receiver_init
            Demo.number_file [lit "hello"]
            [JSON_PREFIX ++ PyJson.json_dumps
               (Demo.message "2024-01-01 10:00:00" "alice" "hi" 7)]
            (lit "JSON: 42") (JInt 42) [] [] H _ _ _ _).
  - vm_compute; reflexivity.
  - vm_compute; reflexivity.
  - vm_compute; reflexivity.
  - intros members Heq. discriminate Heq.
Defined.

Lemma sent_message_is_displayed_witness :
  format_message Demo.alice (lit "hi") Demo.ten_o_clock Demo.one_second_later
  = Ok [(lit "timestamp", JStr (lit "2024-01-01 10:00:00"));
        (lit "username", JStr (lit "alice")); (lit "message", JStr (lit "hi"));
        (lit "message_id", JInt 1704103201000)] /\
  format_message_display Demo.no_str
    (Demo.message "2024-01-01 10:00:00" "alice" "hi" 1704103201000)
  = Ok (balloon ++ lit "[10:00:00] alice: hi").
Proof.
  assert (H : format_message Demo.alice (lit "hi") Demo.ten_o_clock
                Demo.one_second_later
              = Ok [(lit "timestamp", JStr (lit "2024-01-01 10:00:00"));
                    (lit "username", JStr (lit "alice"));
                    (lit "message", JStr (lit "hi"));
                    (lit "message_id", JInt 1704103201000)])
    by (vm_compute; reflexivity).
  split; [exact H|].
  exact (@sent_message_is_displayed Demo.no_str Demo.alice (lit "hi")
           Demo.ten_o_clock Demo.one_second_later _ H).
Defined.

Lemma caught_up_receiver_reads_new_sends_witness :
  send_all PyJson.json_dumps Demo.no_str Demo.two_calls (Some session_banner)
  = Ok ([true; true], Demo.file_after Demo.two_calls) /\
  read_new_messages PyJson.json_loads Demo.after_banner
                    (Demo.file_after Demo.two_calls) =
  ({| last_position := length (file_text (Demo.file_after Demo.two_calls));
      displayed_messages := [JInt 1704103200000; JInt 1704103201000] |},
   [Demo.message "2024-01-01 10:00:00" "alice" "hi" 1704103200000;
    Demo.message "2024-01-01 10:00:01" "bob" "yo" 1704103201000], None).
Proof.
  assert (H : send_all PyJson.json_dumps Demo.no_str Demo.two_calls
                (Some session_banner)
              = Ok ([true; true], Demo.file_after Demo.two_calls))
    by (vm_compute; reflexivity).
  split; [exact H|].
  refine (@caught_up_receiver_reads_new_sends PyJson.json_loads
            PyJson.json_dumps Demo.no_str Demo.after_banner session_banner
            Demo.two_calls [true; true] (Demo.file_after Demo.two_calls)
            [[(lit "timestamp", JStr (lit "2024-01-01 10:00:00"));
              (lit "username", JStr (lit "alice"));
              (lit "message", JStr (lit "hi"));
              (lit "message_id", JInt 1704103200000)];
             [(lit "timestamp", JStr (lit "2024-01-01 10:00:01"));
              (lit "username", JStr (lit "bob"));
              (lit "message", JStr (lit "yo"));
              (lit "message_id", JInt 1704103201000)]]
            _ H _ _ _ _ _ _).
  - reflexivity.
  - vm_compute; reflexivity.
  - repeat constructor.
  - repeat constructor; try (vm_compute; reflexivity);
      intros H0; vm_compute in H0; discriminate H0.
  - vm_compute. repeat constructor; simpl; intuition discriminate.
  - vm_compute. intuition discriminate.
  - repeat constructor.
Defined.

Lemma monitor_announces_what_is_sent_witness :
  send_all PyJson.json_dumps Demo.no_str Demo.two_calls (Some session_banner)
  = Ok ([true; true], Demo.file_after Demo.two_calls) /\
  snd (monitor_loop PyJson.json_loads Demo.no_str Demo.after_banner
         [Demo.file_after Demo.two_calls])
  = [MNewMessage; MLine (balloon ++ lit "[10:00:00] alice: hi");
     MNewMessage; MLine (balloon ++ lit "[10:00:01] bob: yo"); MGoodbye].
Proof.
  assert (H : send_all PyJson.json_dumps Demo.no_str Demo.two_calls
                (Some session_banner)
              = Ok ([true; true], Demo.file_after Demo.two_calls))
    by (vm_compute; reflexivity).
  split; [exact H|].
  refine (f_equal snd
    (@monitor_announces_what_is_sent PyJson.json_loads
            PyJson.json_dumps Demo.no_str Demo.after_banner session_banner
            Demo.two_calls [true; true] (Demo.file_after Demo.two_calls)
            [[(lit "timestamp", JStr (lit "2024-01-01 10:00:00"));
              (lit "username", JStr (lit "alice"));
              (lit "message", JStr (lit "hi"));
              (lit "message_id", JInt 1704103200000)];
             [(lit "timestamp", JStr (lit "2024-01-01 10:00:01"));
              (lit "username", JStr (lit "bob"));
              (lit "message", JStr (lit "yo"));
              (lit "message_id", JInt 1704103201000)]] []
            _ H _ _ _ _ _ _)).
  - reflexivity.
  - vm_compute; reflexivity.
  - repeat constructor.
  - repeat constructor; try (vm_compute; reflexivity);
      intros H0; vm_compute in H0; discriminate H0.
  - vm_compute. repeat constructor; simpl; intuition discriminate.
  - vm_compute. intuition discriminate.
  - repeat constructor.
Defined.

Lemma undisplayable_message_stops_the_monitor_witness :
  format_message_display Demo.no_str Demo.odd_message = Raise IndexError /\
  monitor_loop PyJson.json_loads Demo.no_str receiver_init
    [Demo.broken_file; Demo.broken_file] =
  ({| last_position := 293;
      displayed_messages := [JInt 7; JInt 8; JInt 9] |},
   [MReadError AttributeError;
    MNewMessage; MLine (balloon ++ lit "[10:00:00] alice: hi");
    MNewMessage; MUnexpected IndexError]).
Proof.
  assert (H : format_message_display Demo.no_str Demo.odd_message
              = Raise IndexError) by (vm_compute; reflexivity).
  split; [exact H|].
  refine (@undisplayable_message_stops_the_monitor PyJson.json_loads
            Demo.no_str receiver_init _ Demo.broken_file
            [Demo.message "2024-01-01 10:00:00" "alice" "hi" 7]
            [Demo.message "2024-01-01 10:00:02" "bob" "yo" 9]
            Demo.odd_message [balloon ++ lit "[10:00:00] alice: hi"]
            (Some AttributeError) IndexError [Demo.broken_file] _ _ H).
  - vm_compute; reflexivity.
  - repeat constructor.
Defined.

Lemma show_existing_messages_shows_recent_witness :
  stored_messages PyJson.json_loads (Demo.file_after Demo.three_calls)
  = Ok [Demo.message "2024-01-01 10:00:00" "alice" "hi" 1704103200000;
        Demo.message "2024-01-01 10:00:00" "bob" "yo" 1704103200000;
        Demo.message "2024-01-01 10:00:01" "alice" "again" 1704103201000] /\
  exists d,
    show_existing_messages PyJson.json_loads Demo.no_str receiver_init 2
      (Some (file_text (Demo.file_after Demo.three_calls)))
      (Some (file_text (Demo.file_after Demo.three_calls))) =
    ({| last_position := length (file_text (Demo.file_after Demo.three_calls));
        displayed_messages := d |},
     [PShowing (Z.min 2 (Z.of_nat 3)); PRule]
     ++ map PMessage [balloon ++ lit "[10:00:00] bob: yo";
                      balloon ++ lit "[10:00:01] alice: again"] ++ [PRule]) /\
    incl [] d /\
    forall m id,
      In m (Py.slice_from (- 2)
              [Demo.message "2024-01-01 10:00:00" "alice" "hi" 1704103200000;
               Demo.message "2024-01-01 10:00:00" "bob" "yo" 1704103200000;
               Demo.message "2024-01-01 10:00:01" "alice" "again"
                            1704103201000]) ->
      message_id m = Ok id -> Py.truthy id = true ->
      existsb (Py.key_eq id) d = true.
Proof.
  assert (H : stored_messages PyJson.json_loads
                (Some (file_text (Demo.file_after Demo.three_calls)))
    = Ok [Demo.message "2024-01-01 10:00:00" "alice" "hi" 1704103200000;
          Demo.message "2024-01-01 10:00:00" "bob" "yo" 1704103200000;
          Demo.message "2024-01-01 10:00:01" "alice" "again" 1704103201000])
    by (vm_compute; reflexivity).
  split; [exact H|].
  refine (@show_existing_messages_shows_recent PyJson.json_loads Demo.no_str
            receiver_init 2 (file_text (Demo.file_after Demo.three_calls))
            (file_text (Demo.file_after Demo.three_calls)) _
            [balloon ++ lit "[10:00:00] bob: yo";
             balloon ++ lit "[10:00:01] alice: again"] H _ _ _).
  - discriminate.
  - repeat constructor.
  - repeat constructor; intros id Hid _; vm_compute in Hid;
      injection Hid as <-; reflexivity.
Defined.

Lemma show_existing_messages_zero_shows_all_witness :
  stored_messages PyJson.json_loads (Demo.file_after Demo.two_calls)
  = Ok [Demo.message "2024-01-01 10:00:00" "alice" "hi" 1704103200000;
        Demo.message "2024-01-01 10:00:01" "bob" "yo" 1704103201000] /\
  snd (show_existing_messages PyJson.json_loads Demo.no_str receiver_init 0
         (Some (file_text (Demo.file_after Demo.two_calls)))
         (Some (file_text (Demo.file_after Demo.two_calls)))) =
  [PShowing 0; PRule]
  ++ map PMessage [balloon ++ lit "[10:00:00] alice: hi";
                   balloon ++ lit "[10:00:01] bob: yo"] ++ [PRule].
Proof.
  assert (H : stored_messages PyJson.json_loads
                (Some (file_text (Demo.file_after Demo.two_calls)))
    = Ok [Demo.message "2024-01-01 10:00:00" "alice" "hi" 1704103200000;
          Demo.message "2024-01-01 10:00:01" "bob" "yo" 1704103201000])
    by (vm_compute; reflexivity).
  split; [exact H|].
  refine (@show_existing_messages_zero_shows_all PyJson.json_loads Demo.no_str
            receiver_init (file_text (Demo.file_after Demo.two_calls))
            (file_text (Demo.file_after Demo.two_calls)) _
            [balloon ++ lit "[10:00:00] alice: hi";
             balloon ++ lit "[10:00:01] bob: yo"] H _ _ _).
  - discriminate.
  - repeat constructor.
  - repeat constructor; intros id Hid _; vm_compute in Hid;
      injection Hid as <-; reflexivity.
Defined.

Lemma monitor_does_not_announce_what_it_showed_witness :
  last (snd (show_existing_messages PyJson.json_loads Demo.no_str receiver_init
               10 (Demo.file_after Demo.two_calls)
               (Demo.file_after Demo.two_calls))) PNoMessages = PRule /\
  monitor_chat PyJson.json_loads Demo.no_str receiver_init
    (Demo.file_after Demo.two_calls) (Demo.file_after Demo.two_calls)
    [Demo.file_after Demo.two_calls; Demo.file_after Demo.three_calls] =
  monitor_chat PyJson.json_loads Demo.no_str receiver_init
    (Demo.file_after Demo.two_calls) (Demo.file_after Demo.two_calls)
    [Demo.file_after Demo.three_calls].
Proof.
  assert (H : last (snd (show_existing_messages PyJson.json_loads Demo.no_str
                           receiver_init 10 (Demo.file_after Demo.two_calls)
                           (Demo.file_after Demo.two_calls))) PNoMessages
              = PRule) by (vm_compute; reflexivity).
  split; [exact H|].
  exact (@monitor_does_not_announce_what_it_showed PyJson.json_loads
           Demo.no_str receiver_init (Demo.file_after Demo.two_calls)
           (Demo.file_after Demo.two_calls)
           [Demo.file_after Demo.three_calls] H).
Defined.

Lemma show_existing_messages_prints_at_most_count_witness :
  printed_messages
    (snd (show_existing_messages PyJson.json_loads Demo.no_str receiver_init 1
            (Demo.file_after Demo.three_calls)
            (Demo.file_after Demo.three_calls)))
  = [balloon ++ lit "[10:00:01] alice: again"] /\
  length (printed_messages
            (snd (show_existing_messages PyJson.json_loads Demo.no_str
                    receiver_init 1 (Demo.file_after Demo.three_calls)
                    (Demo.file_after Demo.three_calls))))
  <= Z.to_nat 1.
Proof.
  split; [vm_compute; reflexivity|].
  exact (@show_existing_messages_prints_at_most_count PyJson.json_loads
           Demo.no_str receiver_init 1 (Demo.file_after Demo.three_calls)
           (Demo.file_after Demo.three_calls) eq_refl).
Defined.
